(** * The OSland node-graph canvas: a shallow embedding of the canvas engines

    Two of the repository's canvas implementations are embedded here:
    - [Browser]: the [Canvas] class of the browser extension
      (extensions/browser/src/canvas.js) together with the project
      import/export of the web IDE class [OSlandIDE];
    - [VSCode]: the [Canvas] class of the VS Code canvas webview script.

    JavaScript objects are mutable and shared, so node objects and component
    objects live in a store and are named by references; arrays, which the
    code either rebuilds ([filter]) or extends at the end ([push]), are lists.
    Numbers are integers: the additions, subtractions and comparisons of the
    code are embedded as they are written, without the rounding of
    JavaScript's doubles. *)

From stdpp Require Import base list strings pretty.
From Stdlib Require Import ZArith Lia Ascii.

Set Default Proof Using "Type".

(** ** Objects *)

Definition ref := nat.

(** A component descriptor object.  The script never declares the port
    arrays itself: a descriptor may come without them (the catalog of the
    browser component panel lists none), which is [None] here. *)
Record Component := mkComponent {
  comp_id : string;
  comp_name : string;
  comp_type : string;
  category : option string;
  color : string;
  inputs : option (list string);
  outputs : option (list string)
}.

(** A node object [{ id, component, x, y }]; [component] is a reference:
    the code stores the descriptor object it was handed. *)
Record CanvasNode := mkNode {
  node_id : string;
  component : ref;
  node_x : Z;
  node_y : Z
}.

(** A connection object.  Connection objects are never mutated after they
    are built, so they are kept by value.  (The webview script's connections
    also carry [points], always the empty array.) *)
Record Connection := mkConnection {
  conn_id : string;
  fromNode : string;
  fromPort : string;
  toNode : string;
  toPort : string
}.

Record Point := mkPoint { px : Z; py : Z }.

(** [{ nodeId, portId }]: what a port hit-test returns and what
    [connectingFrom] holds. *)
Record PortRef := mkPortRef { nodeId : string; portId : string }.

Global Instance Component_inhabited : Inhabited Component :=
  populate (mkComponent EmptyString EmptyString EmptyString None EmptyString None None).
Global Instance CanvasNode_inhabited : Inhabited CanvasNode :=
  populate (mkNode EmptyString 0 0 0).

(** ** The object store *)

Record Store := mkStore {
  comps : list Component;
  nobjs : list CanvasNode
}.

Definition nodeOf (h : Store) (r : ref) : CanvasNode := nobjs h !!! r.
Definition compOf (h : Store) (r : ref) : Component := comps h !!! r.
Definition componentOf (h : Store) (r : ref) : Component :=
  compOf h (component (nodeOf h r)).

Definition allocNode (h : Store) (n : CanvasNode) : Store * ref :=
  (mkStore (comps h) (nobjs h ++ [n]), length (nobjs h)).

Definition writeNode (h : Store) (r : ref) (n : CanvasNode) : Store :=
  mkStore (comps h) (<[r := n]> (nobjs h)).
Definition writeComp (h : Store) (r : ref) (c : Component) : Store :=
  mkStore (<[r := c]> (comps h)) (nobjs h).

(** A node whose component carries both port arrays, as the TypeScript
    interface [Component] declares them. *)
Definition hasPorts (h : Store) (r : ref) : Prop :=
  is_Some (inputs (componentOf h r)) ∧ is_Some (outputs (componentOf h r)).

(** ** Control: state and exceptions *)

Inductive Error := TypeError.

Inductive Outcome (S A : Type) :=
  | Returned (a : A) (s : S)
  | Thrown (e : Error) (s : S).
Arguments Returned {S A} a s.
Arguments Thrown {S A} e s.

Definition M (S A : Type) : Type := S → Outcome S A.

Global Instance M_ret {S} : MRet (M S) := λ A a s, Returned a s.
Global Instance M_bind {S} : MBind (M S) := λ A B f m s,
  match m s with
  | Returned a s' => f a s'
  | Thrown e s' => Thrown e s'
  end.

Definition get {S} : M S S := λ s, Returned s s.
Definition modify {S} (f : S → S) : M S unit := λ s, Returned tt (f s).
Definition throw {S A} (e : Error) : M S A := λ s, Thrown e s.

(** The state a call leaves behind, whether it returned or threw. *)
Definition final {S A} (o : Outcome S A) : S :=
  match o with Returned _ s | Thrown _ s => s end.

Definition returns {S A} (o : Outcome S A) : bool :=
  match o with Returned _ _ => true | Thrown _ _ => false end.

(** [for (const a of l) body(a)] and [l.forEach(body)]. *)
Fixpoint forEach {S A} (l : list A) (body : A → M S unit) : M S unit :=
  match l with
  | [] => mret tt
  | a :: l' => body a ;; forEach l' body
  end.

(** Reading [.length], [.indexOf] or an element of a port array that is
    [undefined] throws a TypeError. *)
Definition portArray {S} (o : option (list string)) : M S (list string) :=
  match o with
  | Some l => mret l
  | None => throw TypeError
  end.

(** ** Array helpers *)

(** [l.indexOf(s)], with JavaScript's -1 for "not found". *)
Fixpoint indexOfFrom (l : list string) (s : string) (i : Z) : Z :=
  match l with
  | [] => (-1)%Z
  | a :: l' => if String.eqb a s then i else indexOfFrom l' s (i + 1)%Z
  end.
Definition indexOf (l : list string) (s : string) : Z := indexOfFrom l s 0.

(** [nodes.find(n => n.id === i)]. *)
Fixpoint findNode (h : Store) (ns : list ref) (i : string) : option ref :=
  match ns with
  | [] => None
  | r :: ns' =>
      if String.eqb (node_id (nodeOf h r)) i then Some r else findNode h ns' i
  end.

(** ** Generated identifiers

    [Date.now()] and [Math.random().toString(36)] are inputs from the
    environment. *)
Record Env := mkEnv { now : N; random36 : string }.

(** [s.substr(2, 9)] *)
Definition substr_2_9 (s : string) : string := String.substring 2 9 s.

Definition genNodeId (e : Env) : string :=
  "node-" +:+ pretty (now e) +:+ "-" +:+ substr_2_9 (random36 e).
Definition genConnId (e : Env) : string :=
  "conn-" +:+ pretty (now e) +:+ "-" +:+ substr_2_9 (random36 e).

(** ** The drawing surface

    What the 2D context has been asked to draw since the last full
    [clearRect].  Each instruction carries the style in force. *)
Inductive DrawOp :=
  | FillRect (fillStyle : string) (x y w h : Z)
  | StrokeRect (strokeStyle : string) (lineWidth : Z) (x y w h : Z)
  | FillText (fillStyle font text : string) (x y : Z)
  | FillArc (fillStyle : string) (x y r : Z)
  | StrokeLine (strokeStyle : string) (dashed : bool) (x1 y1 x2 y2 : Z).

(** ** Hit-testing a node (the same loop in both scripts) *)

Definition inBox (n : CanvasNode) (pos : Point) : bool :=
  (node_x n <=? px pos)%Z && (px pos <=? node_x n + 100)%Z &&
  (node_y n <=? py pos)%Z && (py pos <=? node_y n + 50)%Z.

Fixpoint nodeAtPosition (h : Store) (ns : list ref) (pos : Point) : option ref :=
  match ns with
  | [] => None
  | r :: ns' => if inBox (nodeOf h r) pos then Some r else nodeAtPosition h ns' pos
  end.

(** ** A canvas object in its store *)

Record World (C : Type) := mkWorld { heap : Store; this : C }.
Arguments mkWorld {C} heap this.
Arguments heap {C} w.
Arguments this {C} w.

Definition upd {C} (f : C → C) : M (World C) unit :=
  modify (λ w, mkWorld (heap w) (f (this w))).
Definition updHeap {C} (f : Store → Store) : M (World C) unit :=
  modify (λ w, mkWorld (f (heap w)) (this w)).

(** The index values a [for (let i = 0; i < a.length; i++)] loop runs through. *)
Definition indices {A} (a : list A) : list Z := Z.of_nat <$> seq 0 (length a).

(** Notifications to the host. *)
Inductive Event :=
  | NodeSelected (n : option ref)
  | NodeAdded (n : ref)
  | ConnectionAdded (c : Connection)
  | NodeUpdated (n : ref).

(** [node.component[property] = value] for the properties a component has;
    any other property name leaves these fields alone. *)
Inductive PropertyWrite :=
  | SetId (v : string)
  | SetName (v : string)
  | SetType (v : string)
  | SetCategory (v : option string)
  | SetColor (v : string)
  | SetInputs (v : option (list string))
  | SetOutputs (v : option (list string))
  | SetOther (property : string).

Definition assignProperty (c : Component) (p : PropertyWrite) : Component :=
  match p with
  | SetId v => mkComponent v (comp_name c) (comp_type c) (category c) (color c) (inputs c) (outputs c)
  | SetName v => mkComponent (comp_id c) v (comp_type c) (category c) (color c) (inputs c) (outputs c)
  | SetType v => mkComponent (comp_id c) (comp_name c) v (category c) (color c) (inputs c) (outputs c)
  | SetCategory v => mkComponent (comp_id c) (comp_name c) (comp_type c) v (color c) (inputs c) (outputs c)
  | SetColor v => mkComponent (comp_id c) (comp_name c) (comp_type c) (category c) v (inputs c) (outputs c)
  | SetInputs v => mkComponent (comp_id c) (comp_name c) (comp_type c) (category c) (color c) v (outputs c)
  | SetOutputs v => mkComponent (comp_id c) (comp_name c) (comp_type c) (category c) (color c) (inputs c) v
  | SetOther _ => c
  end.

(** A project document.  A field the JSON object lacks is [None]. *)
Record ProjectData := mkProjectData {
  pd_name : option string;
  pd_nodes : option (list ref);
  pd_connections : option (list Connection);
  pd_version : option string;
  pd_timestamp : option string
}.

(** * The browser extension's canvas (canvas.js) *)

Module Browser.

Record Canvas := mkCanvas {
  ctx : list DrawOp;
  nodes : list ref;
  connections : list Connection;
  selectedNode : option ref;
  isDragging : bool;
  dragOffset : Point;
  isConnecting : bool;
  connectingFrom : option PortRef;
  mousePos : Point;
  selectedComponent : option ref;
  emitted : list Event
}.

Definition set_ctx v c := mkCanvas v (nodes c) (connections c) (selectedNode c) (isDragging c) (dragOffset c) (isConnecting c) (connectingFrom c) (mousePos c) (selectedComponent c) (emitted c).
Definition set_nodes v c := mkCanvas (ctx c) v (connections c) (selectedNode c) (isDragging c) (dragOffset c) (isConnecting c) (connectingFrom c) (mousePos c) (selectedComponent c) (emitted c).
Definition set_connections v c := mkCanvas (ctx c) (nodes c) v (selectedNode c) (isDragging c) (dragOffset c) (isConnecting c) (connectingFrom c) (mousePos c) (selectedComponent c) (emitted c).
Definition set_selectedNode v c := mkCanvas (ctx c) (nodes c) (connections c) v (isDragging c) (dragOffset c) (isConnecting c) (connectingFrom c) (mousePos c) (selectedComponent c) (emitted c).
Definition set_isDragging v c := mkCanvas (ctx c) (nodes c) (connections c) (selectedNode c) v (dragOffset c) (isConnecting c) (connectingFrom c) (mousePos c) (selectedComponent c) (emitted c).
Definition set_dragOffset v c := mkCanvas (ctx c) (nodes c) (connections c) (selectedNode c) (isDragging c) v (isConnecting c) (connectingFrom c) (mousePos c) (selectedComponent c) (emitted c).
Definition set_isConnecting v c := mkCanvas (ctx c) (nodes c) (connections c) (selectedNode c) (isDragging c) (dragOffset c) v (connectingFrom c) (mousePos c) (selectedComponent c) (emitted c).
Definition set_connectingFrom v c := mkCanvas (ctx c) (nodes c) (connections c) (selectedNode c) (isDragging c) (dragOffset c) (isConnecting c) v (mousePos c) (selectedComponent c) (emitted c).
Definition set_mousePos v c := mkCanvas (ctx c) (nodes c) (connections c) (selectedNode c) (isDragging c) (dragOffset c) (isConnecting c) (connectingFrom c) v (selectedComponent c) (emitted c).
Definition set_emitted v c := mkCanvas (ctx c) (nodes c) (connections c) (selectedNode c) (isDragging c) (dragOffset c) (isConnecting c) (connectingFrom c) (mousePos c) (selectedComponent c) v.

Definition W := World Canvas.

Definition paint (op : DrawOp) : M W unit := upd (λ c, set_ctx (ctx c ++ [op]) c).
Definition emit (ev : Event) : M W unit := upd (λ c, set_emitted (emitted c ++ [ev]) c).

Definition getNodeAtPosition (w : W) (pos : Point) : option ref :=
  nodeAtPosition (heap w) (nodes (this w)) pos.

Definition drawNode (r : ref) (isSelected : bool) : M W unit :=
  w ← get;
  let n := nodeOf (heap w) r in
  let c := componentOf (heap w) r in
  paint (FillRect (if isSelected then "#ffeb3b" else color c) (node_x n) (node_y n) 100 50);;
  paint (StrokeRect "#333" (if isSelected then 2 else 1) (node_x n) (node_y n) 100 50);;
  paint (FillText "#333" "12px Arial" (comp_name c) (node_x n + 50) (node_y n + 20));;
  paint (FillText "#666" "10px Arial" (comp_type c) (node_x n + 50) (node_y n + 35));;
  ins ← portArray (inputs c);
  forEach (indices ins)
    (λ i, paint (FillArc "#2ecc71" (node_x n) (node_y n + 10 + i * 15) 5));;
  outs ← portArray (outputs c);
  forEach (indices outs)
    (λ i, paint (FillArc "#e74c3c" (node_x n + 100) (node_y n + 10 + i * 15) 5)).

Definition drawNodes : M W unit :=
  w ← get;
  forEach (nodes (this w)) (λ r,
    w ← get;
    let isSelected :=
      match selectedNode (this w) with
      | Some s => String.eqb (node_id (nodeOf (heap w) s)) (node_id (nodeOf (heap w) r))
      | None => false
      end in
    drawNode r isSelected).

(** The body of the loop of [drawConnections]. *)
Definition drawConnection (conn : Connection) : M W unit :=
  w ← get;
  let h := heap w in
  match findNode h (nodes (this w)) (fromNode conn),
        findNode h (nodes (this w)) (toNode conn) with
  | Some f, Some t =>
      outs ← portArray (outputs (componentOf h f));
      ins ← portArray (inputs (componentOf h t));
      let fromPortIndex := indexOf outs (fromPort conn) in
      let toPortIndex := indexOf ins (toPort conn) in
      if negb (fromPortIndex =? -1)%Z && negb (toPortIndex =? -1)%Z then
        paint (StrokeLine "#3498db" false
                 (node_x (nodeOf h f) + 100) (node_y (nodeOf h f) + 10 + fromPortIndex * 15)
                 (node_x (nodeOf h t)) (node_y (nodeOf h t) + 10 + toPortIndex * 15))
      else mret tt
  | _, _ => mret tt
  end.

Definition drawConnections : M W unit :=
  w ← get; forEach (connections (this w)) drawConnection.

Definition drawConnectingLine : M W unit :=
  w ← get;
  let h := heap w in
  match connectingFrom (this w) with
  | None => mret tt
  | Some cf =>
      match findNode h (nodes (this w)) (nodeId cf) with
      | None => mret tt
      | Some f =>
          outs ← portArray (outputs (componentOf h f));
          let fromPortIndex := indexOf outs (portId cf) in
          if (fromPortIndex =? -1)%Z then mret tt
          else paint (StrokeLine "#e74c3c" true
                        (node_x (nodeOf h f) + 100) (node_y (nodeOf h f) + 10 + fromPortIndex * 15)
                        (px (mousePos (this w))) (py (mousePos (this w))))
      end
  end.

Definition draw : M W unit :=
  upd (set_ctx []);;
  drawConnections;;
  drawNodes;;
  w ← get;
  if isConnecting (this w) && bool_decide (is_Some (connectingFrom (this w)))
  then drawConnectingLine else mret tt.

(** [new Canvas(canvasId)]: the constructor's field values, then [init()]'s
    first [draw()]. *)
Definition newCanvas : Canvas :=
  mkCanvas [] [] [] None false (mkPoint 0 0) false None (mkPoint 0 0) None [].

(** The handlers take the position [getMousePos(e)] computes. *)
Definition handleMouseDown (pos : Point) : M W unit :=
  upd (set_mousePos pos);;
  w ← get;
  match getNodeAtPosition w pos with
  | Some clickedNode =>
      upd (set_isDragging true);;
      upd (set_selectedNode (Some clickedNode));;
      upd (set_dragOffset
             (mkPoint (px pos - node_x (nodeOf (heap w) clickedNode))
                      (py pos - node_y (nodeOf (heap w) clickedNode))))
  | None => mret tt
  end.

Definition handleMouseMove (pos : Point) : M W unit :=
  upd (set_mousePos pos);;
  w ← get;
  match isDragging (this w), selectedNode (this w) with
  | true, Some s =>
      let n := nodeOf (heap w) s in
      let off := dragOffset (this w) in
      updHeap (λ h, writeNode h s
        (mkNode (node_id n) (component n) (px pos - px off) (py pos - py off)));;
      draw
  | _, _ => mret tt
  end;;
  w ← get;
  if isConnecting (this w) && bool_decide (is_Some (connectingFrom (this w)))
  then draw else mret tt.

Definition handleMouseUp : M W unit :=
  upd (set_isDragging false);;
  upd (set_isConnecting false);;
  upd (set_connectingFrom None).

Definition handleClick (pos : Point) : M W unit :=
  upd (set_mousePos pos);;
  w ← get;
  let clickedNode := getNodeAtPosition w pos in
  (if isDragging (this w) then mret tt
   else
     match clickedNode with
     | Some n => upd (set_selectedNode (Some n));; emit (NodeSelected (Some n))
     | None => upd (set_selectedNode None);; emit (NodeSelected None)
     end);;
  draw.

Definition addNode (e : Env) (component : ref) (x y : Z) : M W ref :=
  w ← get;
  let '(h, newNode) := allocNode (heap w) (mkNode (genNodeId e) component x y) in
  updHeap (λ _, h);;
  upd (λ c, set_nodes (nodes c ++ [newNode]) c);;
  upd (set_selectedNode (Some newNode));;
  draw;;
  emit (NodeAdded newNode);;
  mret newNode.

Definition removeNode (nodeId : string) : M W unit :=
  w ← get;
  upd (λ c, set_nodes (filter (λ r, node_id (nodeOf (heap w) r) ≠ nodeId) (nodes c)) c);;
  upd (λ c, set_connections
              (filter (λ conn, fromNode conn ≠ nodeId ∧ toNode conn ≠ nodeId) (connections c)) c);;
  match selectedNode (this w) with
  | Some s =>
      if String.eqb (node_id (nodeOf (heap w) s)) nodeId
      then upd (set_selectedNode None);; emit (NodeSelected None)
      else mret tt
  | None => mret tt
  end;;
  draw.

Definition addConnection (e : Env) (fromNodeId fromPort toNodeId toPort : string)
  : M W Connection :=
  let newConnection := mkConnection (genConnId e) fromNodeId fromPort toNodeId toPort in
  upd (λ c, set_connections (connections c ++ [newConnection]) c);;
  draw;;
  emit (ConnectionAdded newConnection);;
  mret newConnection.

Definition updateNodeProperty (nodeId : string) (p : PropertyWrite) : M W unit :=
  w ← get;
  match findNode (heap w) (nodes (this w)) nodeId with
  | Some node =>
      let cr := component (nodeOf (heap w) node) in
      updHeap (λ h, writeComp h cr (assignProperty (compOf h cr) p));;
      draw;;
      emit (NodeUpdated node)
  | None => mret tt
  end.


Definition loadProjectData (projectData : ProjectData) : M W unit :=
  match pd_nodes projectData with
  | Some ns => upd (set_nodes ns)
  | None => mret tt
  end;;
  match pd_connections projectData with
  | Some cs => upd (set_connections cs)
  | None => mret tt
  end;;
  draw.

End Browser.

(** * The web IDE's project import and export (class [OSlandIDE]) *)

Module IDE.

Import Browser.

(** [this.canvas] is a [Canvas] of canvas.js. *)
Record OSlandIDE := mkIDE {
  canvas : Canvas;
  projectName : string
}.

Definition I := World OSlandIDE.

(** [new OSlandIDE()] after [initializePanels()]. *)
Definition newIDE : OSlandIDE := mkIDE newCanvas "Untitled Project".

(** [this.canvas.m(...)] for a name [m] that class [Canvas] does not
    define ([clear], [exportNodes], [exportConnections], [importNode],
    [importConnection]): the property read gives [undefined], and calling
    [undefined] throws a TypeError. *)
Definition callUndefined {A} (m : string) : M I A := throw TypeError.

(** [timestamp] is [new Date().toISOString()].  The object literal
    evaluates its properties in order. *)
Definition exportProjectData (timestamp : string) : M I ProjectData :=
  i ← get;
  let name := projectName (this i) in
  nodes ← callUndefined "exportNodes";
  connections ← callUndefined "exportConnections";
  mret (mkProjectData (Some name) (Some nodes) (Some connections)
                      (Some "1.0.0") (Some timestamp)).

(** [a || "Untitled Project"]: an absent or empty name is falsy. *)
Definition nameOrDefault (name : option string) : string :=
  match name with
  | Some (String a s) => String a s
  | _ => "Untitled Project"
  end.

(** [projectData] itself may be [null].  (The write to the page's
    [projectName] input is left to the host page.) *)
Definition importProjectData (projectData : option ProjectData) : M I unit :=
  match projectData with
  | None => mret tt
  | Some pd =>
      modify (λ i, mkWorld (heap i) (mkIDE (canvas (this i)) (nameOrDefault (pd_name pd))));;
      callUndefined (A := unit) "clear";;
      match pd_nodes pd with
      | Some ns =>
          if (0 <? length ns)%nat
          then forEach ns (λ nodeData : ref, callUndefined (A := unit) "importNode")
          else mret tt
      | None => mret tt
      end;;
      match pd_connections pd with
      | Some cs =>
          if (0 <? length cs)%nat
          then forEach cs (λ connData : Connection, callUndefined (A := unit) "importConnection")
          else mret tt
      | None => mret tt
      end
  end.

End IDE.

(** * The VS Code canvas webview script *)

Module VSCode.

Inductive Tool := ToolSelect | ToolAddComponent | ToolConnect | ToolOther.

(** [sendMessage({ type: 'node-selected', node })] *)
Inductive Message := NodeSelectedMessage (node : ref).

(** Messages the extension posts to the webview. *)
Inductive HostMessage :=
  | Init (components : list ref)
  | ComponentSelected (component : ref)
  | PropertyChanged (nodeId : string) (p : PropertyWrite).

Record Canvas := mkCanvas {
  ctx : list DrawOp;
  nodes : list ref;
  connections : list Connection;
  selectedTool : Tool;
  selectedNode : option ref;
  draggedNode : option ref;
  dragOffset : Point;
  isConnecting : bool;
  connectingFrom : option PortRef;
  mousePos : Point;
  components : list ref;
  selectedComponent : option ref;
  posted : list Message
}.

Definition set_ctx v c := mkCanvas v (nodes c) (connections c) (selectedTool c) (selectedNode c) (draggedNode c) (dragOffset c) (isConnecting c) (connectingFrom c) (mousePos c) (components c) (selectedComponent c) (posted c).
Definition set_nodes v c := mkCanvas (ctx c) v (connections c) (selectedTool c) (selectedNode c) (draggedNode c) (dragOffset c) (isConnecting c) (connectingFrom c) (mousePos c) (components c) (selectedComponent c) (posted c).
Definition set_connections v c := mkCanvas (ctx c) (nodes c) v (selectedTool c) (selectedNode c) (draggedNode c) (dragOffset c) (isConnecting c) (connectingFrom c) (mousePos c) (components c) (selectedComponent c) (posted c).
Definition set_selectedTool v c := mkCanvas (ctx c) (nodes c) (connections c) v (selectedNode c) (draggedNode c) (dragOffset c) (isConnecting c) (connectingFrom c) (mousePos c) (components c) (selectedComponent c) (posted c).
Definition set_selectedNode v c := mkCanvas (ctx c) (nodes c) (connections c) (selectedTool c) v (draggedNode c) (dragOffset c) (isConnecting c) (connectingFrom c) (mousePos c) (components c) (selectedComponent c) (posted c).
Definition set_draggedNode v c := mkCanvas (ctx c) (nodes c) (connections c) (selectedTool c) (selectedNode c) v (dragOffset c) (isConnecting c) (connectingFrom c) (mousePos c) (components c) (selectedComponent c) (posted c).
Definition set_dragOffset v c := mkCanvas (ctx c) (nodes c) (connections c) (selectedTool c) (selectedNode c) (draggedNode c) v (isConnecting c) (connectingFrom c) (mousePos c) (components c) (selectedComponent c) (posted c).
Definition set_isConnecting v c := mkCanvas (ctx c) (nodes c) (connections c) (selectedTool c) (selectedNode c) (draggedNode c) (dragOffset c) v (connectingFrom c) (mousePos c) (components c) (selectedComponent c) (posted c).
Definition set_connectingFrom v c := mkCanvas (ctx c) (nodes c) (connections c) (selectedTool c) (selectedNode c) (draggedNode c) (dragOffset c) (isConnecting c) v (mousePos c) (components c) (selectedComponent c) (posted c).
Definition set_mousePos v c := mkCanvas (ctx c) (nodes c) (connections c) (selectedTool c) (selectedNode c) (draggedNode c) (dragOffset c) (isConnecting c) (connectingFrom c) v (components c) (selectedComponent c) (posted c).
Definition set_components v c := mkCanvas (ctx c) (nodes c) (connections c) (selectedTool c) (selectedNode c) (draggedNode c) (dragOffset c) (isConnecting c) (connectingFrom c) (mousePos c) v (selectedComponent c) (posted c).
Definition set_selectedComponent v c := mkCanvas (ctx c) (nodes c) (connections c) (selectedTool c) (selectedNode c) (draggedNode c) (dragOffset c) (isConnecting c) (connectingFrom c) (mousePos c) (components c) v (posted c).
Definition set_posted v c := mkCanvas (ctx c) (nodes c) (connections c) (selectedTool c) (selectedNode c) (draggedNode c) (dragOffset c) (isConnecting c) (connectingFrom c) (mousePos c) (components c) (selectedComponent c) v.

Definition W := World Canvas.

Definition newCanvas : Canvas :=
  mkCanvas [] [] [] ToolSelect None None (mkPoint 0 0) false None (mkPoint 0 0) [] None [].

Definition paint (op : DrawOp) : M W unit := upd (λ c, set_ctx (ctx c ++ [op]) c).
Definition sendMessage (m : Message) : M W unit := upd (λ c, set_posted (posted c ++ [m]) c).

Definition getNodeAtPosition (w : W) (pos : Point) : option ref :=
  nodeAtPosition (heap w) (nodes (this w)) pos.

(** One of the two inner loops of [getPortAtPosition]: the ports of one side
    of one node, from index [i] on. *)
Fixpoint scanPorts (nodeId : string) (portX nodeY : Z) (pos : Point)
    (ports : list string) (i : Z) : option PortRef :=
  match ports with
  | [] => None
  | p :: ports' =>
      if (Z.abs (px pos - portX) <=? 5)%Z &&
         (Z.abs (py pos - (nodeY + 15 + i * 20)) <=? 5)%Z
      then Some (mkPortRef nodeId p)
      else scanPorts nodeId portX nodeY pos ports' (i + 1)%Z
  end.

Fixpoint portAtPosition (h : Store) (ns : list ref) (pos : Point) : M W (option PortRef) :=
  match ns with
  | [] => mret None
  | r :: ns' =>
      let node := nodeOf h r in
      ins ← portArray (inputs (componentOf h r));
      match scanPorts (node_id node) (node_x node - 10) (node_y node) pos ins 0 with
      | Some p => mret (Some p)
      | None =>
          outs ← portArray (outputs (componentOf h r));
          match scanPorts (node_id node) (node_x node + 110) (node_y node) pos outs 0 with
          | Some p => mret (Some p)
          | None => portAtPosition h ns' pos
          end
      end
  end.

Definition getPortAtPosition (pos : Point) : M W (option PortRef) :=
  w ← get; portAtPosition (heap w) (nodes (this w)) pos.

Definition drawNode (r : ref) (isSelected : bool) : M W unit :=
  w ← get;
  let n := nodeOf (heap w) r in
  let c := componentOf (heap w) r in
  paint (FillRect (if isSelected then "#ffeb3b" else color c) (node_x n) (node_y n) 100 50);;
  paint (StrokeRect "#000000" (if isSelected then 3 else 1) (node_x n) (node_y n) 100 50);;
  paint (FillText "#000000" "14px Arial" (comp_name c) (node_x n + 50) (node_y n + 25));;
  ins ← portArray (inputs c);
  forEach (indices ins)
    (λ i, paint (FillArc "#ff0000" (node_x n - 10) (node_y n + 15 + i * 20) 5));;
  outs ← portArray (outputs c);
  forEach (indices outs)
    (λ i, paint (FillArc "#00ff00" (node_x n + 110) (node_y n + 15 + i * 20) 5)).

Definition drawNodes : M W unit :=
  w ← get;
  forEach (nodes (this w)) (λ r,
    w ← get;
    let isSelected :=
      match selectedNode (this w) with
      | Some s => String.eqb (node_id (nodeOf (heap w) s)) (node_id (nodeOf (heap w) r))
      | None => false
      end in
    drawNode r isSelected).

(** The body of the loop of [drawConnections]. *)
Definition drawConnection (connection : Connection) : M W unit :=
  w ← get;
  let h := heap w in
  match findNode h (nodes (this w)) (fromNode connection),
        findNode h (nodes (this w)) (toNode connection) with
  | Some f, Some t =>
      outs ← portArray (outputs (componentOf h f));
      ins ← portArray (inputs (componentOf h t));
      let fromPortIndex := indexOf outs (fromPort connection) in
      let toPortIndex := indexOf ins (toPort connection) in
      if negb (fromPortIndex =? -1)%Z && negb (toPortIndex =? -1)%Z then
        paint (StrokeLine "#000000" false
                 (node_x (nodeOf h f) + 110) (node_y (nodeOf h f) + 15 + fromPortIndex * 20)
                 (node_x (nodeOf h t) - 10) (node_y (nodeOf h t) + 15 + toPortIndex * 20))
      else mret tt
  | _, _ => mret tt
  end.

Definition drawConnections : M W unit :=
  w ← get; forEach (connections (this w)) drawConnection.

Definition drawConnectingLine : M W unit :=
  w ← get;
  let h := heap w in
  match connectingFrom (this w) with
  | None => mret tt
  | Some cf =>
      match findNode h (nodes (this w)) (nodeId cf) with
      | None => mret tt
      | Some f =>
          outs ← portArray (outputs (componentOf h f));
          let portIndex := indexOf outs (portId cf) in
          if (portIndex =? -1)%Z then mret tt
          else paint (StrokeLine "#000000" true
                        (node_x (nodeOf h f) + 110) (node_y (nodeOf h f) + 15 + portIndex * 20)
                        (px (mousePos (this w))) (py (mousePos (this w))))
      end
  end.

Definition draw : M W unit :=
  upd (set_ctx []);;
  drawConnections;;
  drawNodes;;
  w ← get;
  if isConnecting (this w) && bool_decide (is_Some (connectingFrom (this w)))
  then drawConnectingLine else mret tt.

Definition handleSelectTool : M W unit :=
  w ← get;
  match getNodeAtPosition w (mousePos (this w)) with
  | Some clickedNode =>
      upd (set_selectedNode (Some clickedNode));;
      upd (set_draggedNode (Some clickedNode));;
      upd (set_dragOffset
             (mkPoint (px (mousePos (this w)) - node_x (nodeOf (heap w) clickedNode))
                      (py (mousePos (this w)) - node_y (nodeOf (heap w) clickedNode))));;
      sendMessage (NodeSelectedMessage clickedNode)
  | None => upd (set_selectedNode None)
  end.

Definition handleAddComponentTool (e : Env) : M W unit :=
  w ← get;
  match selectedComponent (this w) with
  | Some sc =>
      let '(h, newNode) :=
        allocNode (heap w)
          (mkNode (genNodeId e) sc (px (mousePos (this w)) - 50) (py (mousePos (this w)) - 25)) in
      updHeap (λ _, h);;
      upd (λ c, set_nodes (nodes c ++ [newNode]) c);;
      upd (set_selectedNode (Some newNode));;
      sendMessage (NodeSelectedMessage newNode)
  | None => mret tt
  end.

Definition handleConnectTool : M W unit :=
  w ← get;
  port ← getPortAtPosition (mousePos (this w));
  match port with
  | Some port =>
      if isConnecting (this w) then mret tt
      else
        upd (set_isConnecting true);;
        upd (set_connectingFrom (Some (mkPortRef (nodeId port) (portId port))))
  | None => mret tt
  end.

Definition completeConnection (e : Env) : M W unit :=
  w ← get;
  port ← getPortAtPosition (mousePos (this w));
  match port, connectingFrom (this w) with
  | Some port, Some cf =>
      if negb (String.eqb (nodeId port) (nodeId cf)) then
        let connection :=
          mkConnection (genConnId e) (nodeId cf) (portId cf) (nodeId port) (portId port) in
        upd (λ c, set_connections (connections c ++ [connection]) c)
      else mret tt
  | _, _ => mret tt
  end;;
  upd (set_isConnecting false);;
  upd (set_connectingFrom None).

Definition deleteSelectedNode : M W unit :=
  w ← get;
  match selectedNode (this w) with
  | Some s =>
      let sid := node_id (nodeOf (heap w) s) in
      upd (λ c, set_connections
                  (filter (λ conn, fromNode conn ≠ sid ∧ toNode conn ≠ sid) (connections c)) c);;
      upd (λ c, set_nodes (filter (λ r, node_id (nodeOf (heap w) r) ≠ sid) (nodes c)) c);;
      upd (set_selectedNode None)
  | None => mret tt
  end.

Definition updateNodeProperty (nodeId : string) (p : PropertyWrite) : M W unit :=
  w ← get;
  match findNode (heap w) (nodes (this w)) nodeId with
  | Some node =>
      match p with
      | SetName value =>
          let cr := component (nodeOf (heap w) node) in
          updHeap (λ h, writeComp h cr (assignProperty (compOf h cr) (SetName value)))
      | _ => mret tt
      end
  | None => mret tt
  end.

Definition handleMouseDown (e : Env) (pos : Point) : M W unit :=
  upd (set_mousePos pos);;
  w ← get;
  match selectedTool (this w) with
  | ToolSelect => handleSelectTool
  | ToolAddComponent => handleAddComponentTool e
  | ToolConnect => handleConnectTool
  | ToolOther => mret tt
  end.

Definition handleMouseMove (pos : Point) : M W unit :=
  upd (set_mousePos pos);;
  w ← get;
  match draggedNode (this w) with
  | Some d =>
      let n := nodeOf (heap w) d in
      let off := dragOffset (this w) in
      updHeap (λ h, writeNode h d
        (mkNode (node_id n) (component n) (px pos - px off) (py pos - py off)))
  | None => mret tt
  end;;
  draw.

Definition handleMouseUp (e : Env) : M W unit :=
  upd (set_draggedNode None);;
  w ← get;
  if isConnecting (this w) then completeConnection e else mret tt.

Definition handleKeyDown (key : string) : M W unit :=
  w ← get;
  if String.eqb key "Delete" && bool_decide (is_Some (selectedNode (this w)))
  then deleteSelectedNode else mret tt.

Definition onMessage (m : HostMessage) : M W unit :=
  match m with
  | Init cs => upd (set_components cs)
  | ComponentSelected c =>
      upd (set_selectedComponent (Some c));;
      upd (set_selectedTool ToolAddComponent)
  | PropertyChanged nodeId p => updateNodeProperty nodeId p
  end.

Definition addConnection (e : Env) (fromNodeId fromPort toNodeId toPort : string)
  : M W unit :=
  let connection :=
    mkConnection ("connection-" +:+ pretty (now e)) fromNodeId fromPort toNodeId toPort in
  upd (λ c, set_connections (connections c ++ [connection]) c);;
  draw.

End VSCode.

(** * Specification vocabulary *)

(** ** Repainting

    A canvas class exposes its drawing surface and its node array; drawing
    code touches the surface only. *)
Class Surface (C : Type) := {
  surfaceOf : C → list DrawOp;
  nodesOf : C → list ref;
  withSurface : list DrawOp → C → C;
  withSurface_twice a b c : withSurface a (withSurface b c) = withSurface a c;
  withSurface_same c : withSurface (surfaceOf c) c = c;
  nodesOf_withSurface a c : nodesOf (withSurface a c) = nodesOf c
}.

Global Program Instance Browser_Surface : Surface Browser.Canvas := {|
  surfaceOf := Browser.ctx;
  nodesOf := Browser.nodes;
  withSurface := Browser.set_ctx
|}.
Next Obligation. by intros a b []. Qed.
Next Obligation. by intros []. Qed.
Next Obligation. by intros a []. Qed.

Global Program Instance VSCode_Surface : Surface VSCode.Canvas := {|
  surfaceOf := VSCode.ctx;
  nodesOf := VSCode.nodes;
  withSurface := VSCode.set_ctx
|}.
Next Obligation. by intros a b []. Qed.
Next Obligation. by intros []. Qed.
Next Obligation. by intros a []. Qed.

(** [w'] is [w] with another picture on the surface. *)
Definition repaint {C} `{Surface C} (w w' : World C) : Prop :=
  heap w' = heap w ∧ ∃ ops, this w' = withSurface ops (this w).

(** A computation that only draws. *)
Definition paints {C A} `{Surface C} (m : M (World C) A) : Prop :=
  ∀ w, repaint w (final (m w)).

(** Port arrays are present on every node of the canvas. *)
Definition typed {C} `{Surface C} (w : World C) : Prop :=
  Forall (hasPorts (heap w)) (nodesOf (this w)).

(** Every node of the canvas is an allocated object. *)
Definition allocated {C} `{Surface C} (w : World C) : Prop :=
  Forall (λ r, r < length (nobjs (heap w))) (nodesOf (this w)).

(** The bounding box of a node, [position] to [position + (100, 50)],
    borders included, contains the point. *)
Definition boxContains (n : CanvasNode) (pos : Point) : Prop :=
  (node_x n ≤ px pos ≤ node_x n + 100)%Z ∧ (node_y n ≤ py pos ≤ node_y n + 50)%Z.

(** [r] is the first entry of [ns] with property [P]. *)
Definition firstWith (P : ref → Prop) (ns : list ref) (r : ref) : Prop :=
  ∃ pre post, ns = pre ++ r :: post ∧ P r ∧ Forall (λ r', ¬ P r') pre.

(** ** Example data *)

(** Catalog entries of the VS Code component panel. *)
Definition cpu : Component :=
  mkComponent "cpu" "CPU" "processor" None "#3498db" (Some ["in"]) (Some ["out"]).
Definition memory : Component :=
  mkComponent "memory" "Memory" "memory" None "#2ecc71" (Some ["in"]) (Some ["out"]).
Definition disk : Component :=
  mkComponent "disk" "Disk" "storage" None "#e74c3c" (Some ["in"]) (Some ["out"]).

(** The first catalog entry of the browser component panel. *)
Definition browserCpu : Component :=
  mkComponent "cpu" "CPU" "processor" (Some "processor") "#3498db" None None.

Definition catalog : Store := mkStore [cpu; memory; disk; browserCpu] [].

Definition env1 : Env := mkEnv 1700000000000 "0.4fzyo82mvyr".
Definition env2 : Env := mkEnv 1700000000001 "0.k3j9x0a1b2c".
Definition env3 : Env := mkEnv 1700000000002 "0.zz81hq7w3ep".

(** One node placed at (100, 100). *)
Definition oneNodeBrowser : Browser.W :=
  final (Browser.addNode env1 0 100 100 (mkWorld catalog Browser.newCanvas)).
Definition oneNodeVSCode : VSCode.W :=
  let w := mkWorld catalog VSCode.newCanvas in
  let w := final (VSCode.onMessage (VSCode.ComponentSelected 0) w) in
  final (VSCode.handleMouseDown env1 (mkPoint 150 125) w).

(** A node at (50, 50), pressed at (60, 60). *)
Definition nodeAt50Browser : Browser.W :=
  final (Browser.addNode env1 0 50 50 (mkWorld catalog Browser.newCanvas)).
Definition draggingBrowser : Browser.W :=
  final (Browser.handleMouseDown (mkPoint 60 60) nodeAt50Browser).

Definition nodeAt50VSCode : VSCode.W :=
  mkWorld (mkStore [cpu; memory; disk] [mkNode (genNodeId env1) 0 50 50])
          (VSCode.set_nodes [0] VSCode.newCanvas).
Definition draggingVSCode : VSCode.W :=
  final (VSCode.handleMouseDown env1 (mkPoint 60 60) nodeAt50VSCode).

(** Two nodes, [cpu] at (0, 0) and [memory] at (300, 0), under the connect
    tool. *)
Definition twoNodesVSCode : VSCode.W :=
  mkWorld (mkStore [cpu; memory; disk]
                   [mkNode (genNodeId env1) 0 0 0; mkNode (genNodeId env2) 1 300 0])
          (VSCode.set_selectedTool VSCode.ToolConnect
             (VSCode.set_nodes [0; 1] VSCode.newCanvas)).

(** The gesture: press at [start], move to [stop], release. *)
Definition connectGesture (start stop : Point) (w : VSCode.W) : VSCode.W :=
  let w := final (VSCode.handleMouseDown env3 start w) in
  let w := final (VSCode.handleMouseMove stop w) in
  final (VSCode.handleMouseUp env3 w).

(** What [completeConnection] commits, given what the port hit-test under
    the cursor gave. *)
Definition committed (e : Env) (hit : Outcome VSCode.W (option PortRef))
    (from : option PortRef) : list Connection :=
  match hit, from with
  | Returned (Some port) _, Some cf =>
      if decide (nodeId port = nodeId cf) then []
      else [mkConnection (genConnId e) (nodeId cf) (portId cf) (nodeId port) (portId port)]
  | _, _ => []
  end.

(** The state of a gesture that started at [start] and has moved to [stop],
    before the button is released. *)
Definition connectHeld (start stop : Point) (w : VSCode.W) : VSCode.W :=
  final (VSCode.handleMouseMove stop (final (VSCode.handleMouseDown env3 start w))).

(** One node, and a connection from it to a node that does not exist. *)
Definition danglingBrowser : Browser.W :=
  final (Browser.addConnection env2 (genNodeId env1) "out" "ghost" "in" oneNodeBrowser).

(** No node of the canvas carries the id. *)
Definition unknownId (h : Store) (ns : list ref) (i : string) : Prop :=
  Forall (λ r, node_id (nodeOf h r) ≠ i) ns.

(** The connection names the id at neither end. *)
Definition avoids (i : string) (c : Connection) : Prop :=
  fromNode c ≠ i ∧ toNode c ≠ i.


(** Two nodes placed from the same catalog entry. *)
Definition twinsBrowser : Browser.W :=
  final (Browser.addNode env2 0 300 100 oneNodeBrowser).

(** The heap after [updateNodeProperty(nodeId, ...)] applied [p]: the
    component object of the first node carrying [nodeId] is written. *)
Definition propertyWritten (h : Store) (ns : list ref) (nodeId : string)
    (p : PropertyWrite) : Store :=
  match findNode h ns nodeId with
  | Some node =>
      let cr := component (nodeOf h node) in
      writeComp h cr (assignProperty (compOf h cr) p)
  | None => h
  end.

(** Two nodes placed from two different catalog entries. *)
Definition pairBrowser : Browser.W :=
  final (Browser.addNode env2 1 300 100 oneNodeBrowser).

(** No character of the string is a dash. *)
Fixpoint dashFree (s : string) : Prop :=
  match s with
  | EmptyString => True
  | String a s' => a ≠ "-"%char ∧ dashFree s'
  end.

(** The same clock value and the same random digits, twice. *)
Definition clashBrowser : Browser.W :=
  final (Browser.addNode env1 0 300 100 oneNodeBrowser).

(** The component panel of the browser extension hands over its own catalog
    entry, which has no port arrays. *)
Definition browserClick : Outcome Browser.W ref :=
  Browser.addNode env1 3 100 100 (mkWorld catalog Browser.newCanvas).


(** The port list has the name; a component without the list has none. *)
Definition listed (ports : option (list string)) (p : string) : Prop :=
  ∃ l, ports = Some l ∧ p ∈ l.

(** A dangling connection on the node array [ns]: one of its node ids
    resolves to no node, or [fromPort] is absent from the output ports of
    the node [fromNode] resolves to, or [toPort] from the input ports of the
    node [toNode] resolves to. *)
Definition dangling (h : Store) (ns : list ref) (c : Connection) : Prop :=
  findNode h ns (fromNode c) = None ∨
  findNode h ns (toNode c) = None ∨
  ∃ f t,
    findNode h ns (fromNode c) = Some f ∧
    findNode h ns (toNode c) = Some t ∧
    (¬ listed (outputs (componentOf h f)) (fromPort c) ∨
     ¬ listed (inputs (componentOf h t)) (toPort c)).

(** The two port arrays the loop body reads for [c] exist: when both node
    ids resolve, the source has its [outputs] and the target its [inputs]. *)
Definition portsPresent (h : Store) (ns : list ref) (c : Connection) : Prop :=
  ∀ f t,
    findNode h ns (fromNode c) = Some f → findNode h ns (toNode c) = Some t →
    is_Some (outputs (componentOf h f)) ∧ is_Some (inputs (componentOf h t)).

(** A canvas with a node of a template with ports (node 0) and a node of the
    browser panel's first entry, which has none (node 1), and a connection
    from a port node 0 does not have to node 1. *)
Definition mixedBrowser : Browser.W :=
  final (Browser.addNode env2 3 300 100 oneNodeBrowser).
Definition unlistedConnection : Connection :=
  mkConnection (genConnId env3) (genNodeId env1) "nope" (genNodeId env2) "in".

(** A document whose only node is node 1 of [mixedBrowser], with a
    connection to a node it does not list, and a fresh canvas in the store
    that holds the document's node object. *)
Definition portlessDocument : ProjectData :=
  mkProjectData (Some "demo") (Some [1])
    (Some [mkConnection (genConnId env3) (genNodeId env2) "out" "ghost" "in"])
    (Some "1.0.0") (Some "2025-01-01T00:00:00.000Z").
Definition portlessLoaded : Outcome Browser.W unit :=
  Browser.loadProjectData portlessDocument (mkWorld (heap mixedBrowser) Browser.newCanvas).

(** A document with one node and a connection to a node it does not list. *)
Definition danglingDocument : ProjectData :=
  mkProjectData (Some "demo") (Some [0])
    (Some [mkConnection (genConnId env2) (genNodeId env1) "out" "ghost" "in"])
    (Some "1.0.0") (Some "2025-01-01T00:00:00.000Z").

(** A fresh canvas in the store that holds the document's node object. *)
Definition freshBrowser : Browser.W :=
  mkWorld (heap oneNodeBrowser) Browser.newCanvas.

Definition isLine (op : DrawOp) : bool :=
  match op with StrokeLine _ _ _ _ _ _ => true | _ => false end.

(** Three nodes (cpu, memory, disk) and two connections, in the web IDE. *)
Definition threeNodes : Browser.W :=
  let w := mkWorld catalog Browser.newCanvas in
  let w := final (Browser.addNode env1 0 100 100 w) in
  let w := final (Browser.addNode env2 1 300 100 w) in
  let w := final (Browser.addNode env3 2 500 100 w) in
  let w := final (Browser.addConnection env1 (genNodeId env1) "out" (genNodeId env2) "in" w) in
  final (Browser.addConnection env2 (genNodeId env2) "out" (genNodeId env3) "in" w).

Definition threeNodesIDE : IDE.I :=
  mkWorld (heap threeNodes) (IDE.mkIDE (this threeNodes) "kernel").


(** Outcomes of the examples. *)
Definition draggedTo80 : Browser.W :=
  final (Browser.handleMouseMove (mkPoint 80 80) draggingBrowser).

Definition heldInputToOutput : VSCode.W :=
  connectHeld (mkPoint (-10) 15) (mkPoint 410 15) twoNodesVSCode.
Definition heldOutputToOwnInput : VSCode.W :=
  connectHeld (mkPoint 110 15) (mkPoint (-10) 15) twoNodesVSCode.

Definition selfLooped : Browser.W :=
  final (Browser.addConnection env2 (genNodeId env1) "out" (genNodeId env1) "in"
           oneNodeBrowser).

Definition ghostConnection : Connection :=
  mkConnection (genConnId env2) (genNodeId env1) "out" "ghost" "in".
Definition ghostRemoved : Browser.W := final (Browser.removeNode "ghost" danglingBrowser).
Definition nobodyRemoved : Browser.W := final (Browser.removeNode "nobody" danglingBrowser).

Definition renamedTwins : Browser.W :=
  final (Browser.updateNodeProperty (genNodeId env1) (SetName "Boot CPU") twinsBrowser).
Definition renamedPair : Browser.W :=
  final (Browser.updateNodeProperty (genNodeId env1) (SetName "Boot CPU") pairBrowser).

Definition ghostLoaded : Outcome Browser.W unit :=
  Browser.loadProjectData danglingDocument freshBrowser.


(** A canvas in select mode that holds node [0] of [nodeAt50VSCode], pressed
    at (60, 60) and moved to (80, 80). *)
Definition draggedVSCode : VSCode.W :=
  final (VSCode.handleMouseMove (mkPoint 80 80) draggingVSCode).

(** A connect gesture in progress over a node whose component has no port
    arrays. *)
Definition stuckVSCode : VSCode.W :=
  mkWorld (mkStore [browserCpu] [mkNode (genNodeId env1) 0 0 0])
          (VSCode.set_connectingFrom (Some (mkPortRef (genNodeId env1) "out"))
             (VSCode.set_isConnecting true (VSCode.set_nodes [0] VSCode.newCanvas))).

(** The webview canvas with its one node selected. *)
Definition selectedVSCode : VSCode.W :=
  mkWorld (heap nodeAt50VSCode)
          (VSCode.set_selectedNode (Some 0) (this nodeAt50VSCode)).

(** ** The webview canvas as an event loop

    The listeners the constructor registers ([setupEventListeners],
    [setupMessageListener]): the canvas script is driven by nothing else.
    An exception thrown by a listener ends that listener only. *)
Inductive WebviewEvent :=
  | MouseDown (e : Env) (pos : Point)
  | MouseMove (pos : Point)
  | MouseUp (e : Env)
  | MouseLeave (e : Env)
  | KeyDown (key : string)
  | Posted (m : VSCode.HostMessage).

Definition dispatch (ev : WebviewEvent) : M VSCode.W unit :=
  match ev with
  | MouseDown e pos => VSCode.handleMouseDown e pos
  | MouseMove pos => VSCode.handleMouseMove pos
  | MouseUp e => VSCode.handleMouseUp e
  | MouseLeave e => VSCode.handleMouseUp e
  | KeyDown key => VSCode.handleKeyDown key
  | Posted m => VSCode.onMessage m
  end.

Fixpoint runEvents (evs : list WebviewEvent) (w : VSCode.W) : VSCode.W :=
  match evs with
  | [] => w
  | ev :: evs' => runEvents evs' (final (dispatch ev w))
  end.

(** No connect gesture is or was in progress and no connection exists. *)
Definition neverConnected (c : VSCode.Canvas) : Prop :=
  (VSCode.selectedTool c = VSCode.ToolSelect ∨
   VSCode.selectedTool c = VSCode.ToolAddComponent) ∧
  VSCode.isConnecting c = false ∧
  VSCode.connectingFrom c = None ∧
  VSCode.connections c = [].

(** The add-component tool is on and no node is being dragged. *)
Definition placing (c : VSCode.Canvas) : Prop :=
  VSCode.selectedTool c = VSCode.ToolAddComponent ∧ VSCode.draggedNode c = None.

(** A session: place two components, then try to drag the first and to
    connect it to the second. *)
Definition session : list WebviewEvent :=
  [Posted (VSCode.Init [0; 1; 2]);
   Posted (VSCode.ComponentSelected 0); MouseDown env1 (mkPoint 50 25); MouseUp env1;
   Posted (VSCode.ComponentSelected 1); MouseDown env2 (mkPoint 350 25); MouseUp env2;
   MouseMove (mkPoint 110 15)].

(** The state of [session] once its first node is placed, and the state
    after the events that follow. *)
Definition placingStart : VSCode.W :=
  runEvents (take 4 session) (mkWorld catalog VSCode.newCanvas).
Definition placingEnd : VSCode.W := runEvents (drop 4 session) placingStart.


(** * The browser extension's component panel (componentPanel.js) *)

Module ComponentPanel.

(** [loadComponents()]: the catalog; its object literals have no [inputs]
    and no [outputs] property. *)
Definition loadComponents : list Component :=
  [ mkComponent "cpu" "CPU" "processor" (Some "processor") "#3498db" None None;
    mkComponent "memory" "Memory" "memory" (Some "memory") "#2ecc71" None None;
    mkComponent "disk" "Disk" "storage" (Some "storage") "#e74c3c" None None;
    mkComponent "network" "Network" "network" (Some "network") "#9b59b6" None None;
    mkComponent "kernel" "Kernel" "kernel" (Some "kernel") "#f39c12" None None;
    mkComponent "driver" "Driver" "driver" (Some "driver") "#1abc9c" None None;
    mkComponent "interrupt" "Interrupt Controller" "controller" (Some "kernel") "#e67e22" None None;
    mkComponent "scheduler" "Scheduler" "scheduler" (Some "kernel") "#34495e" None None;
    mkComponent "file_system" "File System" "filesystem" (Some "storage") "#95a5a6" None None;
    mkComponent "device_manager" "Device Manager" "manager" (Some "kernel") "#7f8c8d" None None;
    mkComponent "virtual_memory" "Virtual Memory" "memory" (Some "memory") "#27ae60" None None;
    mkComponent "cache" "Cache" "memory" (Some "memory") "#16a085" None None;
    mkComponent "bus" "System Bus" "bus" (Some "processor") "#8e44ad" None None;
    mkComponent "timer" "Timer" "timer" (Some "kernel") "#c0392b" None None;
    mkComponent "console" "Console" "interface" (Some "driver") "#d35400" None None;
    mkComponent "io_controller" "I/O Controller" "controller" (Some "driver") "#2980b9" None None;
    mkComponent "security_module" "Security Module" "security" (Some "kernel") "#c0392b" None None ].

End ComponentPanel.

(** The web IDE's listener for the panel's [componentSelected] event
    ([setupInterPanelCommunication]). *)
Definition onComponentSelected (e : Env) (component : ref) : M Browser.W ref :=
  Browser.addNode e component 100 100.

(** The web IDE at start: the panel's catalog loaded, the canvas empty. *)
Definition ideStart : Browser.W :=
  mkWorld (mkStore ComponentPanel.loadComponents []) Browser.newCanvas.

(** What [removeNode(nodeId)] has done when it reaches its [draw()]. *)
Definition removed (nodeId : string) (w : Browser.W) : Browser.W :=
  let c := this w in
  let c := Browser.set_nodes
             (filter (λ r, node_id (nodeOf (heap w) r) ≠ nodeId) (Browser.nodes c)) c in
  let c := Browser.set_connections (filter (avoids nodeId) (Browser.connections c)) c in
  mkWorld (heap w)
    match Browser.selectedNode (this w) with
    | Some s =>
        if String.eqb (node_id (nodeOf (heap w) s)) nodeId
        then Browser.set_emitted (Browser.emitted c ++ [NodeSelected None])
               (Browser.set_selectedNode None c)
        else c
    | None => c
    end.

(** [addNode] followed by [removeNode] of the id it generated. *)
Definition addThenRemove (e : Env) (c : ref) (x y : Z) (w : Browser.W) : Outcome Browser.W unit :=
  Browser.removeNode (genNodeId e) (final (Browser.addNode e c x y w)).

(** Two component objects that agree on everything but the name. *)
Definition sameButName (c c' : Component) : Prop :=
  comp_id c' = comp_id c ∧ comp_type c' = comp_type c ∧ category c' = category c ∧
  color c' = color c ∧ inputs c' = inputs c ∧ outputs c' = outputs c.

(** The store [h'] holds the objects of [h], components renamed at most and
    nodes moved at most, and possibly more nodes. *)
Definition evolves (h h' : Store) : Prop :=
  length (comps h') = length (comps h) ∧
  (∀ r, sameButName (compOf h r) (compOf h' r)) ∧
  length (nobjs h) ≤ length (nobjs h') ∧
  (∀ r, r < length (nobjs h) →
        node_id (nodeOf h' r) = node_id (nodeOf h r) ∧
        component (nodeOf h' r) = component (nodeOf h r)).

(** A session in which a node is placed, dragged and renamed. *)
Definition renameSession : list WebviewEvent :=
  [MouseDown env3 (mkPoint 10 10); MouseMove (mkPoint 200 120); MouseUp env3;
   Posted (VSCode.PropertyChanged (genNodeId env1) (SetName "Core"));
   Posted (VSCode.PropertyChanged (genNodeId env1) (SetColor "#000000"))].
Definition selectingVSCode : VSCode.W :=
  mkWorld (heap twoNodesVSCode) (VSCode.set_nodes [0; 1] VSCode.newCanvas).
Definition afterRename : VSCode.W := runEvents renameSession selectingVSCode.


(** ** The browser canvas as its callers drive it: the DOM listeners of
    [setupEventListeners] (touch events are re-dispatched as mouse events)
    and the public methods. *)
Inductive CanvasCall :=
  | CallMouseDown (pos : Point)
  | CallMouseMove (pos : Point)
  | CallMouseUp
  | CallClick (pos : Point)
  | CallAddNode (e : Env) (component : ref) (x y : Z)
  | CallRemoveNode (nodeId : string)
  | CallAddConnection (e : Env) (fromNodeId fromPort toNodeId toPort : string)
  | CallUpdateNodeProperty (nodeId : string) (p : PropertyWrite)
  | CallLoadProjectData (projectData : ProjectData).

Definition call (k : CanvasCall) (w : Browser.W) : Browser.W :=
  match k with
  | CallMouseDown pos => final (Browser.handleMouseDown pos w)
  | CallMouseMove pos => final (Browser.handleMouseMove pos w)
  | CallMouseUp => final (Browser.handleMouseUp w)
  | CallClick pos => final (Browser.handleClick pos w)
  | CallAddNode e c x y => final (Browser.addNode e c x y w)
  | CallRemoveNode nodeId => final (Browser.removeNode nodeId w)
  | CallAddConnection e f fp t tp => final (Browser.addConnection e f fp t tp w)
  | CallUpdateNodeProperty nodeId p => final (Browser.updateNodeProperty nodeId p w)
  | CallLoadProjectData doc => final (Browser.loadProjectData doc w)
  end.

Fixpoint runCalls (ks : list CanvasCall) (w : Browser.W) : Browser.W :=
  match ks with
  | [] => w
  | k :: ks' => runCalls ks' (call k w)
  end.

(** The line is drawn with [setLineDash([5, 5])]. *)
Definition dashed (op : DrawOp) : bool :=
  match op with StrokeLine _ d _ _ _ _ => d | _ => false end.

(** No connect gesture is in progress and no dashed line is on the surface. *)
Definition noGesture (w : Browser.W) : Prop :=
  Browser.isConnecting (this w) = false ∧
  Browser.connectingFrom (this w) = None ∧
  Forall (λ op, dashed op = false) (Browser.ctx (this w)).

(** A computation that puts no dashed line on the surface. *)
Definition keeps {A} (m : M Browser.W A) : Prop :=
  ∀ w, Forall (λ op, dashed op = false) (Browser.ctx (this w)) →
       Forall (λ op, dashed op = false) (Browser.ctx (this (final (m w)))).

(** Where the webview's [drawNode] centres the circle of input port [i] and
    of output port [i] of a node. *)
Definition inputCentre (n : CanvasNode) (i : Z) : Point :=
  mkPoint (node_x n - 10) (node_y n + 15 + i * 20).
Definition outputCentre (n : CanvasNode) (i : Z) : Point :=
  mkPoint (node_x n + 110) (node_y n + 15 + i * 20).
Definition portCircle (fillStyle : string) (c : Point) : DrawOp :=
  FillArc fillStyle (px c) (py c) 5.
Definition isArc (op : DrawOp) : bool :=
  match op with FillArc _ _ _ _ => true | _ => false end.

(** The point is within 5 of [c] in both coordinates. *)
Definition near (pos c : Point) : Prop :=
  (Z.abs (px pos - px c) ≤ 5)%Z ∧ (Z.abs (py pos - py c) ≤ 5)%Z.




(** * Reasoning about the scripts *)

(** ** Sequencing *)

Lemma bind_Returned {S A B} (m : M S A) (f : A → M S B) s a s' :
  m s = Returned a s' → (m ≫= f) s = f a s'.
Proof. unfold mbind, M_bind. by intros ->. Qed.

Lemma returns_bind {S A B} (m : M S A) (f : A → M S B) s :
  returns (m s) = true →
  (∀ a s', m s = Returned a s' → returns (f a s') = true) →
  returns ((m ≫= f) s) = true.
Proof.
  unfold mbind, M_bind. destruct (m s) as [a s'|e s']; [|done].
  intros _ Hf. by apply Hf.
Qed.

Lemma forEach_app {S A} (l1 l2 : list A) (body : A → M S unit) s :
  forEach (l1 ++ l2) body s = (forEach l1 body ;; forEach l2 body) s.
Proof.
  revert s. induction l1 as [|a l1 IH]; intros s; [done|].
  cbn [app forEach]. unfold mbind, M_bind in *.
  destruct (body a s) as [[] s'|e s']; [apply IH|done].
Qed.

Lemma findNode_elem h ns i r : findNode h ns i = Some r → r ∈ ns.
Proof.
  induction ns as [|r' ns IH]; [done|]. cbn [findNode].
  destruct (String.eqb _ _).
  - intros [= ->]. left.
  - intros Hf. right. by apply IH.
Qed.

Lemma findNode_None h ns i :
  findNode h ns i = None ↔ Forall (λ r, node_id (nodeOf h r) ≠ i) ns.
Proof.
  induction ns as [|r ns IH]; cbn [findNode].
  - split; [constructor|done].
  - destruct (String.eqb _ _) eqn:E.
    + apply String.eqb_eq in E. split; [done|]. intros HF. by inversion HF.
    + apply String.eqb_neq in E. rewrite IH. split.
      * by constructor.
      * intros HF. by inversion HF.
Qed.

(** ** Repainting *)

Section Repaint.
Context {C : Type} `{Surface C}.

Lemma repaint_refl (w : World C) : repaint w w.
Proof. split; [done|]. exists (surfaceOf (this w)). by rewrite withSurface_same. Qed.

Lemma repaint_trans (w1 w2 w3 : World C) : repaint w1 w2 → repaint w2 w3 → repaint w1 w3.
Proof.
  intros [Hh1 [o1 H1]] [Hh2 [o2 H2]]. split; [congruence|].
  exists o2. by rewrite H2, H1, withSurface_twice.
Qed.

Lemma repaint_nodes (w w' : World C) : repaint w w' → nodesOf (this w') = nodesOf (this w).
Proof. intros [_ [ops ->]]. apply nodesOf_withSurface. Qed.

Lemma paints_ret {A} (a : A) : paints (C := C) (mret a).
Proof. intros w. apply repaint_refl. Qed.

Lemma paints_get : paints (C := C) get.
Proof. intros w. apply repaint_refl. Qed.

Lemma paints_throw {A} e : paints (C := C) (throw (A := A) e).
Proof. intros w. apply repaint_refl. Qed.

Lemma paints_bind {A B} (m : M (World C) A) (f : A → M (World C) B) :
  paints m → (∀ a, paints (f a)) → paints (m ≫= f).
Proof.
  intros Hm Hf w. specialize (Hm w). unfold mbind, M_bind.
  destruct (m w) as [a w'|e w']; cbn [final] in *; [|done].
  eapply repaint_trans; [exact Hm|apply Hf].
Qed.

Lemma paints_portArray o : paints (C := C) (portArray o).
Proof. destruct o; [apply paints_ret|apply paints_throw]. Qed.

Lemma paints_forEach {A} (l : list A) (body : A → M (World C) unit) :
  (∀ a, paints (body a)) → paints (forEach l body).
Proof.
  intros Hb. induction l as [|a l IH]; [apply paints_ret|].
  cbn [forEach]. apply paints_bind; [apply Hb|by intros _].
Qed.

Lemma paints_surface (g : C → list DrawOp) : paints (upd (λ c, withSurface (g c) c)).
Proof. intros w. split; [done|]. by exists (g (this w)). Qed.

Lemma typed_repaint (w w' : World C) : repaint w w' → typed w → typed w'.
Proof.
  intros Hr. unfold typed. rewrite (repaint_nodes _ _ Hr).
  destruct Hr as [-> _]. done.
Qed.

Lemma forEach_returns {A} (P : World C → Prop) (l : list A) body :
  (∀ w w', repaint w w' → P w → P w') →
  (∀ a, paints (body a)) →
  (∀ a w, a ∈ l → P w → returns (body a w) = true) →
  ∀ w, P w → returns (forEach l body w) = true.
Proof.
  intros HP Hp Hb. induction l as [|a l IH]; intros w Hw; [done|].
  cbn [forEach]. apply returns_bind.
  - apply Hb; [left|done].
  - intros [] w' Hw'. apply IH.
    + intros b w0 Hin. apply Hb. by right.
    + eapply HP; [|exact Hw]. specialize (Hp a w). by rewrite Hw' in Hp.
Qed.

Lemma typed_findNode (w : World C) i r :
  typed w → findNode (heap w) (nodesOf (this w)) i = Some r → hasPorts (heap w) r.
Proof.
  intros Ht Hf. apply findNode_elem in Hf.
  unfold typed in Ht. rewrite Forall_forall in Ht. by apply Ht.
Qed.

End Repaint.

(** ** Drawing only repaints *)

Lemma browser_paint_paints op : paints (Browser.paint op).
Proof. exact (paints_surface (λ c, Browser.ctx c ++ [op])). Qed.

Lemma browser_clear_paints : paints (upd (Browser.set_ctx [])).
Proof. exact (paints_surface (λ _, [])). Qed.

Lemma vscode_paint_paints op : paints (VSCode.paint op).
Proof. exact (paints_surface (λ c, VSCode.ctx c ++ [op])). Qed.

Lemma vscode_clear_paints : paints (upd (VSCode.set_ctx [])).
Proof. exact (paints_surface (λ _, [])). Qed.

Ltac paints_step :=
  lazymatch goal with
  | |- paints (mret _) => apply paints_ret
  | |- paints get => apply paints_get
  | |- paints (throw _) => apply paints_throw
  | |- paints (portArray _) => apply paints_portArray
  | |- paints (forEach _ _) => apply paints_forEach; intros ?
  | |- paints (mbind _ _) => apply paints_bind; [|intros ?]
  | |- paints (Browser.paint _) => apply browser_paint_paints
  | |- paints (VSCode.paint _) => apply vscode_paint_paints
  | |- paints (upd (Browser.set_ctx [])) => apply browser_clear_paints
  | |- paints (upd (VSCode.set_ctx [])) => apply vscode_clear_paints
  | |- paints (match ?x with _ => _ end) => destruct x
  | |- paints (let _ := _ in _) => cbv zeta
  end.

Lemma browser_drawNode_paints r sel : paints (Browser.drawNode r sel).
Proof. unfold Browser.drawNode. repeat paints_step. Qed.

Lemma browser_drawConnection_paints conn : paints (Browser.drawConnection conn).
Proof. unfold Browser.drawConnection. repeat paints_step. Qed.

Lemma browser_drawConnectingLine_paints : paints Browser.drawConnectingLine.
Proof. unfold Browser.drawConnectingLine. repeat paints_step. Qed.

Lemma browser_drawConnections_paints : paints Browser.drawConnections.
Proof.
  unfold Browser.drawConnections. repeat paints_step.
  apply browser_drawConnection_paints.
Qed.

Lemma browser_drawNodes_paints : paints Browser.drawNodes.
Proof.
  unfold Browser.drawNodes. repeat paints_step. apply browser_drawNode_paints.
Qed.

Lemma browser_draw_paints : paints Browser.draw.
Proof.
  unfold Browser.draw.
  apply paints_bind; [apply browser_clear_paints|intros _].
  apply paints_bind; [apply browser_drawConnections_paints|intros _].
  apply paints_bind; [apply browser_drawNodes_paints|intros _].
  apply paints_bind; [apply paints_get|intros w].
  destruct (_ && _); [apply browser_drawConnectingLine_paints|apply paints_ret].
Qed.

Lemma vscode_drawNode_paints r sel : paints (VSCode.drawNode r sel).
Proof. unfold VSCode.drawNode. repeat paints_step. Qed.

Lemma vscode_drawConnection_paints conn : paints (VSCode.drawConnection conn).
Proof. unfold VSCode.drawConnection. repeat paints_step. Qed.

Lemma vscode_drawConnectingLine_paints : paints VSCode.drawConnectingLine.
Proof. unfold VSCode.drawConnectingLine. repeat paints_step. Qed.

Lemma vscode_drawConnections_paints : paints VSCode.drawConnections.
Proof.
  unfold VSCode.drawConnections. repeat paints_step.
  apply vscode_drawConnection_paints.
Qed.

Lemma vscode_drawNodes_paints : paints VSCode.drawNodes.
Proof.
  unfold VSCode.drawNodes. repeat paints_step. apply vscode_drawNode_paints.
Qed.

Lemma vscode_draw_paints : paints VSCode.draw.
Proof.
  unfold VSCode.draw.
  apply paints_bind; [apply vscode_clear_paints|intros _].
  apply paints_bind; [apply vscode_drawConnections_paints|intros _].
  apply paints_bind; [apply vscode_drawNodes_paints|intros _].
  apply paints_bind; [apply paints_get|intros w].
  destruct (_ && _); [apply vscode_drawConnectingLine_paints|apply paints_ret].
Qed.

(** ** Drawing does not throw when the port arrays are there *)

(** Run the monadic plumbing of a script up to its next call. *)
Ltac mrun :=
  cbv [mbind M_bind mret M_ret get modify upd updHeap throw portArray
       Browser.paint Browser.emit VSCode.paint VSCode.sendMessage];
  cbn [heap this final returns].

Lemma hasPorts_arrays h r :
  hasPorts h r →
  ∃ ins outs, inputs (componentOf h r) = Some ins ∧ outputs (componentOf h r) = Some outs.
Proof. intros [[ins Hi] [outs Ho]]. eauto. Qed.

Lemma final_Returned {S A} (m : M S A) s a s' : m s = Returned a s' → final (m s) = s'.
Proof. by intros ->. Qed.

Lemma browser_forEach_paint_returns {A} (l : list A) (g : A → DrawOp) w :
  returns (forEach l (λ i, Browser.paint (g i)) w) = true.
Proof. revert w. induction l as [|a l IH]; intros w; [done|]. apply IH. Qed.

Lemma browser_drawNode_returns w r sel :
  hasPorts (heap w) r → returns (Browser.drawNode r sel w) = true.
Proof.
  intros (ins & outs & Hi & Ho)%hasPorts_arrays.
  unfold Browser.drawNode. mrun. rewrite Hi, Ho.
  apply returns_bind; [apply browser_forEach_paint_returns|intros [] w' _].
  apply browser_forEach_paint_returns.
Qed.

Lemma browser_drawConnection_returns w conn :
  typed w → returns (Browser.drawConnection conn w) = true.
Proof.
  intros Ht. unfold Browser.drawConnection. mrun.
  destruct (findNode _ _ (fromNode conn)) as [f|] eqn:Ef; [|done].
  destruct (findNode _ _ (toNode conn)) as [t|] eqn:Et; [|done].
  destruct (hasPorts_arrays _ _ (typed_findNode w _ _ Ht Ef)) as (? & outs & _ & Ho).
  destruct (hasPorts_arrays _ _ (typed_findNode w _ _ Ht Et)) as (ins & ? & Hi & _).
  rewrite Ho, Hi. by destruct (_ && _).
Qed.

Lemma browser_drawConnections_returns w :
  typed w → returns (Browser.drawConnections w) = true.
Proof.
  intros Ht. unfold Browser.drawConnections. mrun.
  apply (forEach_returns typed); try done.
  - intros ???. by apply typed_repaint.
  - apply browser_drawConnection_paints.
  - intros conn w' _. apply browser_drawConnection_returns.
Qed.

Lemma browser_drawNodes_returns w :
  typed w → returns (Browser.drawNodes w) = true.
Proof.
  intros Ht. unfold Browser.drawNodes. erewrite bind_Returned by reflexivity.
  apply (forEach_returns (λ w', Forall (hasPorts (heap w')) (Browser.nodes (this w)))).
  - intros w1 w2 [-> _]. done.
  - intros r. apply paints_bind; [apply paints_get|intros ?].
    apply browser_drawNode_paints.
  - intros r w' Hr HF. erewrite bind_Returned by reflexivity.
    apply browser_drawNode_returns. rewrite Forall_forall in HF. by apply HF.
  - exact Ht.
Qed.

Lemma browser_drawConnectingLine_returns w :
  typed w → returns (Browser.drawConnectingLine w) = true.
Proof.
  intros Ht. unfold Browser.drawConnectingLine. mrun.
  destruct (Browser.connectingFrom _) as [cf|]; [|done].
  destruct (findNode _ _ _) as [f|] eqn:Ef; [|done].
  destruct (hasPorts_arrays _ _ (typed_findNode w _ _ Ht Ef)) as (? & outs & _ & Ho).
  rewrite Ho. by destruct (_ =? _)%Z.
Qed.

Lemma browser_draw_returns w : typed w → returns (Browser.draw w) = true.
Proof.
  intros Ht. unfold Browser.draw.
  apply returns_bind; [done|intros [] w1 E1].
  assert (typed w1) as Ht1.
  { eapply typed_repaint; [|exact Ht]. rewrite <-(final_Returned _ _ _ _ E1).
    apply browser_clear_paints. }
  apply returns_bind; [by apply browser_drawConnections_returns|intros [] w2 E2].
  assert (typed w2) as Ht2.
  { eapply typed_repaint; [|exact Ht1]. rewrite <-(final_Returned _ _ _ _ E2).
    apply browser_drawConnections_paints. }
  apply returns_bind; [by apply browser_drawNodes_returns|intros [] w3 E3].
  assert (typed w3) as Ht3.
  { eapply typed_repaint; [|exact Ht2]. rewrite <-(final_Returned _ _ _ _ E3).
    apply browser_drawNodes_paints. }
  mrun.
  destruct (_ && _); [by apply browser_drawConnectingLine_returns|done].
Qed.

Lemma vscode_forEach_paint_returns {A} (l : list A) (g : A → DrawOp) w :
  returns (forEach l (λ i, VSCode.paint (g i)) w) = true.
Proof. revert w. induction l as [|a l IH]; intros w; [done|]. apply IH. Qed.

Lemma vscode_drawNode_returns w r sel :
  hasPorts (heap w) r → returns (VSCode.drawNode r sel w) = true.
Proof.
  intros (ins & outs & Hi & Ho)%hasPorts_arrays.
  unfold VSCode.drawNode. mrun. rewrite Hi, Ho.
  apply returns_bind; [apply vscode_forEach_paint_returns|intros [] w' _].
  apply vscode_forEach_paint_returns.
Qed.

Lemma vscode_drawConnection_returns w conn :
  typed w → returns (VSCode.drawConnection conn w) = true.
Proof.
  intros Ht. unfold VSCode.drawConnection. mrun.
  destruct (findNode _ _ (fromNode conn)) as [f|] eqn:Ef; [|done].
  destruct (findNode _ _ (toNode conn)) as [t|] eqn:Et; [|done].
  destruct (hasPorts_arrays _ _ (typed_findNode w _ _ Ht Ef)) as (? & outs & _ & Ho).
  destruct (hasPorts_arrays _ _ (typed_findNode w _ _ Ht Et)) as (ins & ? & Hi & _).
  rewrite Ho, Hi. by destruct (_ && _).
Qed.

Lemma vscode_drawConnections_returns w :
  typed w → returns (VSCode.drawConnections w) = true.
Proof.
  intros Ht. unfold VSCode.drawConnections. mrun.
  apply (forEach_returns typed); try done.
  - intros ???. by apply typed_repaint.
  - apply vscode_drawConnection_paints.
  - intros conn w' _. apply vscode_drawConnection_returns.
Qed.

Lemma vscode_drawNodes_returns w :
  typed w → returns (VSCode.drawNodes w) = true.
Proof.
  intros Ht. unfold VSCode.drawNodes. erewrite bind_Returned by reflexivity.
  apply (forEach_returns (λ w', Forall (hasPorts (heap w')) (VSCode.nodes (this w)))).
  - intros w1 w2 [-> _]. done.
  - intros r. apply paints_bind; [apply paints_get|intros ?].
    apply vscode_drawNode_paints.
  - intros r w' Hr HF. erewrite bind_Returned by reflexivity.
    apply vscode_drawNode_returns. rewrite Forall_forall in HF. by apply HF.
  - exact Ht.
Qed.

Lemma vscode_drawConnectingLine_returns w :
  typed w → returns (VSCode.drawConnectingLine w) = true.
Proof.
  intros Ht. unfold VSCode.drawConnectingLine. mrun.
  destruct (VSCode.connectingFrom _) as [cf|]; [|done].
  destruct (findNode _ _ _) as [f|] eqn:Ef; [|done].
  destruct (hasPorts_arrays _ _ (typed_findNode w _ _ Ht Ef)) as (? & outs & _ & Ho).
  rewrite Ho. by destruct (_ =? _)%Z.
Qed.

Lemma vscode_draw_returns w : typed w → returns (VSCode.draw w) = true.
Proof.
  intros Ht. unfold VSCode.draw.
  apply returns_bind; [done|intros [] w1 E1].
  assert (typed w1) as Ht1.
  { eapply typed_repaint; [|exact Ht]. rewrite <-(final_Returned _ _ _ _ E1).
    apply vscode_clear_paints. }
  apply returns_bind; [by apply vscode_drawConnections_returns|intros [] w2 E2].
  assert (typed w2) as Ht2.
  { eapply typed_repaint; [|exact Ht1]. rewrite <-(final_Returned _ _ _ _ E2).
    apply vscode_drawConnections_paints. }
  apply returns_bind; [by apply vscode_drawNodes_returns|intros [] w3 E3].
  assert (typed w3) as Ht3.
  { eapply typed_repaint; [|exact Ht2]. rewrite <-(final_Returned _ _ _ _ E3).
    apply vscode_drawNodes_paints. }
  mrun.
  destruct (_ && _); [by apply vscode_drawConnectingLine_returns|done].
Qed.

(** ** Hit-testing *)

Lemma inBox_boxContains n pos : inBox n pos = true ↔ boxContains n pos.
Proof. unfold inBox, boxContains. rewrite !andb_true_iff, !Z.leb_le. tauto. Qed.

Lemma nodeAtPosition_Some h ns pos r :
  nodeAtPosition h ns pos = Some r → firstWith (λ r, boxContains (nodeOf h r) pos) ns r.
Proof.
  induction ns as [|r' ns IH]; [done|]. cbn [nodeAtPosition].
  destruct (inBox _ _) eqn:E.
  - intros [= ->]. exists [], ns. split_and!; [done| |constructor].
    by apply inBox_boxContains.
  - intros (pre & post & -> & Hr & Hpre)%IH. exists (r' :: pre), post.
    split_and!; [done..|]. constructor; [|done].
    rewrite <-inBox_boxContains. congruence.
Qed.

Lemma nodeAtPosition_None h ns pos :
  nodeAtPosition h ns pos = None → Forall (λ r, ¬ boxContains (nodeOf h r) pos) ns.
Proof.
  induction ns as [|r' ns IH]; [constructor|]. cbn [nodeAtPosition].
  destruct (inBox _ _) eqn:E; [done|]. intros Hn. constructor; [|by apply IH].
  rewrite <-inBox_boxContains. congruence.
Qed.

(** C6: [getNodeAtPosition] returns the first node, in the order of the node
    array, whose box from its position to its position + (100, 50) contains
    the point, and nothing when no box does; a node placed at (100, 100) is
    hit at (150, 120) and missed at (250, 120). *)
Theorem getNodeAtPosition_first_hit :
  (∀ (w : Browser.W) pos,
     match Browser.getNodeAtPosition w pos with
     | Some r => firstWith (λ r, boxContains (nodeOf (heap w) r) pos) (Browser.nodes (this w)) r
     | None => Forall (λ r, ¬ boxContains (nodeOf (heap w) r) pos) (Browser.nodes (this w))
     end) ∧
  (∀ (w : VSCode.W) pos,
     match VSCode.getNodeAtPosition w pos with
     | Some r => firstWith (λ r, boxContains (nodeOf (heap w) r) pos) (VSCode.nodes (this w)) r
     | None => Forall (λ r, ¬ boxContains (nodeOf (heap w) r) pos) (VSCode.nodes (this w))
     end) ∧
  (node_x (nodeOf (heap oneNodeBrowser) 0) = 100%Z ∧
   node_y (nodeOf (heap oneNodeBrowser) 0) = 100%Z ∧
   Browser.getNodeAtPosition oneNodeBrowser (mkPoint 150 120) = Some 0 ∧
   Browser.getNodeAtPosition oneNodeBrowser (mkPoint 250 120) = None) ∧
  (node_x (nodeOf (heap oneNodeVSCode) 0) = 100%Z ∧
   node_y (nodeOf (heap oneNodeVSCode) 0) = 100%Z ∧
   VSCode.getNodeAtPosition oneNodeVSCode (mkPoint 150 120) = Some 0 ∧
   VSCode.getNodeAtPosition oneNodeVSCode (mkPoint 250 120) = None).
Proof.
  split_and!; try by vm_compute.
  - intros w pos. unfold Browser.getNodeAtPosition.
    destruct (nodeAtPosition _ _ _) eqn:E;
      [by apply nodeAtPosition_Some|by apply nodeAtPosition_None].
  - intros w pos. unfold VSCode.getNodeAtPosition.
    destruct (nodeAtPosition _ _ _) eqn:E;
      [by apply nodeAtPosition_Some|by apply nodeAtPosition_None].
Qed.

(** ** Dragging *)

Lemma nodeOf_writeNode h r n : r < length (nobjs h) → nodeOf (writeNode h r n) r = n.
Proof.
  intros Hr. unfold nodeOf, writeNode. cbn [nobjs].
  apply list_lookup_total_correct. by apply list_lookup_insert_eq.
Qed.

Lemma nodeOf_writeNode_ne h r r' n : r ≠ r' → nodeOf (writeNode h r n) r' = nodeOf h r'.
Proof.
  intros Hr. unfold nodeOf, writeNode. cbn [nobjs].
  by apply list_lookup_total_insert_ne.
Qed.

(** Case analysis on the outcome of each [draw()] a handler runs. *)
Ltac draw_cases :=
  repeat match goal with
  | |- context [Browser.draw ?W] =>
      let H := fresh "Hp" in
      pose proof (browser_draw_paints W) as H;
      destruct (Browser.draw W) as [[] ?|? ?]; cbn [final] in H
  | |- context [VSCode.draw ?W] =>
      let H := fresh "Hp" in
      pose proof (vscode_draw_paints W) as H;
      destruct (VSCode.draw W) as [[] ?|? ?]; cbn [final] in H
  | |- context [if ?b then _ else _] => destruct b
  end.

Lemma browser_handleMouseMove_dragging (w : Browser.W) pos s :
  Browser.isDragging (this w) = true →
  Browser.selectedNode (this w) = Some s →
  let n := nodeOf (heap w) s in
  let off := Browser.dragOffset (this w) in
  heap (final (Browser.handleMouseMove pos w)) =
    writeNode (heap w) s
      (mkNode (node_id n) (component n) (px pos - px off) (py pos - py off)) ∧
  Browser.nodes (this (final (Browser.handleMouseMove pos w))) = Browser.nodes (this w).
Proof.
  intros Hd Hs n off. unfold Browser.handleMouseMove. mrun.
  cbn [Browser.set_mousePos Browser.isDragging Browser.selectedNode Browser.dragOffset].
  rewrite Hd, Hs.
  match goal with |- context [Browser.draw ?W] => set (w1 := W) end.
  assert (∀ w', repaint w1 w' →
    heap w' = writeNode (heap w) s
      (mkNode (node_id n) (component n) (px pos - px off) (py pos - py off)) ∧
    Browser.nodes (this w') = Browser.nodes (this w)) as Hgoal.
  { intros w' [Hh [ops Hc]]. rewrite Hh, Hc. by destruct w as [h []]. }
  draw_cases; cbn [final]; apply Hgoal; eauto using repaint_trans.
Qed.

Lemma vscode_handleMouseMove_dragging (w : VSCode.W) pos d :
  VSCode.draggedNode (this w) = Some d →
  let n := nodeOf (heap w) d in
  let off := VSCode.dragOffset (this w) in
  heap (final (VSCode.handleMouseMove pos w)) =
    writeNode (heap w) d
      (mkNode (node_id n) (component n) (px pos - px off) (py pos - py off)) ∧
  VSCode.nodes (this (final (VSCode.handleMouseMove pos w))) = VSCode.nodes (this w).
Proof.
  intros Hd n off. unfold VSCode.handleMouseMove. mrun.
  cbn [VSCode.set_mousePos VSCode.draggedNode VSCode.dragOffset].
  rewrite Hd.
  match goal with |- context [VSCode.draw ?W] => set (w1 := W) end.
  assert (∀ w', repaint w1 w' →
    heap w' = writeNode (heap w) d
      (mkNode (node_id n) (component n) (px pos - px off) (py pos - py off)) ∧
    VSCode.nodes (this w') = VSCode.nodes (this w)) as Hgoal.
  { intros w' [Hh [ops Hc]]. rewrite Hh, Hc. by destruct w as [h []]. }
  draw_cases; cbn [final]; apply Hgoal; eauto using repaint_trans.
Qed.

(** C7: while a node is being dragged, every pointer move puts it at
    cursor - offset, whatever the cursor position is (nothing clamps the
    result and no other node is looked at); a node at (50, 50) grabbed with
    offset (10, 10) goes to (70, 70) when the cursor moves to (80, 80), and
    follows the cursor to negative coordinates just the same. *)
Theorem drag_sets_position_to_cursor_minus_offset :
  (∀ (w : Browser.W) pos s,
     Browser.isDragging (this w) = true →
     Browser.selectedNode (this w) = Some s →
     s < length (nobjs (heap w)) →
     let w' := final (Browser.handleMouseMove pos w) in
     node_x (nodeOf (heap w') s) = (px pos - px (Browser.dragOffset (this w)))%Z ∧
     node_y (nodeOf (heap w') s) = (py pos - py (Browser.dragOffset (this w)))%Z ∧
     ∀ r, r ≠ s → nodeOf (heap w') r = nodeOf (heap w) r) ∧
  (∀ (w : VSCode.W) pos d,
     VSCode.draggedNode (this w) = Some d →
     d < length (nobjs (heap w)) →
     let w' := final (VSCode.handleMouseMove pos w) in
     node_x (nodeOf (heap w') d) = (px pos - px (VSCode.dragOffset (this w)))%Z ∧
     node_y (nodeOf (heap w') d) = (py pos - py (VSCode.dragOffset (this w)))%Z ∧
     ∀ r, r ≠ d → nodeOf (heap w') r = nodeOf (heap w) r) ∧
  (Browser.dragOffset (this draggingBrowser) = mkPoint 10 10 ∧
   nodeOf (heap (final (Browser.handleMouseMove (mkPoint 80 80) draggingBrowser))) 0
     = mkNode (genNodeId env1) 0 70 70 ∧
   nodeOf (heap (final (Browser.handleMouseMove (mkPoint (-500) 90000) draggingBrowser))) 0
     = mkNode (genNodeId env1) 0 (-510) 89990) ∧
  (VSCode.dragOffset (this draggingVSCode) = mkPoint 10 10 ∧
   nodeOf (heap (final (VSCode.handleMouseMove (mkPoint 80 80) draggingVSCode))) 0
     = mkNode (genNodeId env1) 0 70 70 ∧
   nodeOf (heap (final (VSCode.handleMouseMove (mkPoint (-500) 90000) draggingVSCode))) 0
     = mkNode (genNodeId env1) 0 (-510) 89990).
Proof.
  split_and!; try by vm_compute.
  - intros w pos s Hd Hs Hlen w'.
    destruct (browser_handleMouseMove_dragging w pos s Hd Hs) as [Hh _].
    subst w'. rewrite Hh.
    split_and!; [by rewrite nodeOf_writeNode..|].
    intros r Hr. by rewrite nodeOf_writeNode_ne.
  - intros w pos d Hd Hlen w'.
    destruct (vscode_handleMouseMove_dragging w pos d Hd) as [Hh _].
    subst w'. rewrite Hh.
    split_and!; [by rewrite nodeOf_writeNode..|].
    intros r Hr. by rewrite nodeOf_writeNode_ne.
Qed.

Lemma drag_sets_position_witness :
  Browser.isDragging (this draggingBrowser) = true ∧
  Browser.selectedNode (this draggingBrowser) = Some 0 ∧
  node_x (nodeOf (heap draggedTo80) 0) = 70%Z ∧
  node_y (nodeOf (heap draggedTo80) 0) = 70%Z.
Proof.
  split; [vm_compute; reflexivity|]. split; [vm_compute; reflexivity|].
  destruct drag_sets_position_to_cursor_minus_offset as [HB _].
  destruct (HB draggingBrowser (mkPoint 80 80) 0) as (Hx & Hy & _);
    [vm_compute; reflexivity|vm_compute; reflexivity|vm_compute; lia|].
  split; [exact Hx|exact Hy].
Defined.

(** ** The connect gesture *)

Lemma vscode_portAtPosition_pure h ns pos (w : VSCode.W) :
  final (VSCode.portAtPosition h ns pos w) = w.
Proof.
  induction ns as [|r ns IH]; [done|]. cbn [VSCode.portAtPosition]. mrun.
  destruct (inputs _); [|done].
  destruct (VSCode.scanPorts _ _ _ _ _ _); [done|].
  destruct (outputs _); [|done].
  destruct (VSCode.scanPorts _ _ _ _ _ _); [done|]. apply IH.
Qed.

Lemma vscode_getPortAtPosition_pure pos (w : VSCode.W) :
  final (VSCode.getPortAtPosition pos w) = w.
Proof. unfold VSCode.getPortAtPosition. mrun. apply vscode_portAtPosition_pure. Qed.

Lemma vscode_completeConnection_connections e (w : VSCode.W) :
  VSCode.connections (this (final (VSCode.completeConnection e w))) =
    VSCode.connections (this w) ++
    committed e (VSCode.getPortAtPosition (VSCode.mousePos (this w)) w)
                (VSCode.connectingFrom (this w)).
Proof.
  unfold VSCode.completeConnection, committed. mrun.
  pose proof (vscode_getPortAtPosition_pure (VSCode.mousePos (this w)) w) as Hp.
  destruct (VSCode.getPortAtPosition _ w) as [[port|] w'|e' w']; cbn [final] in Hp; subst w'.
  - destruct (VSCode.connectingFrom (this w)) as [cf|]; cbn [final this];
      [|by rewrite app_nil_r; destruct w as [h []]].
    destruct (decide (nodeId port = nodeId cf)) as [Heq|Hne].
    + apply String.eqb_eq in Heq. rewrite Heq. cbn [negb final this].
      rewrite app_nil_r. by destruct w as [h []].
    + apply String.eqb_neq in Hne. rewrite Hne. cbn [negb final this].
      by destruct w as [h []].
  - destruct (VSCode.connectingFrom (this w)); cbn [final this];
      rewrite app_nil_r; by destruct w as [h []].
  - cbn [final]. destruct (VSCode.connectingFrom (this w)); by rewrite app_nil_r.
Qed.

(** C10: when a connect gesture completes, a connection is committed as
    soon as a port is under the cursor, an origin is recorded and the port's
    node id differs from the origin's, and only then; which side the port is
    on, and which side the origin was on, plays no part.  Dragging from the
    input port of one node to the output port of another commits a
    connection whose [fromPort] is an input and whose [toPort] is an
    output. *)
Theorem completeConnection_checks_only_the_node :
  (∀ e (w : VSCode.W) port cf,
     VSCode.getPortAtPosition (VSCode.mousePos (this w)) w = Returned (Some port) w →
     VSCode.connectingFrom (this w) = Some cf →
     nodeId port ≠ nodeId cf →
     VSCode.connections (this (final (VSCode.completeConnection e w))) =
       VSCode.connections (this w) ++
       [mkConnection (genConnId e) (nodeId cf) (portId cf) (nodeId port) (portId port)]) ∧
  (∀ e (w : VSCode.W),
     VSCode.connections (this (final (VSCode.completeConnection e w)))
       ≠ VSCode.connections (this w) →
     ∃ port cf,
       VSCode.getPortAtPosition (VSCode.mousePos (this w)) w = Returned (Some port) w ∧
       VSCode.connectingFrom (this w) = Some cf ∧
       nodeId port ≠ nodeId cf) ∧
  (let w := connectGesture (mkPoint (-10) 15) (mkPoint 410 15) twoNodesVSCode in
   VSCode.connections (this w) =
     [mkConnection (genConnId env3) (genNodeId env1) "in" (genNodeId env2) "out"] ∧
   inputs (componentOf (heap w) 0) = Some ["in"] ∧
   outputs (componentOf (heap w) 0) = Some ["out"] ∧
   inputs (componentOf (heap w) 1) = Some ["in"] ∧
   outputs (componentOf (heap w) 1) = Some ["out"]).
Proof.
  split_and!; try by vm_compute.
  - intros e w port cf Hp Hc Hne.
    rewrite vscode_completeConnection_connections, Hp, Hc. unfold committed.
    by rewrite decide_False.
  - intros e w. rewrite vscode_completeConnection_connections. unfold committed.
    pose proof (vscode_getPortAtPosition_pure (VSCode.mousePos (this w)) w) as Hpure.
    destruct (VSCode.getPortAtPosition _ w) as [[port|] w'|];
      cbn [final] in Hpure; subst; try (rewrite app_nil_r; done).
    destruct (VSCode.connectingFrom _) as [cf|]; [|rewrite app_nil_r; done].
    destruct (decide _) as [|Hne]; [rewrite app_nil_r; done|]. eauto.
Qed.

Lemma completeConnection_witness :
  VSCode.getPortAtPosition (VSCode.mousePos (this heldInputToOutput)) heldInputToOutput
    = Returned (Some (mkPortRef (genNodeId env2) "out")) heldInputToOutput ∧
  VSCode.connectingFrom (this heldInputToOutput) = Some (mkPortRef (genNodeId env1) "in") ∧
  genNodeId env2 ≠ genNodeId env1 ∧
  VSCode.connections (this (final (VSCode.completeConnection env3 heldInputToOutput))) =
    [mkConnection (genConnId env3) (genNodeId env1) "in" (genNodeId env2) "out"].
Proof.
  split; [vm_compute; reflexivity|]. split; [vm_compute; reflexivity|].
  split; [vm_compute; discriminate|].
  destruct completeConnection_checks_only_the_node as [H _].
  apply (H env3 heldInputToOutput
           (mkPortRef (genNodeId env2) "out") (mkPortRef (genNodeId env1) "in"));
    [vm_compute; reflexivity|vm_compute; reflexivity|vm_compute; discriminate].
Defined.

(** ** Self-loops *)

Lemma browser_addConnection_connections e a p b q (w : Browser.W) :
  Browser.connections (this (final (Browser.addConnection e a p b q w))) =
    Browser.connections (this w) ++ [mkConnection (genConnId e) a p b q].
Proof.
  unfold Browser.addConnection. mrun.
  match goal with |- context [Browser.draw ?W] => set (w1 := W) end.
  assert (∀ w', repaint w1 w' →
    Browser.connections (this w') =
      Browser.connections (this w) ++ [mkConnection (genConnId e) a p b q]) as Hgoal.
  { intros w' [_ [ops ->]]. by destruct w as [h []]. }
  draw_cases; cbn [final this Browser.connections Browser.set_emitted];
    apply Hgoal; eauto using repaint_trans.
Qed.

Lemma vscode_addConnection_connections e a p b q (w : VSCode.W) :
  VSCode.connections (this (final (VSCode.addConnection e a p b q w))) =
    VSCode.connections (this w) ++
      [mkConnection ("connection-" +:+ pretty (now e)) a p b q].
Proof.
  unfold VSCode.addConnection. mrun.
  match goal with |- context [VSCode.draw ?W] => set (w1 := W) end.
  assert (∀ w', repaint w1 w' →
    VSCode.connections (this w') =
      VSCode.connections (this w) ++
        [mkConnection ("connection-" +:+ pretty (now e)) a p b q]) as Hgoal.
  { intros w' [_ [ops ->]]. by destruct w as [h []]. }
  draw_cases; cbn [final]; apply Hgoal; eauto using repaint_trans.
Qed.

(** C3, as stated, fails: [addConnection] appends whatever endpoints it is
    given.  A node with one input and one output, self-connected through
    [addConnection], gains a connection from itself to itself. *)
Lemma addConnection_accepts_self_loop :
  inputs (componentOf (heap oneNodeBrowser) 0) = Some ["in"] ∧
  outputs (componentOf (heap oneNodeBrowser) 0) = Some ["out"] ∧
  node_id (nodeOf (heap oneNodeBrowser) 0) = genNodeId env1 ∧
  length (Browser.connections (this oneNodeBrowser)) = 0 ∧
  length (Browser.connections (this selfLooped)) = 1 ∧
  ∃ c, c ∈ Browser.connections (this selfLooped) ∧ fromNode c = toNode c.
Proof.
  split_and!; try by vm_compute.
  eexists. split; [vm_compute; left|reflexivity].
Qed.

(** C3, amended: the connect gesture never commits a connection from a node
    to itself: what [completeConnection] adds has [fromNode ≠ toNode], and a
    release over a port of the origin node leaves the connections as they
    were; [addConnection] itself appends the connection it is asked for. *)
Theorem connect_gesture_never_self_loops :
  (∀ e (w : VSCode.W) port cf,
     VSCode.getPortAtPosition (VSCode.mousePos (this w)) w = Returned (Some port) w →
     VSCode.connectingFrom (this w) = Some cf →
     nodeId port = nodeId cf →
     VSCode.connections (this (final (VSCode.completeConnection e w)))
       = VSCode.connections (this w)) ∧
  (∀ e (w : VSCode.W) c,
     c ∈ VSCode.connections (this (final (VSCode.completeConnection e w))) →
     c ∈ VSCode.connections (this w) ∨ fromNode c ≠ toNode c) ∧
  (∀ e a p b q (w : Browser.W),
     Browser.connections (this (final (Browser.addConnection e a p b q w))) =
       Browser.connections (this w) ++ [mkConnection (genConnId e) a p b q]) ∧
  (∀ e a p b q (w : VSCode.W),
     VSCode.connections (this (final (VSCode.addConnection e a p b q w))) =
       VSCode.connections (this w) ++
         [mkConnection ("connection-" +:+ pretty (now e)) a p b q]).
Proof.
  split_and!.
  - intros e w port cf Hp Hc Heq.
    rewrite vscode_completeConnection_connections, Hp, Hc. unfold committed.
    rewrite decide_True by done. apply app_nil_r.
  - intros e w c. rewrite vscode_completeConnection_connections.
    rewrite elem_of_app. intros [?|Hc]; [by left|right].
    unfold committed in Hc.
    destruct (VSCode.getPortAtPosition _ w) as [[port|] ?|]; try by inversion Hc.
    destruct (VSCode.connectingFrom _) as [cf|]; [|by inversion Hc].
    destruct (decide _) as [|Hne]; [by inversion Hc|].
    apply list_elem_of_singleton in Hc as ->. cbn. congruence.
  - apply browser_addConnection_connections.
  - apply vscode_addConnection_connections.
Qed.

Lemma connect_gesture_never_self_loops_witness :
  VSCode.getPortAtPosition (VSCode.mousePos (this heldOutputToOwnInput)) heldOutputToOwnInput
    = Returned (Some (mkPortRef (genNodeId env1) "in")) heldOutputToOwnInput ∧
  VSCode.connectingFrom (this heldOutputToOwnInput)
    = Some (mkPortRef (genNodeId env1) "out") ∧
  VSCode.connections (this (final (VSCode.completeConnection env3 heldOutputToOwnInput)))
    = [].
Proof.
  split; [vm_compute; reflexivity|]. split; [vm_compute; reflexivity|].
  destruct connect_gesture_never_self_loops as [H _].
  apply (H env3 heldOutputToOwnInput
           (mkPortRef (genNodeId env1) "in") (mkPortRef (genNodeId env1) "out"));
    vm_compute; reflexivity.
Defined.

(** ** Removing a node *)

Lemma filter_all {A} (P : A → Prop) `{∀ a, Decision (P a)} (l : list A) :
  Forall P l → filter P l = l.
Proof.
  induction 1 as [|a l Ha _ IH]; [done|]. rewrite filter_cons_True by done. by f_equal.
Qed.

Lemma Forall_filter_self {A} (P : A → Prop) `{∀ a, Decision (P a)} (l : list A) :
  Forall P (filter P l).
Proof. apply Forall_forall. intros a Ha. by apply list_elem_of_filter in Ha as [? _]. Qed.

Lemma browser_removeNode_final nodeId (w : Browser.W) :
  let w' := final (Browser.removeNode nodeId w) in
  heap w' = heap w ∧
  Browser.nodes (this w') =
    filter (λ r, node_id (nodeOf (heap w) r) ≠ nodeId) (Browser.nodes (this w)) ∧
  Browser.connections (this w') = filter (avoids nodeId) (Browser.connections (this w)).
Proof.
  unfold Browser.removeNode. mrun.
  cbn [Browser.set_nodes Browser.set_connections Browser.nodes Browser.connections
       Browser.selectedNode].
  assert (∀ w1 w', repaint w1 w' → heap w1 = heap w →
    Browser.nodes (this w1) =
      filter (λ r, node_id (nodeOf (heap w) r) ≠ nodeId) (Browser.nodes (this w)) →
    Browser.connections (this w1) = filter (avoids nodeId) (Browser.connections (this w)) →
    heap w' = heap w ∧
    Browser.nodes (this w') =
      filter (λ r, node_id (nodeOf (heap w) r) ≠ nodeId) (Browser.nodes (this w)) ∧
    Browser.connections (this w') = filter (avoids nodeId) (Browser.connections (this w)))
    as Hgoal.
  { intros w1 w' [Hh [ops Hc]] H1 H2 H3. rewrite Hh, Hc, <-H2, <-H3.
    by destruct w1 as [h1 []]. }
  destruct (Browser.selectedNode (this w)) as [s|]; [destruct (String.eqb _ _)|];
    cbn [Browser.set_selectedNode Browser.set_emitted Browser.nodes Browser.connections
         Browser.emitted];
    draw_cases; cbn [final]; (eapply Hgoal; [eassumption|done..]).
Qed.

(** C2, as stated, fails in its last part: an id that no node carries can
    still be named by a connection, and [removeNode] then drops that
    connection. *)
Lemma removeNode_unknown_id_not_noop :
  unknownId (heap danglingBrowser) (Browser.nodes (this danglingBrowser)) "ghost" ∧
  Browser.connections (this danglingBrowser) = [ghostConnection] ∧
  Browser.connections (this ghostRemoved) = [] ∧
  Browser.connections (this ghostRemoved) ≠ Browser.connections (this danglingBrowser).
Proof.
  split_and!; try by vm_compute.
  vm_compute. constructor; [discriminate|constructor].
Qed.

Lemma browser_removeNode_unknown nodeId (w : Browser.W) :
  unknownId (heap w) (Browser.nodes (this w)) nodeId →
  Forall (avoids nodeId) (Browser.connections (this w)) →
  (∀ s, Browser.selectedNode (this w) = Some s → node_id (nodeOf (heap w) s) ≠ nodeId) →
  repaint w (final (Browser.removeNode nodeId w)).
Proof.
  intros Hn Hc Hs. unfold Browser.removeNode. mrun.
  cbn [Browser.set_nodes Browser.set_connections Browser.nodes Browser.connections
       Browser.selectedNode].
  rewrite (filter_all _ _ Hn).
  change (filter _ (Browser.connections (this w)))
    with (filter (avoids nodeId) (Browser.connections (this w))).
  rewrite (filter_all _ _ Hc).
  assert (∀ w', repaint (mkWorld (heap w)
      (Browser.set_connections (Browser.connections (this w))
         (Browser.set_nodes (Browser.nodes (this w)) (this w)))) w' → repaint w w') as Hgoal.
  { by destruct w as [h []]. }
  destruct (Browser.selectedNode (this w)) as [s|] eqn:Es.
  - specialize (Hs s eq_refl). apply String.eqb_neq in Hs. rewrite Hs.
    draw_cases; cbn [final]; apply Hgoal; eauto using repaint_trans.
  - draw_cases; cbn [final]; apply Hgoal; eauto using repaint_trans.
Qed.

Lemma vscode_deleteSelectedNode_final (w : VSCode.W) s :
  VSCode.selectedNode (this w) = Some s →
  let sid := node_id (nodeOf (heap w) s) in
  let w' := final (VSCode.deleteSelectedNode w) in
  heap w' = heap w ∧
  VSCode.nodes (this w') =
    filter (λ r, node_id (nodeOf (heap w) r) ≠ sid) (VSCode.nodes (this w)) ∧
  VSCode.connections (this w') = filter (avoids sid) (VSCode.connections (this w)) ∧
  VSCode.selectedNode (this w') = None.
Proof.
  intros Hs. unfold VSCode.deleteSelectedNode. mrun. rewrite Hs. by cbn.
Qed.

(** C2, amended: after [removeNode(id)] no node carries the id and no
    connection names it at either end; every other node and connection is
    kept.  When no node carries the id, the node array is left as it was and
    only connections naming the id are dropped; when moreover no connection
    names it (and it is not the id of the selection), nothing but the picture
    changes.  Deleting the selected node in the webview cascades alike. *)
Theorem removeNode_cascades :
  (∀ nodeId (w : Browser.W),
     let w' := final (Browser.removeNode nodeId w) in
     unknownId (heap w') (Browser.nodes (this w')) nodeId ∧
     findNode (heap w') (Browser.nodes (this w')) nodeId = None ∧
     Forall (avoids nodeId) (Browser.connections (this w')) ∧
     (∀ r, r ∈ Browser.nodes (this w') ↔
           r ∈ Browser.nodes (this w) ∧ node_id (nodeOf (heap w) r) ≠ nodeId) ∧
     (∀ c, c ∈ Browser.connections (this w') ↔
           c ∈ Browser.connections (this w) ∧ avoids nodeId c)) ∧
  (∀ nodeId (w : Browser.W),
     unknownId (heap w) (Browser.nodes (this w)) nodeId →
     let w' := final (Browser.removeNode nodeId w) in
     Browser.nodes (this w') = Browser.nodes (this w) ∧
     Browser.connections (this w') = filter (avoids nodeId) (Browser.connections (this w))) ∧
  (∀ nodeId (w : Browser.W),
     unknownId (heap w) (Browser.nodes (this w)) nodeId →
     Forall (avoids nodeId) (Browser.connections (this w)) →
     (∀ s, Browser.selectedNode (this w) = Some s → node_id (nodeOf (heap w) s) ≠ nodeId) →
     repaint w (final (Browser.removeNode nodeId w))) ∧
  (∀ (w : VSCode.W) s,
     VSCode.selectedNode (this w) = Some s →
     let sid := node_id (nodeOf (heap w) s) in
     let w' := final (VSCode.deleteSelectedNode w) in
     unknownId (heap w') (VSCode.nodes (this w')) sid ∧
     Forall (avoids sid) (VSCode.connections (this w')) ∧
     VSCode.selectedNode (this w') = None).
Proof.
  split_and!.
  - intros nodeId w w'.
    destruct (browser_removeNode_final nodeId w) as (Hh & Hn & Hc).
    fold w' in Hh, Hn, Hc. rewrite Hh, Hn, Hc. split_and!.
    + apply Forall_filter_self.
    + apply findNode_None, Forall_filter_self.
    + apply Forall_filter_self.
    + intros r. rewrite list_elem_of_filter. tauto.
    + intros c. rewrite list_elem_of_filter. tauto.
  - intros nodeId w Hu w'.
    destruct (browser_removeNode_final nodeId w) as (Hh & Hn & Hc).
    fold w' in Hh, Hn, Hc. rewrite Hn, Hc. split; [|done]. by apply filter_all.
  - apply browser_removeNode_unknown.
  - intros w s Hs sid w'.
    destruct (vscode_deleteSelectedNode_final w s Hs) as (Hh & Hn & Hc & Hsel).
    fold sid w' in Hh, Hn, Hc, Hsel. rewrite Hh, Hn, Hc. split_and!; [..|done].
    + apply Forall_filter_self.
    + apply Forall_filter_self.
Qed.

Lemma removeNode_cascades_witness :
  unknownId (heap danglingBrowser) (Browser.nodes (this danglingBrowser)) "nobody" ∧
  Forall (avoids "nobody") (Browser.connections (this danglingBrowser)) ∧
  Browser.nodes (this nobodyRemoved) = Browser.nodes (this danglingBrowser) ∧
  repaint danglingBrowser nobodyRemoved.
Proof.
  assert (unknownId (heap danglingBrowser) (Browser.nodes (this danglingBrowser)) "nobody")
    as Hu by (vm_compute; repeat constructor; discriminate).
  assert (Forall (avoids "nobody") (Browser.connections (this danglingBrowser)))
    as Ha by (vm_compute; repeat constructor; discriminate).
  destruct removeNode_cascades as (_ & H2 & H3 & _).
  split_and!; [exact Hu|exact Ha|exact (proj1 (H2 _ _ Hu))|].
  apply H3; [exact Hu|exact Ha|].
  intros s. vm_compute. intros [= <-]. discriminate.
Defined.

(** ** Nodes and their component objects *)

Lemma browser_addNode_final e c x y (w : Browser.W) :
  let w' := final (Browser.addNode e c x y w) in
  heap w' = mkStore (comps (heap w)) (nobjs (heap w) ++ [mkNode (genNodeId e) c x y]) ∧
  Browser.nodes (this w') = Browser.nodes (this w) ++ [length (nobjs (heap w))] ∧
  Browser.connections (this w') = Browser.connections (this w).
Proof.
  unfold Browser.addNode, allocNode. mrun.
  match goal with |- context [Browser.draw ?W] => set (w1 := W) end.
  assert (∀ w', repaint w1 w' →
    heap w' = mkStore (comps (heap w)) (nobjs (heap w) ++ [mkNode (genNodeId e) c x y]) ∧
    Browser.nodes (this w') = Browser.nodes (this w) ++ [length (nobjs (heap w))] ∧
    Browser.connections (this w') = Browser.connections (this w)) as Hgoal.
  { intros w' [Hh [ops Hc]]. rewrite Hh, Hc. by destruct w as [h []]. }
  draw_cases; cbn [final this heap Browser.set_emitted Browser.nodes Browser.connections];
    apply Hgoal; eauto using repaint_trans.
Qed.

Lemma browser_updateNodeProperty_heap nodeId p (w : Browser.W) :
  heap (final (Browser.updateNodeProperty nodeId p w)) =
    propertyWritten (heap w) (Browser.nodes (this w)) nodeId p.
Proof.
  unfold Browser.updateNodeProperty, propertyWritten. mrun.
  destruct (findNode _ _ _) as [node|]; [|done].
  match goal with |- context [Browser.draw ?W] => set (w1 := W) end.
  assert (∀ w', repaint w1 w' → heap w' = heap w1) as Hgoal by (by intros w' [-> _]).
  draw_cases; cbn [final this heap]; apply Hgoal; eauto using repaint_trans.
Qed.

Lemma vscode_updateNodeProperty_heap nodeId v (w : VSCode.W) :
  heap (final (VSCode.updateNodeProperty nodeId (SetName v) w)) =
    propertyWritten (heap w) (VSCode.nodes (this w)) nodeId (SetName v).
Proof.
  unfold VSCode.updateNodeProperty, propertyWritten. mrun.
  by destruct (findNode _ _ _) as [node|].
Qed.

Lemma componentOf_propertyWritten h ns nodeId p target r :
  findNode h ns nodeId = Some target →
  component (nodeOf h r) ≠ component (nodeOf h target) →
  componentOf (propertyWritten h ns nodeId p) r = componentOf h r.
Proof.
  intros Hf Hne. unfold propertyWritten. rewrite Hf.
  unfold componentOf, compOf, nodeOf, writeComp in *. cbn [comps nobjs].
  by apply list_lookup_total_insert_ne.
Qed.

(** C5, as stated, fails: [addNode] stores the descriptor object it is
    handed, not a copy.  Two nodes placed from the same catalog entry share
    it; renaming the first through [updateNodeProperty] renames the second
    and the catalog entry too. *)
Lemma template_is_shared_not_copied :
  Browser.nodes (this twinsBrowser) = [0; 1] ∧
  node_id (nodeOf (heap twinsBrowser) 0) = genNodeId env1 ∧
  node_id (nodeOf (heap twinsBrowser) 1) ≠ genNodeId env1 ∧
  comp_name (componentOf (heap twinsBrowser) 1) = "CPU" ∧
  comp_name (componentOf (heap renamedTwins) 1) = "Boot CPU" ∧
  comp_name (compOf (heap renamedTwins) 0) = "Boot CPU".
Proof. split_and!; by vm_compute. Qed.

Lemma nodeOf_alloc_old h n r :
  r < length (nobjs h) → nodeOf (mkStore (comps h) (nobjs h ++ [n])) r = nodeOf h r.
Proof.
  intros Hr. unfold nodeOf. cbn [nobjs].
  apply list_lookup_total_correct. rewrite lookup_app_l by done.
  by apply list_lookup_lookup_total_lt.
Qed.

Lemma nodeOf_alloc_new h n : nodeOf (mkStore (comps h) (nobjs h ++ [n])) (length (nobjs h)) = n.
Proof.
  unfold nodeOf. cbn [nobjs]. apply list_lookup_total_correct.
  by rewrite lookup_app_r, Nat.sub_diag.
Qed.

Lemma vscode_handleAddComponentTool_final e (w : VSCode.W) sc :
  VSCode.selectedComponent (this w) = Some sc →
  let w' := final (VSCode.handleAddComponentTool e w) in
  heap w' = mkStore (comps (heap w))
              (nobjs (heap w) ++
                 [mkNode (genNodeId e) sc (px (VSCode.mousePos (this w)) - 50)
                                          (py (VSCode.mousePos (this w)) - 25)]) ∧
  VSCode.nodes (this w') = VSCode.nodes (this w) ++ [length (nobjs (heap w))].
Proof.
  intros Hs. unfold VSCode.handleAddComponentTool, allocNode. mrun. rewrite Hs. by cbn.
Qed.

(** C5, amended: [addNode] stores in the new node the descriptor object it
    is handed; no descriptor is created or changed, and the nodes already
    placed stay as they are.  A later [updateNodeProperty] on one node leaves
    the name, color and port arrays of every node that holds a different
    descriptor object unchanged. *)
Theorem node_keeps_its_component_unless_shared :
  (∀ e c x y (w : Browser.W),
     let w' := final (Browser.addNode e c x y w) in
     component (nodeOf (heap w') (length (nobjs (heap w)))) = c ∧
     comps (heap w') = comps (heap w) ∧
     ∀ r, r < length (nobjs (heap w)) → nodeOf (heap w') r = nodeOf (heap w) r) ∧
  (∀ nodeId p (w : Browser.W) target r,
     findNode (heap w) (Browser.nodes (this w)) nodeId = Some target →
     component (nodeOf (heap w) r) ≠ component (nodeOf (heap w) target) →
     componentOf (heap (final (Browser.updateNodeProperty nodeId p w))) r
       = componentOf (heap w) r) ∧
  (∀ e sc (w : VSCode.W),
     VSCode.selectedComponent (this w) = Some sc →
     let w' := final (VSCode.handleAddComponentTool e w) in
     component (nodeOf (heap w') (length (nobjs (heap w)))) = sc ∧
     comps (heap w') = comps (heap w) ∧
     ∀ r, r < length (nobjs (heap w)) → nodeOf (heap w') r = nodeOf (heap w) r) ∧
  (∀ nodeId p (w : VSCode.W) target r,
     findNode (heap w) (VSCode.nodes (this w)) nodeId = Some target →
     component (nodeOf (heap w) r) ≠ component (nodeOf (heap w) target) →
     componentOf (heap (final (VSCode.updateNodeProperty nodeId p w))) r
       = componentOf (heap w) r).
Proof.
  split_and!.
  - intros e c x y w w'. destruct (browser_addNode_final e c x y w) as (Hh & _).
    fold w' in Hh. rewrite Hh. split_and!; [|done|].
    + by rewrite nodeOf_alloc_new.
    + intros r Hr. by apply nodeOf_alloc_old.
  - intros nodeId p w target r Hf Hne.
    rewrite browser_updateNodeProperty_heap. by eapply componentOf_propertyWritten.
  - intros e sc w Hs w'. destruct (vscode_handleAddComponentTool_final e w sc Hs) as (Hh & _).
    fold w' in Hh. rewrite Hh. split_and!; [|done|].
    + by rewrite nodeOf_alloc_new.
    + intros r Hr. by apply nodeOf_alloc_old.
  - intros nodeId p w target r Hf Hne.
    destruct p; try (unfold VSCode.updateNodeProperty; mrun; by rewrite Hf).
    rewrite vscode_updateNodeProperty_heap. by eapply componentOf_propertyWritten.
Qed.

Lemma node_keeps_its_component_witness :
  findNode (heap pairBrowser) (Browser.nodes (this pairBrowser)) (genNodeId env1) = Some 0 ∧
  component (nodeOf (heap pairBrowser) 1) ≠ component (nodeOf (heap pairBrowser) 0) ∧
  componentOf (heap renamedPair) 1 = memory ∧
  componentOf (heap renamedPair) 0 ≠ cpu.
Proof.
  assert (findNode (heap pairBrowser) (Browser.nodes (this pairBrowser)) (genNodeId env1)
          = Some 0) as Hf by (vm_compute; reflexivity).
  assert (component (nodeOf (heap pairBrowser) 1) ≠ component (nodeOf (heap pairBrowser) 0))
    as Hne by (vm_compute; discriminate).
  destruct node_keeps_its_component_unless_shared as (_ & H & _).
  split_and!; [exact Hf|exact Hne| |vm_compute; discriminate].
  etransitivity; [exact (H _ (SetName "Boot CPU") _ _ 1 Hf Hne)|].
  vm_compute; reflexivity.
Defined.

(** ** Generated identifiers *)

Lemma pretty_N_char_not_dash x : pretty_N_char x ≠ "-"%char.
Proof. unfold pretty_N_char. by repeat case_match. Qed.

Lemma pretty_N_go_dashFree x s : dashFree s → dashFree (pretty_N_go x s).
Proof.
  revert s. induction (N.lt_wf_0 x) as [x _ IH]; intros s Hs.
  assert (x = 0 ∨ 0 < x)%N as [->|Hx] by lia.
  - by rewrite pretty_N_go_0.
  - rewrite pretty_N_go_step by done. apply IH.
    + by apply N.div_lt.
    + split; [apply pretty_N_char_not_dash|done].
Qed.

Lemma pretty_N_dashFree (x : N) : dashFree (pretty x).
Proof.
  unfold pretty, pretty_N. case_decide; [by repeat split|].
  by apply pretty_N_go_dashFree.
Qed.

Lemma dash_separates a b s1 s2 :
  dashFree a → dashFree b →
  a +:+ "-" +:+ s1 = b +:+ "-" +:+ s2 → a = b ∧ s1 = s2.
Proof.
  revert b. induction a as [|x a IH]; intros [|y b]; cbn; intros Ha Hb Heq.
  - by simplify_eq.
  - simplify_eq. by destruct Hb.
  - simplify_eq. by destruct Ha.
  - injection Heq as -> Heq. destruct Ha, Hb.
    destruct (IH b) as [-> ->]; done.
Qed.

Lemma genNodeId_inj e e' :
  genNodeId e' = genNodeId e →
  now e' = now e ∧ substr_2_9 (random36 e') = substr_2_9 (random36 e).
Proof.
  unfold genNodeId. intros Heq. cbn in Heq. simplify_eq.
  match goal with H : _ +:+ _ = _ |- _ =>
    apply dash_separates in H as [Hn Hs]; try apply pretty_N_dashFree end.
  split; [|done]. by apply (inj pretty).
Qed.

(** ** Adding a node *)

Lemma hasPorts_alloc h n r :
  r < length (nobjs h) → hasPorts h r → hasPorts (mkStore (comps h) (nobjs h ++ [n])) r.
Proof.
  intros Hr. unfold hasPorts, componentOf. rewrite nodeOf_alloc_old by done. done.
Qed.

Lemma browser_addNode_returns e c x y (w : Browser.W) :
  typed w → allocated w →
  is_Some (inputs (compOf (heap w) c)) → is_Some (outputs (compOf (heap w) c)) →
  ∃ w', Browser.addNode e c x y w = Returned (length (nobjs (heap w))) w'.
Proof.
  intros Ht Ha Hi Ho. unfold Browser.addNode, allocNode. mrun.
  match goal with |- context [Browser.draw ?W] => set (w1 := W) end.
  assert (typed w1) as Ht1.
  { unfold typed, allocated in *. subst w1. cbn.
    rewrite Forall_app. split.
    - rewrite Forall_forall in *. intros r Hr. apply hasPorts_alloc; auto.
    - constructor; [|constructor]. unfold hasPorts, componentOf.
      by rewrite nodeOf_alloc_new. }
  pose proof (browser_draw_returns w1 Ht1) as Hr.
  destruct (Browser.draw w1) as [[] w2|]; [|done]. eauto.
Qed.

(** C9, as stated, fails in its last part: the id is built from the clock
    and from random digits, and nothing compares it with the ids in use.
    With the same clock value and the same digits, two nodes get one id. *)
Lemma addNode_id_can_repeat :
  Browser.nodes (this clashBrowser) = [0; 1] ∧
  node_id (nodeOf (heap clashBrowser) 0) = node_id (nodeOf (heap clashBrowser) 1).
Proof. split; by vm_compute. Qed.

(** With the catalog entry the browser's component panel passes, which has
    no port arrays, [addNode] pushes the node and then throws out of
    [draw()]. *)
Lemma addNode_throws_without_ports :
  ∃ w', browserClick = Thrown TypeError w' ∧ Browser.nodes (this w') = [0].
Proof. eexists. split; by vm_compute. Qed.

(** C9, amended: for a template that carries its port arrays, on a canvas
    whose nodes do, [addNode] returns the new node, appended at the end of
    the node array, holding the template (hence its port names) and the
    given position; its id is [node-<clock>-<digits>], which differs from
    the id generated from any other pair of clock value and digits.  The
    webview's add-component tool does the same for the selected template. *)
Theorem addNode_appends_node_with_template_ports :
  (∀ e c x y (w : Browser.W),
     typed w → allocated w →
     is_Some (inputs (compOf (heap w) c)) → is_Some (outputs (compOf (heap w) c)) →
     ∃ r w',
       Browser.addNode e c x y w = Returned r w' ∧
       Browser.nodes (this w') = Browser.nodes (this w) ++ [r] ∧
       nodeOf (heap w') r = mkNode (genNodeId e) c x y ∧
       inputs (componentOf (heap w') r) = inputs (compOf (heap w) c) ∧
       outputs (componentOf (heap w') r) = outputs (compOf (heap w) c)) ∧
  (∀ e sc (w : VSCode.W),
     VSCode.selectedComponent (this w) = Some sc →
     ∃ r w',
       VSCode.handleAddComponentTool e w = Returned tt w' ∧
       VSCode.nodes (this w') = VSCode.nodes (this w) ++ [r] ∧
       nodeOf (heap w') r =
         mkNode (genNodeId e) sc (px (VSCode.mousePos (this w)) - 50)
                                 (py (VSCode.mousePos (this w)) - 25) ∧
       inputs (componentOf (heap w') r) = inputs (compOf (heap w) sc) ∧
       outputs (componentOf (heap w') r) = outputs (compOf (heap w) sc)) ∧
  (∀ e e', genNodeId e' = genNodeId e →
     now e' = now e ∧ substr_2_9 (random36 e') = substr_2_9 (random36 e)).
Proof.
  split_and!.
  - intros e c x y w Ht Ha Hi Ho.
    destruct (browser_addNode_returns e c x y w Ht Ha Hi Ho) as [w' Hw'].
    destruct (browser_addNode_final e c x y w) as (Hh & Hn & _).
    rewrite Hw' in Hh, Hn. cbn [final] in Hh, Hn.
    exists (length (nobjs (heap w))), w'. split_and!; [done..| | |];
      unfold componentOf; rewrite Hh, ?nodeOf_alloc_new; done.
  - intros e sc w Hs.
    destruct (vscode_handleAddComponentTool_final e w sc Hs) as (Hh & Hn).
    assert (returns (VSCode.handleAddComponentTool e w) = true) as Hr.
    { unfold VSCode.handleAddComponentTool, allocNode. mrun. by rewrite Hs. }
    destruct (VSCode.handleAddComponentTool e w) as [[] w'|]; [|done].
    cbn [final] in Hh, Hn.
    exists (length (nobjs (heap w))), w'. split_and!; [done..| | |];
      unfold componentOf; rewrite Hh, ?nodeOf_alloc_new; done.
  - intros e e'. apply genNodeId_inj.
Qed.

Lemma addNode_appends_witness :
  typed oneNodeBrowser ∧ allocated oneNodeBrowser ∧
  is_Some (inputs (compOf (heap oneNodeBrowser) 1)) ∧
  is_Some (outputs (compOf (heap oneNodeBrowser) 1)) ∧
  ∃ r w',
    Browser.addNode env2 1 300 100 oneNodeBrowser = Returned r w' ∧
    Browser.nodes (this w') = Browser.nodes (this oneNodeBrowser) ++ [r] ∧
    inputs (componentOf (heap w') r) = Some ["in"].
Proof.
  assert (typed oneNodeBrowser) as Ht.
  { vm_compute. constructor; [|constructor]. split; eexists; reflexivity. }
  assert (allocated oneNodeBrowser) as Ha.
  { vm_compute. constructor; [lia|constructor]. }
  assert (is_Some (inputs (compOf (heap oneNodeBrowser) 1))) as Hi
    by (vm_compute; eexists; reflexivity).
  assert (is_Some (outputs (compOf (heap oneNodeBrowser) 1))) as Ho
    by (vm_compute; eexists; reflexivity).
  split_and!; [exact Ht|exact Ha|exact Hi|exact Ho|].
  destruct addNode_appends_node_with_template_ports as (H & _).
  destruct (H env2 1 300%Z 100%Z oneNodeBrowser Ht Ha Hi Ho)
    as (r & w' & Hrun & Hn & _ & Hin & _).
  exists r, w'. split_and!; [exact Hrun|exact Hn|].
  rewrite Hin. vm_compute; reflexivity.
Defined.

(** ** Connections that cannot be drawn *)

Lemma indexOfFrom_lower l s i : s ∈ l → (i ≤ indexOfFrom l s i)%Z.
Proof.
  revert i. induction l as [|a l IH]; intros i Hin; [by inversion Hin|].
  cbn [indexOfFrom]. destruct (String.eqb a s) eqn:E; [lia|].
  apply String.eqb_neq in E. apply elem_of_cons in Hin as [Heq|Hin]; [done|].
  specialize (IH (i + 1)%Z Hin). lia.
Qed.

Lemma indexOfFrom_absent l s i : s ∉ l → indexOfFrom l s i = (-1)%Z.
Proof.
  revert i. induction l as [|a l IH]; intros i Hin; [done|].
  cbn [indexOfFrom]. destruct (String.eqb a s) eqn:E.
  - apply String.eqb_eq in E as ->. destruct Hin. left.
  - apply IH. intros ?. apply Hin. by right.
Qed.

Lemma indexOf_absent l s : indexOf l s = (-1)%Z ↔ s ∉ l.
Proof.
  split; [|apply indexOfFrom_absent].
  intros Hi Hin. pose proof (indexOfFrom_lower l s 0 Hin). unfold indexOf in Hi. lia.
Qed.

Lemma dangling_repaint {C} `{Surface C} (w w' : World C) c :
  repaint w w' →
  dangling (heap w) (nodesOf (this w)) c → dangling (heap w') (nodesOf (this w')) c.
Proof. intros Hr. rewrite (repaint_nodes _ _ Hr). by destruct Hr as [-> _]. Qed.

Lemma portsPresent_repaint {C} `{Surface C} (w w' : World C) c :
  repaint w w' →
  portsPresent (heap w) (nodesOf (this w)) c →
  portsPresent (heap w') (nodesOf (this w')) c.
Proof. intros Hr. rewrite (repaint_nodes _ _ Hr). by destruct Hr as [-> _]. Qed.

Lemma typed_portsPresent {C} `{Surface C} (w : World C) c :
  typed w → portsPresent (heap w) (nodesOf (this w)) c.
Proof.
  intros Ht f t Hf Hto.
  destruct (typed_findNode w _ _ Ht Hf) as [_ Ho].
  destruct (typed_findNode w _ _ Ht Hto) as [Hi _]. done.
Qed.

Lemma dangling_index h ns c f t outs ins :
  dangling h ns c →
  findNode h ns (fromNode c) = Some f → findNode h ns (toNode c) = Some t →
  outputs (componentOf h f) = Some outs → inputs (componentOf h t) = Some ins →
  negb (indexOf outs (fromPort c) =? -1)%Z && negb (indexOf ins (toPort c) =? -1)%Z = false.
Proof.
  intros [Hd|[Hd|(f' & t' & Hf' & Ht' & Hl)]] Hf Ht Ho Hi; [congruence..|].
  assert (f' = f) as -> by congruence. assert (t' = t) as -> by congruence.
  rewrite Ho, Hi in Hl. destruct Hl as [Hl|Hl].
  - assert (fromPort c ∉ outs) as Hn by (intros Hin; apply Hl; by exists outs).
    apply indexOf_absent in Hn. by rewrite Hn.
  - assert (toPort c ∉ ins) as Hn by (intros Hin; apply Hl; by exists ins).
    apply indexOf_absent in Hn. rewrite Hn. by rewrite andb_false_r.
Qed.

Lemma browser_drawConnection_dangling (w : Browser.W) c :
  dangling (heap w) (Browser.nodes (this w)) c →
  portsPresent (heap w) (Browser.nodes (this w)) c →
  Browser.drawConnection c w = Returned tt w.
Proof.
  unfold Browser.drawConnection. mrun. intros Hd Hp.
  destruct (findNode _ _ (fromNode c)) as [f|] eqn:Ef; [|done].
  destruct (findNode _ _ (toNode c)) as [t|] eqn:Et; [|done].
  destruct (Hp f t Ef Et) as [[outs Ho] [ins Hi]]. rewrite Ho, Hi.
  by rewrite (dangling_index _ _ _ _ _ _ _ Hd Ef Et Ho Hi).
Qed.

Lemma browser_drawConnections_skip (w : Browser.W) cs1 c cs2 :
  dangling (heap w) (Browser.nodes (this w)) c →
  portsPresent (heap w) (Browser.nodes (this w)) c →
  forEach (cs1 ++ c :: cs2) Browser.drawConnection w
    = forEach (cs1 ++ cs2) Browser.drawConnection w.
Proof.
  intros Hd Hpp. rewrite !forEach_app. unfold mbind, M_bind.
  assert (repaint w (final (forEach cs1 Browser.drawConnection w))) as Hr
    by apply (paints_forEach cs1 _ browser_drawConnection_paints w).
  destruct (forEach cs1 Browser.drawConnection w) as [[] w1|] eqn:E; [|done].
  cbn [final] in Hr. cbn [forEach]. unfold mbind, M_bind.
  rewrite browser_drawConnection_dangling; [done| |].
  - exact (dangling_repaint w w1 c Hr Hd).
  - exact (portsPresent_repaint w w1 c Hr Hpp).
Qed.

Lemma vscode_drawConnection_dangling (w : VSCode.W) c :
  dangling (heap w) (VSCode.nodes (this w)) c →
  portsPresent (heap w) (VSCode.nodes (this w)) c →
  VSCode.drawConnection c w = Returned tt w.
Proof.
  unfold VSCode.drawConnection. mrun. intros Hd Hp.
  destruct (findNode _ _ (fromNode c)) as [f|] eqn:Ef; [|done].
  destruct (findNode _ _ (toNode c)) as [t|] eqn:Et; [|done].
  destruct (Hp f t Ef Et) as [[outs Ho] [ins Hi]]. rewrite Ho, Hi.
  by rewrite (dangling_index _ _ _ _ _ _ _ Hd Ef Et Ho Hi).
Qed.

Lemma vscode_drawConnections_skip (w : VSCode.W) cs1 c cs2 :
  dangling (heap w) (VSCode.nodes (this w)) c →
  portsPresent (heap w) (VSCode.nodes (this w)) c →
  forEach (cs1 ++ c :: cs2) VSCode.drawConnection w
    = forEach (cs1 ++ cs2) VSCode.drawConnection w.
Proof.
  intros Hd Hpp. rewrite !forEach_app. unfold mbind, M_bind.
  assert (repaint w (final (forEach cs1 VSCode.drawConnection w))) as Hr
    by apply (paints_forEach cs1 _ vscode_drawConnection_paints w).
  destruct (forEach cs1 VSCode.drawConnection w) as [[] w1|] eqn:E; [|done].
  cbn [final] in Hr. cbn [forEach]. unfold mbind, M_bind.
  rewrite vscode_drawConnection_dangling; [done| |].
  - exact (dangling_repaint w w1 c Hr Hd).
  - exact (portsPresent_repaint w w1 c Hr Hpp).
Qed.

Lemma browser_loadProjectData_final doc (w : Browser.W) :
  repaint (mkWorld (heap w)
             (Browser.set_connections
                (default (Browser.connections (this w)) (pd_connections doc))
                (Browser.set_nodes (default (Browser.nodes (this w)) (pd_nodes doc)) (this w))))
          (final (Browser.loadProjectData doc w)).
Proof.
  unfold Browser.loadProjectData. mrun.
  destruct (pd_nodes doc) as [ns|], (pd_connections doc) as [cs|];
    cbn [default Browser.set_nodes Browser.set_connections Browser.nodes
         Browser.connections];
    match goal with |- repaint ?W0 (final (Browser.draw ?W)) =>
      assert (W0 = W) as -> by (by destruct w as [h []]) end;
    apply browser_draw_paints.
Qed.

(** C8, as stated, fails: the loop body reads the [outputs] of the source
    and the [inputs] of the target before it tests either index.  On
    [mixedBrowser] the connection [unlistedConnection] is dangling (its
    [fromPort] is not among the outputs of node 0), yet drawing it throws a
    TypeError, because node 1 has no [inputs]; and loading a document with a
    port-less node and a connection to a node it does not list throws. *)
Lemma dangling_connection_can_throw :
  dangling (heap mixedBrowser) (Browser.nodes (this mixedBrowser)) unlistedConnection ∧
  Browser.drawConnection unlistedConnection mixedBrowser = Thrown TypeError mixedBrowser ∧
  pd_nodes portlessDocument = Some [1] ∧
  findNode (heap mixedBrowser) [1] "ghost" = None ∧
  returns portlessLoaded = false.
Proof.
  split_and!; try (vm_compute; reflexivity).
  right. right. exists 0, 1. split_and!; [vm_compute; reflexivity..|].
  left. intros (l & Hl & Hin). vm_compute in Hl. injection Hl as <-.
  apply list_elem_of_singleton in Hin. discriminate.
Qed.

(** C8, amended: a dangling connection is passed over by the drawing loop
    whenever the port arrays the loop reads for it exist (nothing is read
    when one of its node ids resolves to no node): nothing is drawn for it,
    nothing is thrown, and the loop goes on as if the connection were not in
    the list.  With port arrays on every node that condition holds for
    every connection and a whole [draw()] never throws; so loading a
    document of such nodes with a connection to a node it does not list
    draws without throwing and without that connection. *)
Theorem dangling_connections_are_skipped :
  (∀ (w : Browser.W) c,
     dangling (heap w) (Browser.nodes (this w)) c →
     portsPresent (heap w) (Browser.nodes (this w)) c →
     Browser.drawConnection c w = Returned tt w) ∧
  (∀ (w : VSCode.W) c,
     dangling (heap w) (VSCode.nodes (this w)) c →
     portsPresent (heap w) (VSCode.nodes (this w)) c →
     VSCode.drawConnection c w = Returned tt w) ∧
  (∀ (w : Browser.W) c,
     findNode (heap w) (Browser.nodes (this w)) (fromNode c) = None ∨
     findNode (heap w) (Browser.nodes (this w)) (toNode c) = None →
     Browser.drawConnection c w = Returned tt w) ∧
  (∀ (w : VSCode.W) c,
     findNode (heap w) (VSCode.nodes (this w)) (fromNode c) = None ∨
     findNode (heap w) (VSCode.nodes (this w)) (toNode c) = None →
     VSCode.drawConnection c w = Returned tt w) ∧
  (∀ (w : Browser.W) cs1 c cs2,
     Browser.connections (this w) = cs1 ++ c :: cs2 →
     dangling (heap w) (Browser.nodes (this w)) c →
     portsPresent (heap w) (Browser.nodes (this w)) c →
     Browser.drawConnections w = forEach (cs1 ++ cs2) Browser.drawConnection w) ∧
  (∀ (w : VSCode.W) cs1 c cs2,
     VSCode.connections (this w) = cs1 ++ c :: cs2 →
     dangling (heap w) (VSCode.nodes (this w)) c →
     portsPresent (heap w) (VSCode.nodes (this w)) c →
     VSCode.drawConnections w = forEach (cs1 ++ cs2) VSCode.drawConnection w) ∧
  (∀ (w : Browser.W) c,
     typed w → portsPresent (heap w) (Browser.nodes (this w)) c) ∧
  (∀ (w : VSCode.W) c,
     typed w → portsPresent (heap w) (VSCode.nodes (this w)) c) ∧
  (∀ w : Browser.W, typed w → returns (Browser.draw w) = true) ∧
  (∀ w : VSCode.W, typed w → returns (VSCode.draw w) = true) ∧
  (∀ doc (w : Browser.W) ns cs c,
     pd_nodes doc = Some ns → pd_connections doc = Some cs → c ∈ cs →
     Forall (hasPorts (heap w)) ns →
     findNode (heap w) ns (toNode c) = None →
     let o := Browser.loadProjectData doc w in
     returns o = true ∧
     returns (Browser.draw (final o)) = true ∧
     Browser.connections (this (final o)) = cs ∧
     dangling (heap (final o)) (Browser.nodes (this (final o))) c ∧
     Browser.drawConnection c (final o) = Returned tt (final o)).
Proof.
  assert (∀ (w : Browser.W) c,
     findNode (heap w) (Browser.nodes (this w)) (fromNode c) = None ∨
     findNode (heap w) (Browser.nodes (this w)) (toNode c) = None →
     Browser.drawConnection c w = Returned tt w) as Hnone.
  { intros w c Hd. apply browser_drawConnection_dangling.
    - destruct Hd; [by left|by right; left].
    - intros f t Hf Ht. destruct Hd; congruence. }
  split_and!.
  - apply browser_drawConnection_dangling.
  - apply vscode_drawConnection_dangling.
  - exact Hnone.
  - intros w c Hd. apply vscode_drawConnection_dangling.
    + destruct Hd; [by left|by right; left].
    + intros f t Hf Ht. destruct Hd; congruence.
  - intros w cs1 c cs2 Hc Hd Hpp. unfold Browser.drawConnections.
    erewrite bind_Returned by reflexivity. rewrite Hc.
    by apply browser_drawConnections_skip.
  - intros w cs1 c cs2 Hc Hd Hpp. unfold VSCode.drawConnections.
    erewrite bind_Returned by reflexivity. rewrite Hc.
    by apply vscode_drawConnections_skip.
  - intros w c Ht. exact (typed_portsPresent w c Ht).
  - intros w c Ht. exact (typed_portsPresent w c Ht).
  - apply browser_draw_returns.
  - apply vscode_draw_returns.
  - intros doc w ns cs c Hn Hcs Hin Hp Hf o.
    pose proof (browser_loadProjectData_final doc w) as Hr. fold o in Hr.
    rewrite Hn, Hcs in Hr. cbn [default] in Hr.
    set (w1 := mkWorld (heap w) (Browser.set_connections cs (Browser.set_nodes ns (this w))))
      in Hr.
    assert (typed w1) as Ht1 by (by destruct w as [h []]).
    assert (typed (final o)) as Ht by (by eapply typed_repaint).
    assert (findNode (heap (final o)) (Browser.nodes (this (final o))) (toNode c) = None)
      as Hf'.
    { rewrite (repaint_nodes _ _ Hr : Browser.nodes (this (final o)) = _).
      destruct Hr as [-> _]. by destruct w as [h []]. }
    split_and!.
    + subst o. unfold Browser.loadProjectData. mrun. rewrite Hn, Hcs.
      by apply browser_draw_returns.
    + by apply browser_draw_returns.
    + destruct Hr as [_ [ops ->]]. by destruct w as [h []].
    + right. by left.
    + apply Hnone. by right.
Qed.

Lemma dangling_connections_witness :
  Forall (hasPorts (heap freshBrowser)) [0] ∧
  findNode (heap freshBrowser) [0] (toNode ghostConnection) = None ∧
  returns ghostLoaded = true ∧
  Browser.connections (this (final ghostLoaded)) = [ghostConnection] ∧
  Browser.drawConnection ghostConnection (final ghostLoaded)
    = Returned tt (final ghostLoaded) ∧
  existsb isLine (Browser.ctx (this (final ghostLoaded))) = false.
Proof.
  pose (c := ghostConnection).
  assert (Forall (hasPorts (heap freshBrowser)) [0]) as Hp.
  { vm_compute. constructor; [|constructor]. split; eexists; reflexivity. }
  assert (findNode (heap freshBrowser) [0] (toNode c) = None) as Hf
    by (vm_compute; reflexivity).
  destruct dangling_connections_are_skipped as (_ & _ & _ & _ & _ & _ & _ & _ & _ & _ & H).
  destruct (H danglingDocument freshBrowser [0] [c] c eq_refl eq_refl
              ltac:(left) Hp Hf) as (Hr & _ & Hc & _ & Hd).
  split_and!; [exact Hp|exact Hf|exact Hr|exact Hc|exact Hd|].
  vm_compute; reflexivity.
Defined.

(** ** Project documents *)

(** C1: the round trip does not get as far as a document:
    [exportProjectData] calls [this.canvas.exportNodes()], a method class
    [Canvas] does not have, and throws a TypeError whatever the graph is,
    leaving the IDE as it was; so it does on the graph of three nodes (cpu,
    memory, disk) joined by two connections.  And no document can be
    imported either. *)
Theorem exportProjectData_throws :
  (∀ timestamp (i : IDE.I), IDE.exportProjectData timestamp i = Thrown TypeError i) ∧
  IDE.exportProjectData "2025-01-01T00:00:00.000Z" threeNodesIDE
    = Thrown TypeError threeNodesIDE ∧
  Browser.nodes (IDE.canvas (this threeNodesIDE)) = [0; 1; 2] ∧
  length (Browser.connections (IDE.canvas (this threeNodesIDE))) = 2 ∧
  (∀ pd (i : IDE.I), returns (IDE.importProjectData (Some pd) i) = false).
Proof.
  split_and!; [done|done|vm_compute; reflexivity|vm_compute; reflexivity|done].
Qed.

(** C4: [importProjectData] of a document sets the project name and then
    throws a TypeError at [this.canvas.clear()], a method class [Canvas]
    does not have: the canvas is not cleared and nothing of the document is
    inserted, whether its fields are present, empty or absent.  Only on
    [null] does it return, having done nothing. *)
Theorem importProjectData_throws_at_clear :
  (∀ pd (i : IDE.I),
     IDE.importProjectData (Some pd) i =
       Thrown TypeError
         (mkWorld (heap i)
            (IDE.mkIDE (IDE.canvas (this i)) (IDE.nameOrDefault (pd_name pd))))) ∧
  (∀ i : IDE.I, IDE.importProjectData None i = Returned tt i) ∧
  Browser.nodes (IDE.canvas (this (final (IDE.importProjectData (Some danglingDocument)
                                           threeNodesIDE)))) = [0; 1; 2] ∧
  IDE.projectName (this (final (IDE.importProjectData (Some danglingDocument)
                                  threeNodesIDE))) = "demo".
Proof.
  split_and!; [done|done|vm_compute; reflexivity|vm_compute; reflexivity].
Qed.

(** * Further properties of the scripts *)

(** ** Rendering *)

(** X1: drawing reads the model and never writes it: whether [draw()]
    returns or throws, the store, the node and connection arrays, the
    selection and every other field but the picture are as before. *)
Theorem draw_leaves_the_model_alone :
  (∀ w : Browser.W, repaint w (final (Browser.draw w))) ∧
  (∀ w : VSCode.W, repaint w (final (VSCode.draw w))).
Proof. split; [apply browser_draw_paints|apply vscode_draw_paints]. Qed.

Lemma browser_draw_forgets ops (w : Browser.W) :
  Browser.draw (mkWorld (heap w) (Browser.set_ctx ops (this w))) = Browser.draw w.
Proof.
  unfold Browser.draw. rewrite !(bind_Returned (upd (Browser.set_ctx [])) _ _ tt
    (mkWorld (heap w) (Browser.set_ctx [] (this w)))); [done|done|].
  by destruct w as [h []].
Qed.

Lemma vscode_draw_forgets ops (w : VSCode.W) :
  VSCode.draw (mkWorld (heap w) (VSCode.set_ctx ops (this w))) = VSCode.draw w.
Proof.
  unfold VSCode.draw. rewrite !(bind_Returned (upd (VSCode.set_ctx [])) _ _ tt
    (mkWorld (heap w) (VSCode.set_ctx [] (this w)))); [done|done|].
  by destruct w as [h []].
Qed.

(** X2: the picture is a function of the model alone: [draw()] does the same
    whatever was on the surface before, so a second [draw()] right after one
    that returned returns the very same state. *)
Theorem draw_depends_on_the_model_only :
  (∀ ops (w : Browser.W),
     Browser.draw (mkWorld (heap w) (Browser.set_ctx ops (this w))) = Browser.draw w) ∧
  (∀ ops (w : VSCode.W),
     VSCode.draw (mkWorld (heap w) (VSCode.set_ctx ops (this w))) = VSCode.draw w) ∧
  (∀ w w1 : Browser.W, Browser.draw w = Returned tt w1 → Browser.draw w1 = Returned tt w1) ∧
  (∀ w w1 : VSCode.W, VSCode.draw w = Returned tt w1 → VSCode.draw w1 = Returned tt w1).
Proof.
  split_and!.
  - apply browser_draw_forgets.
  - apply vscode_draw_forgets.
  - intros w w1 Hd. destruct (browser_draw_paints w) as [Hh [ops Hc]].
    rewrite Hd in Hh, Hc. cbn [final] in Hh, Hc.
    assert (w1 = mkWorld (heap w) (Browser.set_ctx ops (this w))) as ->
      by (destruct w1; cbn in *; congruence).
    by rewrite browser_draw_forgets.
  - intros w w1 Hd. destruct (vscode_draw_paints w) as [Hh [ops Hc]].
    rewrite Hd in Hh, Hc. cbn [final] in Hh, Hc.
    assert (w1 = mkWorld (heap w) (VSCode.set_ctx ops (this w))) as ->
      by (destruct w1; cbn in *; congruence).
    by rewrite vscode_draw_forgets.
Qed.

Lemma draw_depends_on_the_model_only_witness :
  Browser.draw oneNodeBrowser = Returned tt (final (Browser.draw oneNodeBrowser)) ∧
  Browser.draw (final (Browser.draw oneNodeBrowser))
    = Returned tt (final (Browser.draw oneNodeBrowser)).
Proof.
  assert (Browser.draw oneNodeBrowser = Returned tt (final (Browser.draw oneNodeBrowser)))
    as H by (vm_compute; reflexivity).
  split; [exact H|].
  destruct draw_depends_on_the_model_only as (_ & _ & Hb & _).
  exact (Hb _ _ H).
Defined.

(** ** Pointer handlers *)

Lemma browser_handleMouseDown_hit (w : Browser.W) p r :
  Browser.getNodeAtPosition w p = Some r →
  Browser.handleMouseDown p w =
    Returned tt
      (mkWorld (heap w)
         (Browser.set_dragOffset
            (mkPoint (px p - node_x (nodeOf (heap w) r)) (py p - node_y (nodeOf (heap w) r)))
            (Browser.set_selectedNode (Some r)
               (Browser.set_isDragging true (Browser.set_mousePos p (this w)))))).
Proof.
  intros Hg. unfold Browser.handleMouseDown. mrun.
  unfold Browser.getNodeAtPosition in *. cbn [heap this Browser.set_mousePos Browser.nodes].
  by rewrite Hg.
Qed.

Lemma browser_handleMouseDown_miss (w : Browser.W) p :
  Browser.getNodeAtPosition w p = None →
  Browser.handleMouseDown p w =
    Returned tt (mkWorld (heap w) (Browser.set_mousePos p (this w))).
Proof.
  intros Hg. unfold Browser.handleMouseDown. mrun.
  unfold Browser.getNodeAtPosition in *. cbn [heap this Browser.set_mousePos Browser.nodes].
  by rewrite Hg.
Qed.

Lemma vscode_handleMouseDown_select_hit e (w : VSCode.W) p r :
  VSCode.selectedTool (this w) = VSCode.ToolSelect →
  VSCode.getNodeAtPosition w p = Some r →
  VSCode.handleMouseDown e p w =
    Returned tt
      (mkWorld (heap w)
         (VSCode.set_posted (VSCode.posted (this w) ++ [VSCode.NodeSelectedMessage r])
            (VSCode.set_dragOffset
               (mkPoint (px p - node_x (nodeOf (heap w) r))
                        (py p - node_y (nodeOf (heap w) r)))
               (VSCode.set_draggedNode (Some r)
                  (VSCode.set_selectedNode (Some r) (VSCode.set_mousePos p (this w))))))).
Proof.
  intros Ht Hg. unfold VSCode.handleMouseDown, VSCode.handleSelectTool. mrun.
  unfold VSCode.getNodeAtPosition in *.
  cbn [heap this VSCode.set_mousePos VSCode.nodes VSCode.selectedTool VSCode.mousePos].
  rewrite Ht. mrun. cbn [VSCode.set_mousePos VSCode.mousePos VSCode.nodes]. rewrite Hg. mrun.
  by destruct w as [h []].
Qed.

(** X3: a press on a node followed by a pointer move puts the node where
    the two handlers' subtractions say: the press at [p] records the offset
    [p - position], the move to [q] writes [q - offset], so the node ends at
    [q - (p - position)] in each coordinate; no other node changes. *)
Theorem press_then_move_places_node :
  (∀ (w : Browser.W) p q r,
     Browser.getNodeAtPosition w p = Some r →
     r < length (nobjs (heap w)) →
     let w' := final (Browser.handleMouseMove q (final (Browser.handleMouseDown p w))) in
     node_x (nodeOf (heap w') r) = (px q - (px p - node_x (nodeOf (heap w) r)))%Z ∧
     node_y (nodeOf (heap w') r) = (py q - (py p - node_y (nodeOf (heap w) r)))%Z ∧
     ∀ r', r' ≠ r → nodeOf (heap w') r' = nodeOf (heap w) r') ∧
  (∀ e (w : VSCode.W) p q r,
     VSCode.selectedTool (this w) = VSCode.ToolSelect →
     VSCode.getNodeAtPosition w p = Some r →
     r < length (nobjs (heap w)) →
     let w' := final (VSCode.handleMouseMove q (final (VSCode.handleMouseDown e p w))) in
     node_x (nodeOf (heap w') r) = (px q - (px p - node_x (nodeOf (heap w) r)))%Z ∧
     node_y (nodeOf (heap w') r) = (py q - (py p - node_y (nodeOf (heap w) r)))%Z ∧
     ∀ r', r' ≠ r → nodeOf (heap w') r' = nodeOf (heap w) r').
Proof.
  split.
  - intros w p q r Hg Hr w'. subst w'.
    rewrite (browser_handleMouseDown_hit w p r Hg). cbn [final].
    match goal with |- context [Browser.handleMouseMove q ?W] =>
      destruct (browser_handleMouseMove_dragging W q r eq_refl eq_refl) as [Hh _] end.
    rewrite Hh. cbn [heap this Browser.set_dragOffset Browser.dragOffset px py].
    split_and!.
    + rewrite nodeOf_writeNode by done. cbn. lia.
    + rewrite nodeOf_writeNode by done. cbn. lia.
    + intros r' Hne. by rewrite nodeOf_writeNode_ne.
  - intros e w p q r Ht Hg Hr w'. subst w'.
    rewrite (vscode_handleMouseDown_select_hit e w p r Ht Hg). cbn [final].
    match goal with |- context [VSCode.handleMouseMove q ?W] =>
      destruct (vscode_handleMouseMove_dragging W q r eq_refl) as [Hh _] end.
    rewrite Hh. cbn [heap this VSCode.set_posted VSCode.set_dragOffset VSCode.dragOffset px py].
    split_and!.
    + rewrite nodeOf_writeNode by done. cbn. lia.
    + rewrite nodeOf_writeNode by done. cbn. lia.
    + intros r' Hne. by rewrite nodeOf_writeNode_ne.
Qed.

Lemma press_then_move_witness :
  Browser.getNodeAtPosition nodeAt50Browser (mkPoint 60 60) = Some 0 ∧
  node_x (nodeOf (heap draggedTo80) 0) = (80 - (60 - 50))%Z ∧
  VSCode.getNodeAtPosition nodeAt50VSCode (mkPoint 60 60) = Some 0 ∧
  node_x (nodeOf (heap draggedVSCode) 0) = (80 - (60 - 50))%Z.
Proof.
  assert (Browser.getNodeAtPosition nodeAt50Browser (mkPoint 60 60) = Some 0) as Hb
    by (vm_compute; reflexivity).
  assert (VSCode.getNodeAtPosition nodeAt50VSCode (mkPoint 60 60) = Some 0) as Hv
    by (vm_compute; reflexivity).
  destruct press_then_move_places_node as [HB HV].
  split_and!; [exact Hb| |exact Hv|].
  - destruct (HB nodeAt50Browser (mkPoint 60 60) (mkPoint 80 80) 0 Hb) as (Hx & _);
      [vm_compute; lia|].
    etransitivity; [exact Hx|vm_compute; reflexivity].
  - destruct (HV env1 nodeAt50VSCode (mkPoint 60 60) (mkPoint 80 80) 0) as (Hx & _);
      [vm_compute; reflexivity|exact Hv|vm_compute; lia|].
    etransitivity; [exact Hx|vm_compute; reflexivity].
Defined.

Lemma vscode_portAtPosition_returns h ns pos (w : VSCode.W) :
  Forall (hasPorts h) ns → returns (VSCode.portAtPosition h ns pos w) = true.
Proof.
  induction 1 as [|r ns Hr _ IH]; [done|]. cbn [VSCode.portAtPosition].
  destruct (hasPorts_arrays _ _ Hr) as (ins & outs & Hi & Ho). rewrite Hi, Ho. mrun.
  destruct (VSCode.scanPorts _ _ _ _ ins _); [done|].
  destruct (VSCode.scanPorts _ _ _ _ outs _); [done|]. apply IH.
Qed.

Lemma vscode_getPortAtPosition_returns pos (w : VSCode.W) :
  typed w → ∃ o, VSCode.getPortAtPosition pos w = Returned o w.
Proof.
  intros Ht. pose proof (vscode_getPortAtPosition_pure pos w) as Hp.
  assert (returns (VSCode.getPortAtPosition pos w) = true) as Hr.
  { unfold VSCode.getPortAtPosition. mrun. by apply vscode_portAtPosition_returns. }
  destruct (VSCode.getPortAtPosition pos w) as [o w'|]; [|done].
  cbn [final] in Hp. subst. eauto.
Qed.

Lemma vscode_handleMouseUp_final e (w : VSCode.W) :
  let w' := final (VSCode.handleMouseUp e w) in
  heap w' = heap w ∧
  VSCode.nodes (this w') = VSCode.nodes (this w) ∧
  VSCode.draggedNode (this w') = None.
Proof.
  unfold VSCode.handleMouseUp, VSCode.completeConnection. mrun.
  cbn [VSCode.set_draggedNode VSCode.isConnecting VSCode.mousePos VSCode.connectingFrom].
  destruct (VSCode.isConnecting (this w)); [|by destruct w as [h []]].
  match goal with |- context [VSCode.getPortAtPosition ?p ?W] =>
    pose proof (vscode_getPortAtPosition_pure p W) as Hp;
    destruct (VSCode.getPortAtPosition p W) as [[port|] w1|] end;
    cbn [final] in Hp; subst; [| |by destruct w as [h []]].
  - cbn [this heap VSCode.set_draggedNode VSCode.connectingFrom].
    destruct (VSCode.connectingFrom (this w)) as [cf|];
      [destruct (String.eqb (nodeId port) (nodeId cf))|];
      by destruct w as [h []].
  - by destruct w as [h []].
Qed.

(** X4: releasing the button ends the drag: after [handleMouseUp] a pointer
    move moves no node.  In canvas.js the move changes nothing but the
    recorded pointer position (it does not even redraw). *)
Theorem release_ends_the_drag :
  (∀ (w : Browser.W) q,
     Browser.handleMouseMove q (final (Browser.handleMouseUp w)) =
       Returned tt
         (mkWorld (heap w)
            (Browser.set_mousePos q
               (Browser.set_connectingFrom None
                  (Browser.set_isConnecting false
                     (Browser.set_isDragging false (this w))))))) ∧
  (∀ e (w : VSCode.W) q,
     heap (final (VSCode.handleMouseMove q (final (VSCode.handleMouseUp e w)))) = heap w).
Proof.
  split.
  - intros w q. unfold Browser.handleMouseUp, Browser.handleMouseMove. mrun.
    by destruct w as [h []].
  - intros e w q.
    destruct (vscode_handleMouseUp_final e w) as (Hh & _ & Hd).
    set (w1 := final (VSCode.handleMouseUp e w)) in *.
    unfold VSCode.handleMouseMove. mrun.
    cbn [VSCode.set_mousePos VSCode.draggedNode]. rewrite Hd.
    match goal with |- context [VSCode.draw ?W] =>
      destruct (vscode_draw_paints W) as [Hp _];
      destruct (VSCode.draw W) as [[] ?|? ?] end;
      cbn [final heap] in *; by rewrite Hp.
Qed.

(** X5: in the webview script a release always brings the gesture state back
    to idle when the nodes carry their port arrays: [handleMouseUp] returns
    with no dragged node and [isConnecting] false.  When the port hit-test
    throws (a node without port arrays) the reset is skipped and the canvas
    stays in the connecting state. *)
Theorem release_returns_to_idle :
  (∀ e (w : VSCode.W),
     typed w →
     ∃ w', VSCode.handleMouseUp e w = Returned tt w' ∧
       VSCode.draggedNode (this w') = None ∧
       VSCode.isConnecting (this w') = false ∧
       heap w' = heap w ∧ VSCode.nodes (this w') = VSCode.nodes (this w)) ∧
  (∀ e (w : VSCode.W),
     VSCode.isConnecting (this w) = true →
     returns (VSCode.getPortAtPosition (VSCode.mousePos (this w)) w) = false →
     VSCode.handleMouseUp e w =
       Thrown TypeError (mkWorld (heap w) (VSCode.set_draggedNode None (this w)))).
Proof.
  split.
  - intros e w Ht.
    destruct (vscode_handleMouseUp_final e w) as (Hh & Hn & Hd).
    assert (∃ w', VSCode.handleMouseUp e w = Returned tt w' ∧
                  VSCode.isConnecting (this w') = false) as (w' & Hw & Hc).
    { unfold VSCode.handleMouseUp, VSCode.completeConnection. mrun.
      cbn [VSCode.set_draggedNode VSCode.isConnecting VSCode.mousePos
           VSCode.connectingFrom].
      destruct (VSCode.isConnecting (this w)) eqn:Ec;
        [|eexists; split; [done|by destruct w as [h []]]].
      match goal with |- context [VSCode.getPortAtPosition ?p ?W] =>
        destruct (vscode_getPortAtPosition_returns p W) as [o Ho] end.
      { by destruct w as [h []]. }
      rewrite Ho. cbn [this heap VSCode.set_draggedNode VSCode.connectingFrom].
      destruct o as [port|];
        [destruct (VSCode.connectingFrom (this w)) as [cf|];
           [destruct (String.eqb (nodeId port) (nodeId cf))|]|];
        eexists; split; done. }
    rewrite Hw in Hh, Hn, Hd. cbn [final] in Hh, Hn, Hd. eauto 10.
  - intros e w Hc Hr. unfold VSCode.handleMouseUp, VSCode.completeConnection. mrun.
    cbn [VSCode.set_draggedNode VSCode.isConnecting VSCode.mousePos]. rewrite Hc.
    assert (∀ p (w1 w2 : VSCode.W), heap w1 = heap w2 →
              VSCode.nodes (this w1) = VSCode.nodes (this w2) →
              returns (VSCode.getPortAtPosition p w2) = false →
              VSCode.getPortAtPosition p w1 = Thrown TypeError w1) as Hsame.
    { intros p w1 w2 Hh Hn Hf.
      pose proof (vscode_getPortAtPosition_pure p w1) as Hp.
      assert (returns (VSCode.getPortAtPosition p w1) = false) as Hf1.
      { rewrite <-Hf. unfold VSCode.getPortAtPosition. mrun. rewrite Hh, Hn.
        generalize (VSCode.nodes (this w2)). intros ns.
        induction ns as [|r ns IH]; [done|]. cbn [VSCode.portAtPosition]. mrun.
        destruct (inputs _); [|done].
        destruct (VSCode.scanPorts _ _ _ _ _ _); [done|].
        destruct (outputs _); [|done].
        destruct (VSCode.scanPorts _ _ _ _ _ _); [done|]. apply IH. }
      destruct (VSCode.getPortAtPosition p w1) as [|[] ?]; [done|].
      cbn [final] in Hp. by subst. }
    erewrite Hsame; [done|..|exact Hr]; by destruct w as [h []].
Qed.

Lemma release_returns_to_idle_witness :
  typed heldInputToOutput ∧
  VSCode.isConnecting (this heldInputToOutput) = true ∧
  (∃ w', VSCode.handleMouseUp env3 heldInputToOutput = Returned tt w' ∧
         VSCode.isConnecting (this w') = false) ∧
  VSCode.isConnecting (this stuckVSCode) = true ∧
  returns (VSCode.getPortAtPosition (VSCode.mousePos (this stuckVSCode)) stuckVSCode)
    = false ∧
  VSCode.isConnecting (this (final (VSCode.handleMouseUp env3 stuckVSCode))) = true.
Proof.
  assert (typed heldInputToOutput) as Ht.
  { vm_compute. repeat constructor; eexists; reflexivity. }
  assert (returns (VSCode.getPortAtPosition (VSCode.mousePos (this stuckVSCode)) stuckVSCode)
          = false) as Hr by (vm_compute; reflexivity).
  destruct release_returns_to_idle as [H1 H2].
  split_and!; [exact Ht|vm_compute; reflexivity| |vm_compute; reflexivity|exact Hr|].
  - destruct (H1 env3 heldInputToOutput Ht) as (w' & Hw & _ & Hc & _). eauto.
  - rewrite (H2 env3 stuckVSCode eq_refl Hr). reflexivity.
Defined.

(** X6: a full click (press, release, click at one point) in the browser
    canvas selects what the hit-test finds there, or clears the selection on
    empty canvas, tells the host so with exactly one [nodeSelected]
    notification, and moves no node. *)
Theorem click_selects_what_is_hit :
  ∀ (w : Browser.W) p,
    let w' := final (Browser.handleClick p
                (final (Browser.handleMouseUp (final (Browser.handleMouseDown p w))))) in
    Browser.selectedNode (this w') = Browser.getNodeAtPosition w p ∧
    Browser.emitted (this w') =
      Browser.emitted (this w) ++ [NodeSelected (Browser.getNodeAtPosition w p)] ∧
    Browser.isDragging (this w') = false ∧
    heap w' = heap w ∧
    Browser.nodes (this w') = Browser.nodes (this w) ∧
    Browser.connections (this w') = Browser.connections (this w).
Proof.
  intros w p w'. subst w'.
  assert (∀ w1 : Browser.W,
    heap w1 = heap w → Browser.nodes (this w1) = Browser.nodes (this w) →
    Browser.connections (this w1) = Browser.connections (this w) →
    Browser.emitted (this w1) = Browser.emitted (this w) →
    Browser.isDragging (this w1) = false →
    let w' := final (Browser.handleClick p w1) in
    Browser.selectedNode (this w') = Browser.getNodeAtPosition w p ∧
    Browser.emitted (this w') =
      Browser.emitted (this w) ++ [NodeSelected (Browser.getNodeAtPosition w p)] ∧
    Browser.isDragging (this w') = false ∧
    heap w' = heap w ∧
    Browser.nodes (this w') = Browser.nodes (this w) ∧
    Browser.connections (this w') = Browser.connections (this w)) as Hclick.
  { intros w1 Hh Hn Hc He Hd. unfold Browser.handleClick. mrun.
    cbn [Browser.set_mousePos Browser.isDragging]. rewrite Hd.
    unfold Browser.getNodeAtPosition. cbn [heap this Browser.nodes Browser.set_mousePos].
    rewrite Hh, Hn.
    assert (∀ sel (w2 w3 : Browser.W), repaint w2 w3 →
      heap w2 = heap w → Browser.nodes (this w2) = Browser.nodes (this w) →
      Browser.connections (this w2) = Browser.connections (this w) →
      Browser.isDragging (this w2) = false →
      Browser.selectedNode (this w2) = sel →
      Browser.emitted (this w2) = Browser.emitted (this w) ++ [NodeSelected sel] →
      Browser.selectedNode (this w3) = sel ∧
      Browser.emitted (this w3) = Browser.emitted (this w) ++ [NodeSelected sel] ∧
      Browser.isDragging (this w3) = false ∧
      heap w3 = heap w ∧
      Browser.nodes (this w3) = Browser.nodes (this w) ∧
      Browser.connections (this w3) = Browser.connections (this w)) as Hgoal.
    { intros sel w2 w3 [Hh3 [ops Hc3]] ? ? ? ? ? ?. rewrite Hh3, Hc3.
      by destruct w2 as [h2 []]. }
    destruct (nodeAtPosition _ _ _) as [n|]; mrun;
      match goal with |- context [Browser.draw ?W] =>
        pose proof (browser_draw_paints W) as Hp;
        destruct (Browser.draw W) as [[] ?|? ?] end;
      cbn [final] in *; (eapply Hgoal; [exact Hp|..]);
      destruct w1 as [h1 []]; cbn in *; congruence. }
  destruct (Browser.getNodeAtPosition w p) as [r|] eqn:Hg.
  - rewrite (browser_handleMouseDown_hit w p r Hg). cbn [final].
    unfold Browser.handleMouseUp. mrun. apply Hclick; by destruct w as [h []].
  - rewrite (browser_handleMouseDown_miss w p Hg). cbn [final].
    unfold Browser.handleMouseUp. mrun. apply Hclick; by destruct w as [h []].
Qed.

(** X7: the Delete key of the webview canvas.  Any other key, or Delete with
    nothing selected, changes nothing at all.  After Delete nothing is
    selected, so a second Delete is a no-op; Delete changes no object of the
    store, and the node being dragged, if any, stays recorded as dragged. *)
Theorem delete_key_removes_selection_once :
  (∀ key (w : VSCode.W), key ≠ "Delete" → VSCode.handleKeyDown key w = Returned tt w) ∧
  (∀ key (w : VSCode.W),
     VSCode.selectedNode (this w) = None → VSCode.handleKeyDown key w = Returned tt w) ∧
  (∀ (w : VSCode.W),
     let w1 := final (VSCode.handleKeyDown "Delete" w) in
     VSCode.handleKeyDown "Delete" w1 = Returned tt w1 ∧
     VSCode.selectedNode (this w1) = None ∧
     VSCode.draggedNode (this w1) = VSCode.draggedNode (this w) ∧
     heap w1 = heap w).
Proof.
  assert (∀ key (w : VSCode.W),
    VSCode.selectedNode (this w) = None → VSCode.handleKeyDown key w = Returned tt w) as Hnone.
  { intros key w Hs. unfold VSCode.handleKeyDown. mrun. rewrite Hs.
    by rewrite andb_false_r. }
  split_and!; [|exact Hnone|].
  - intros key w Hk. unfold VSCode.handleKeyDown. mrun.
    apply String.eqb_neq in Hk. by rewrite Hk.
  - intros w w1. subst w1.
    assert (VSCode.selectedNode (this (final (VSCode.handleKeyDown "Delete" w))) = None ∧
            VSCode.draggedNode (this (final (VSCode.handleKeyDown "Delete" w)))
              = VSCode.draggedNode (this w) ∧
            heap (final (VSCode.handleKeyDown "Delete" w)) = heap w) as (Hs & Hd & Hh).
    { destruct (VSCode.selectedNode (this w)) as [s|] eqn:Es.
      - unfold VSCode.handleKeyDown, VSCode.deleteSelectedNode. mrun.
        rewrite Es. cbn. rewrite Es. cbn. by destruct w as [h []].
      - by rewrite (Hnone _ w Es). }
    split_and!; [by apply Hnone|done..].
Qed.

Lemma delete_key_witness :
  VSCode.handleKeyDown "Enter" selectedVSCode = Returned tt selectedVSCode ∧
  VSCode.nodes (this selectedVSCode) = [0] ∧
  VSCode.nodes (this (final (VSCode.handleKeyDown "Delete" selectedVSCode))) = [] ∧
  VSCode.handleKeyDown "Delete" nodeAt50VSCode = Returned tt nodeAt50VSCode.
Proof.
  destruct delete_key_removes_selection_once as (H1 & H2 & _).
  split_and!.
  - apply H1. discriminate.
  - vm_compute; reflexivity.
  - vm_compute; reflexivity.
  - apply H2. vm_compute; reflexivity.
Defined.

(** ** The webview canvas under its own events *)

(** Compute the fields of a canvas record. *)
Ltac vfields :=
  cbn [heap this final returns
       VSCode.ctx VSCode.nodes VSCode.connections VSCode.selectedTool VSCode.selectedNode
       VSCode.draggedNode VSCode.dragOffset VSCode.isConnecting VSCode.connectingFrom
       VSCode.mousePos VSCode.components VSCode.selectedComponent VSCode.posted
       VSCode.set_ctx VSCode.set_nodes VSCode.set_connections VSCode.set_selectedTool
       VSCode.set_selectedNode VSCode.set_draggedNode VSCode.set_dragOffset
       VSCode.set_isConnecting VSCode.set_connectingFrom VSCode.set_mousePos
       VSCode.set_components VSCode.set_selectedComponent VSCode.set_posted] in *.

Ltac bfields :=
  cbn [heap this final returns
       Browser.ctx Browser.nodes Browser.connections Browser.selectedNode
       Browser.isDragging Browser.dragOffset Browser.isConnecting Browser.connectingFrom
       Browser.mousePos Browser.selectedComponent Browser.emitted
       Browser.set_ctx Browser.set_nodes Browser.set_connections Browser.set_selectedNode
       Browser.set_isDragging Browser.set_dragOffset Browser.set_isConnecting
       Browser.set_connectingFrom Browser.set_mousePos Browser.set_emitted] in *.

Lemma dispatch_neverConnected ev (w : VSCode.W) :
  neverConnected (this w) → neverConnected (this (final (dispatch ev w))).
Proof.
  unfold neverConnected. destruct w as [h c]. destruct c. vfields.
  intros (Ht & -> & -> & ->). destruct ev as [e pos|pos|e|e|key|m]; cbn [dispatch].
  - unfold VSCode.handleMouseDown, VSCode.handleSelectTool, VSCode.handleAddComponentTool,
      VSCode.getNodeAtPosition, allocNode. mrun. vfields.
    destruct Ht as [->| ->]; mrun; vfields.
    + destruct (nodeAtPosition _ _ _); mrun; vfields; auto.
    + destruct selectedComponent; mrun; vfields; auto.
  - unfold VSCode.handleMouseMove. mrun. vfields.
    destruct draggedNode; mrun; vfields;
      match goal with |- context [VSCode.draw ?W] =>
        destruct (vscode_draw_paints W) as [_ [ops Hp]];
        destruct (VSCode.draw W) as [[] w1|e1 w1]; cbn [final] in Hp |- *; rewrite Hp
      end; vfields; auto.
  - unfold VSCode.handleMouseUp. mrun. vfields. auto.
  - unfold VSCode.handleMouseUp. mrun. vfields. auto.
  - unfold VSCode.handleKeyDown, VSCode.deleteSelectedNode. mrun. vfields.
    destruct (_ && _); [|vfields; auto].
    destruct selectedNode; mrun; vfields; auto.
  - destruct m as [cs|c|nodeId p]; cbn [VSCode.onMessage].
    + mrun. vfields. auto.
    + mrun. vfields. auto.
    + unfold VSCode.updateNodeProperty. mrun. vfields.
      destruct (findNode _ _ _); [destruct p|]; mrun; vfields; auto.
Qed.

Lemma runEvents_neverConnected evs (w : VSCode.W) :
  neverConnected (this w) → neverConnected (this (runEvents evs w)).
Proof.
  revert w. induction evs as [|ev evs IH]; intros w Hw; [done|].
  cbn [runEvents]. by apply IH, dispatch_neverConnected.
Qed.

(** X8: driven by its own listeners alone, the webview canvas never makes a
    connection.  [selectedTool] starts as select and is only ever set to the
    add-component tool, so the connect tool is never on: after any sequence
    of pointer, key and message events on a new canvas, [isConnecting] is
    false, no origin port is recorded and the connection array is empty. *)
Theorem webview_events_never_connect :
  ∀ (h : Store) (evs : list WebviewEvent),
    let w := runEvents evs (mkWorld h VSCode.newCanvas) in
    VSCode.selectedTool (this w) ≠ VSCode.ToolConnect ∧
    VSCode.isConnecting (this w) = false ∧
    VSCode.connectingFrom (this w) = None ∧
    VSCode.connections (this w) = [].
Proof.
  intros h evs w.
  destruct (runEvents_neverConnected evs (mkWorld h VSCode.newCanvas))
    as (Ht & Hc & Hf & Hn); [by split_and!; auto|].
  fold w in Ht, Hc, Hf, Hn. split_and!; [|done..].
  destruct Ht as [-> | ->]; discriminate.
Qed.

Lemma dispatch_placing ev (w : VSCode.W) :
  placing (this w) →
  placing (this (final (dispatch ev w))) ∧
  ∃ more, nobjs (heap (final (dispatch ev w))) = nobjs (heap w) ++ more.
Proof.
  unfold placing. destruct w as [h c]. destruct c. vfields.
  intros (-> & ->). destruct ev as [e pos|pos|e|e|key|m]; cbn [dispatch].
  - unfold VSCode.handleMouseDown, VSCode.handleAddComponentTool, allocNode. mrun. vfields.
    destruct selectedComponent; mrun; vfields; (split; [done|]);
      [by eexists|exists []; by rewrite app_nil_r].
  - unfold VSCode.handleMouseMove. mrun. vfields.
    match goal with |- context [VSCode.draw ?W] =>
      destruct (vscode_draw_paints W) as [Hh [ops Hp]];
      destruct (VSCode.draw W) as [[] w1|e1 w1]; cbn [final] in Hh, Hp |- *;
      rewrite Hh, Hp
    end; vfields; (split; [done|]); exists []; by rewrite app_nil_r.
  - destruct (vscode_handleMouseUp_final e
      (mkWorld h (VSCode.mkCanvas ctx nodes connections VSCode.ToolAddComponent selectedNode
                    None dragOffset isConnecting connectingFrom mousePos components
                    selectedComponent posted))) as (Hh & _ & Hd).
    split_and!; [|done|rewrite Hh; exists []; by rewrite app_nil_r].
    unfold VSCode.handleMouseUp, VSCode.completeConnection. mrun. vfields.
    destruct isConnecting; [|done].
    match goal with |- context [VSCode.getPortAtPosition ?p ?W] =>
      pose proof (vscode_getPortAtPosition_pure p W) as Hp;
      destruct (VSCode.getPortAtPosition p W) as [[port|] w1|] end;
      cbn [final] in Hp; subst; vfields; [|done..].
    destruct connectingFrom as [cf|]; [destruct (String.eqb _ _)|]; by vfields.
  - destruct (vscode_handleMouseUp_final e
      (mkWorld h (VSCode.mkCanvas ctx nodes connections VSCode.ToolAddComponent selectedNode
                    None dragOffset isConnecting connectingFrom mousePos components
                    selectedComponent posted))) as (Hh & _ & Hd).
    split_and!; [|done|rewrite Hh; exists []; by rewrite app_nil_r].
    unfold VSCode.handleMouseUp, VSCode.completeConnection. mrun. vfields.
    destruct isConnecting; [|done].
    match goal with |- context [VSCode.getPortAtPosition ?p ?W] =>
      pose proof (vscode_getPortAtPosition_pure p W) as Hp;
      destruct (VSCode.getPortAtPosition p W) as [[port|] w1|] end;
      cbn [final] in Hp; subst; vfields; [|done..].
    destruct connectingFrom as [cf|]; [destruct (String.eqb _ _)|]; by vfields.
  - unfold VSCode.handleKeyDown, VSCode.deleteSelectedNode. mrun. vfields.
    destruct (_ && _); [destruct selectedNode|]; mrun; vfields;
      (split; [done|]); exists []; by rewrite app_nil_r.
  - destruct m as [cs|c|nodeId p]; cbn [VSCode.onMessage].
    + mrun. vfields. split; [done|]. exists []. by rewrite app_nil_r.
    + mrun. vfields. split; [done|]. exists []. by rewrite app_nil_r.
    + unfold VSCode.updateNodeProperty, writeComp. mrun. vfields.
      destruct (findNode _ _ _); [destruct p|]; mrun; vfields;
        (split; [done|]); exists []; by rewrite app_nil_r.
Qed.

Lemma runEvents_placing evs (w : VSCode.W) :
  placing (this w) →
  placing (this (runEvents evs w)) ∧
  ∃ more, nobjs (heap (runEvents evs w)) = nobjs (heap w) ++ more.
Proof.
  revert w. induction evs as [|ev evs IH]; intros w Hw.
  - split; [done|]. exists []. by rewrite app_nil_r.
  - cbn [runEvents]. destruct (dispatch_placing ev w Hw) as (Hp & more1 & H1).
    destruct (IH _ Hp) as (Hp' & more2 & H2). split; [done|].
    exists (more1 ++ more2). by rewrite H2, H1, app_assoc.
Qed.

(** X9: once a component has been picked in the webview canvas (and no drag
    is under way), the add-component tool stays on for good: whatever
    pointer, key and message events follow, no node is ever dragged again
    and no placed node object changes, so every node keeps the id, the
    component and the position it has. *)
Theorem webview_nodes_never_move_after_pick :
  ∀ (evs : list WebviewEvent) (w : VSCode.W),
    VSCode.selectedTool (this w) = VSCode.ToolAddComponent →
    VSCode.draggedNode (this w) = None →
    let w' := runEvents evs w in
    VSCode.selectedTool (this w') = VSCode.ToolAddComponent ∧
    VSCode.draggedNode (this w') = None ∧
    ∀ r, r < length (nobjs (heap w)) → nodeOf (heap w') r = nodeOf (heap w) r.
Proof.
  intros evs w Ht Hd w'.
  destruct (runEvents_placing evs w) as ((Ht' & Hd') & more & Hm); [done|].
  fold w' in Ht', Hd', Hm. split_and!; [done..|].
  intros r Hr. unfold nodeOf. rewrite Hm.
  apply list_lookup_total_correct. rewrite lookup_app_l by done.
  by apply list_lookup_lookup_total_lt.
Qed.

Lemma webview_nodes_never_move_witness :
  VSCode.selectedTool (this placingStart) = VSCode.ToolAddComponent ∧
  VSCode.draggedNode (this placingStart) = None ∧
  0 < length (nobjs (heap placingStart)) ∧
  VSCode.draggedNode (this placingEnd) = None ∧
  nodeOf (heap placingEnd) 0 = nodeOf (heap placingStart) 0.
Proof.
  assert (VSCode.selectedTool (this placingStart) = VSCode.ToolAddComponent) as Ht
    by (vm_compute; reflexivity).
  assert (VSCode.draggedNode (this placingStart) = None) as Hd
    by (vm_compute; reflexivity).
  assert (0 < length (nobjs (heap placingStart))) as Hl by (vm_compute; lia).
  destruct (webview_nodes_never_move_after_pick (drop 4 session) placingStart Ht Hd)
    as (_ & Hd' & Hn).
  split_and!; [exact Ht|exact Hd|exact Hl|exact Hd'|exact (Hn 0 Hl)].
Defined.

Lemma returns_bind_inv {S A B} (m : M S A) (f : A → M S B) s :
  returns ((m ≫= f) s) = true →
  ∃ a s', m s = Returned a s' ∧ returns (f a s') = true.
Proof. unfold mbind, M_bind. destruct (m s) as [a s'|e s']; [eauto|done]. Qed.

Lemma forEach_returns_inv {C A} `{Surface C} (Q : A → Store → Prop) (l : list A)
    (body : A → M (World C) unit) :
  (∀ a, paints (body a)) →
  (∀ a w, returns (body a w) = true → Q a (heap w)) →
  ∀ w, returns (forEach l body w) = true → Forall (λ a, Q a (heap w)) l.
Proof.
  intros Hp Hb. induction l as [|a l IH]; intros w Hr; [constructor|].
  cbn [forEach] in Hr. apply returns_bind_inv in Hr as ([] & w' & E & Hr).
  constructor.
  - apply Hb. by rewrite E.
  - destruct (Hp a w) as [Hh _]. rewrite E in Hh. cbn [final] in Hh.
    rewrite <-Hh. by apply IH.
Qed.

Lemma browser_drawNode_returns_inv w r sel :
  returns (Browser.drawNode r sel w) = true → hasPorts (heap w) r.
Proof.
  unfold Browser.drawNode, hasPorts. mrun.
  destruct (inputs _) as [ins|]; [|done].
  destruct (outputs _) as [outs|]; [done|].
  intros ([] & w' & _ & Hr)%returns_bind_inv. done.
Qed.

Lemma vscode_drawNode_returns_inv w r sel :
  returns (VSCode.drawNode r sel w) = true → hasPorts (heap w) r.
Proof.
  unfold VSCode.drawNode, hasPorts. mrun.
  destruct (inputs _) as [ins|]; [|done].
  destruct (outputs _) as [outs|]; [done|].
  intros ([] & w' & _ & Hr)%returns_bind_inv. done.
Qed.

Lemma browser_drawNodes_returns_inv w :
  returns (Browser.drawNodes w) = true → typed w.
Proof.
  unfold Browser.drawNodes. erewrite bind_Returned by reflexivity.
  apply (forEach_returns_inv (λ r h, hasPorts h r)).
  - intros r. apply paints_bind; [apply paints_get|intros ?].
    apply browser_drawNode_paints.
  - intros r w'. erewrite bind_Returned by reflexivity.
    apply browser_drawNode_returns_inv.
Qed.

Lemma vscode_drawNodes_returns_inv w :
  returns (VSCode.drawNodes w) = true → typed w.
Proof.
  unfold VSCode.drawNodes. erewrite bind_Returned by reflexivity.
  apply (forEach_returns_inv (λ r h, hasPorts h r)).
  - intros r. apply paints_bind; [apply paints_get|intros ?].
    apply vscode_drawNode_paints.
  - intros r w'. erewrite bind_Returned by reflexivity.
    apply vscode_drawNode_returns_inv.
Qed.

Lemma typed_repaint_inv {C} `{Surface C} (w w' : World C) :
  repaint w w' → typed w' → typed w.
Proof.
  intros Hr. unfold typed. rewrite (repaint_nodes _ _ Hr).
  destruct Hr as [-> _]. done.
Qed.

Lemma browser_draw_returns_inv w : returns (Browser.draw w) = true → typed w.
Proof.
  unfold Browser.draw.
  intros ([] & w1 & E1 & Hr)%returns_bind_inv.
  apply returns_bind_inv in Hr as ([] & w2 & E2 & Hr).
  apply returns_bind_inv in Hr as ([] & w3 & E3 & _).
  assert (returns (Browser.drawNodes w2) = true) as Hn by by rewrite E3.
  apply browser_drawNodes_returns_inv in Hn.
  eapply typed_repaint_inv; [|exact Hn].
  pose proof (browser_clear_paints w) as H1. rewrite E1 in H1.
  pose proof (browser_drawConnections_paints w1) as H2. rewrite E2 in H2.
  exact (repaint_trans _ _ _ H1 H2).
Qed.

Lemma vscode_draw_returns_inv w : returns (VSCode.draw w) = true → typed w.
Proof.
  unfold VSCode.draw.
  intros ([] & w1 & E1 & Hr)%returns_bind_inv.
  apply returns_bind_inv in Hr as ([] & w2 & E2 & Hr).
  apply returns_bind_inv in Hr as ([] & w3 & E3 & _).
  assert (returns (VSCode.drawNodes w2) = true) as Hn by by rewrite E3.
  apply vscode_drawNodes_returns_inv in Hn.
  eapply typed_repaint_inv; [|exact Hn].
  pose proof (vscode_clear_paints w) as H1. rewrite E1 in H1.
  pose proof (vscode_drawConnections_paints w1) as H2. rewrite E2 in H2.
  exact (repaint_trans _ _ _ H1 H2).
Qed.

(** X10: in both canvases [draw()] runs to its end exactly when every node
    of the node array has a component with both port arrays; one node
    without [inputs] or [outputs] makes every redraw throw a TypeError,
    whatever the connections, the selection and the gesture state are. *)
Theorem draw_returns_iff_every_node_has_ports :
  (∀ w : Browser.W, returns (Browser.draw w) = true ↔ typed w) ∧
  (∀ w : VSCode.W, returns (VSCode.draw w) = true ↔ typed w).
Proof.
  split; intros w; split.
  - apply browser_draw_returns_inv.
  - apply browser_draw_returns.
  - apply vscode_draw_returns_inv.
  - apply vscode_draw_returns.
Qed.

Lemma browser_addNode_throws e c x y (w : Browser.W) :
  ¬ (is_Some (inputs (compOf (heap w) c)) ∧ is_Some (outputs (compOf (heap w) c))) →
  ∃ w', Browser.addNode e c x y w = Thrown TypeError w' ∧
    heap w' = mkStore (comps (heap w)) (nobjs (heap w) ++ [mkNode (genNodeId e) c x y]) ∧
    Browser.nodes (this w') = Browser.nodes (this w) ++ [length (nobjs (heap w))] ∧
    Browser.connections (this w') = Browser.connections (this w) ∧
    Browser.selectedNode (this w') = Some (length (nobjs (heap w))) ∧
    Browser.emitted (this w') = Browser.emitted (this w).
Proof.
  intros Hc. unfold Browser.addNode, allocNode. mrun.
  match goal with |- context [Browser.draw ?W] =>
    pose proof (browser_draw_returns_inv W) as Hi;
    destruct (browser_draw_paints W) as [Hh [ops Hp]];
    destruct (Browser.draw W) as [[] w1|[] w1]; cbn [final] in Hh, Hp
  end.
  - exfalso. apply Hc. specialize (Hi eq_refl). unfold typed in Hi.
    cbn [heap this nodesOf Browser_Surface Browser.nodes Browser.set_selectedNode
         Browser.set_nodes] in Hi.
    rewrite Forall_app, Forall_singleton in Hi. destruct Hi as [_ Hi].
    unfold hasPorts, componentOf in Hi. rewrite nodeOf_alloc_new in Hi. exact Hi.
  - eexists. split; [reflexivity|]. rewrite Hh, Hp. by bfields.
Qed.

(** X11: [addNode] with a template that lacks [inputs] or [outputs] never
    returns: on any canvas it appends the new node, selects it, and then
    throws a TypeError out of [draw()] before [nodeAdded] is emitted; and
    from then on every [draw()] of that canvas throws. *)
Theorem addNode_throws_when_template_lacks_ports :
  ∀ e c x y (w : Browser.W),
    ¬ (is_Some (inputs (compOf (heap w) c)) ∧ is_Some (outputs (compOf (heap w) c))) →
    ∃ w', Browser.addNode e c x y w = Thrown TypeError w' ∧
      Browser.nodes (this w') = Browser.nodes (this w) ++ [length (nobjs (heap w))] ∧
      nodeOf (heap w') (length (nobjs (heap w))) = mkNode (genNodeId e) c x y ∧
      Browser.selectedNode (this w') = Some (length (nobjs (heap w))) ∧
      Browser.emitted (this w') = Browser.emitted (this w) ∧
      returns (Browser.draw w') = false.
Proof.
  intros e c x y w Hc.
  destruct (browser_addNode_throws e c x y w Hc) as (w' & E & Hh & Hn & _ & Hs & He).
  exists w'. split_and!; try done.
  - rewrite Hh. apply nodeOf_alloc_new.
  - apply not_true_is_false. intros Ht%browser_draw_returns_inv. apply Hc.
    unfold typed in Ht. cbn [nodesOf Browser_Surface] in Ht. rewrite Hn in Ht.
    rewrite Forall_app, Forall_singleton in Ht. destruct Ht as [_ Ht].
    unfold hasPorts, componentOf in Ht. rewrite Hh, nodeOf_alloc_new in Ht. exact Ht.
Qed.

Lemma addNode_throws_witness :
  ¬ (is_Some (inputs (compOf catalog 3)) ∧ is_Some (outputs (compOf catalog 3))) ∧
  ∃ w', Browser.addNode env1 3 100 100 (mkWorld catalog Browser.newCanvas)
          = Thrown TypeError w' ∧
        Browser.emitted (this w') = [].
Proof.
  assert (¬ (is_Some (inputs (compOf catalog 3)) ∧ is_Some (outputs (compOf catalog 3))))
    as Hc by (intros [[? [=]] _]).
  split; [exact Hc|].
  destruct (addNode_throws_when_template_lacks_ports env1 3 100 100
              (mkWorld catalog Browser.newCanvas) Hc) as (w' & E & _ & _ & _ & He & _).
  exists w'. split; [exact E|exact He].
Defined.

(** X12: in the web IDE a click on any entry of the component panel's
    catalog ends in a TypeError: none of the seventeen templates of
    [loadComponents] has port arrays, so the [componentSelected] listener's
    [addNode(component, 100, 100)] leaves one more node at (100, 100) on the
    canvas and throws, whatever the canvas held before. *)
Theorem panel_click_always_throws :
  ∀ e c (w : Browser.W),
    compOf (heap w) c ∈ ComponentPanel.loadComponents →
    ∃ w', onComponentSelected e c w = Thrown TypeError w' ∧
      Browser.nodes (this w') = Browser.nodes (this w) ++ [length (nobjs (heap w))] ∧
      nodeOf (heap w') (length (nobjs (heap w))) = mkNode (genNodeId e) c 100 100.
Proof.
  intros e c w Hin.
  assert (inputs (compOf (heap w) c) = None) as Hi.
  { revert Hin. generalize (compOf (heap w) c). intros k Hin.
    unfold ComponentPanel.loadComponents in Hin.
    repeat (apply elem_of_cons in Hin as [->|Hin]; [done|]).
    by apply elem_of_nil in Hin. }
  destruct (browser_addNode_throws e c 100 100 w) as (w' & E & Hh & Hn & _).
  { rewrite Hi. intros [[? [=]] _]. }
  exists w'. split_and!; [exact E|exact Hn|].
  rewrite Hh. apply nodeOf_alloc_new.
Qed.

Lemma panel_click_witness :
  compOf (heap ideStart) 4 ∈ ComponentPanel.loadComponents ∧
  ∃ w', onComponentSelected env1 4 ideStart = Thrown TypeError w' ∧
        Browser.nodes (this w') = [0].
Proof.
  assert (compOf (heap ideStart) 4 ∈ ComponentPanel.loadComponents) as Hin
    by (vm_compute; repeat constructor).
  split; [exact Hin|].
  destruct (panel_click_always_throws env1 4 ideStart Hin) as (w' & E & Hn & _).
  exists w'. split; [exact E|exact Hn].
Defined.

Lemma browser_removeNode_draw nodeId (w : Browser.W) :
  Browser.removeNode nodeId w = Browser.draw (removed nodeId w).
Proof.
  destruct w as [h c]. destruct c. unfold Browser.removeNode, removed. mrun. bfields.
  destruct selectedNode as [s|]; [destruct (String.eqb _ _)|]; reflexivity.
Qed.

Lemma browser_addNode_state e c x y (w : Browser.W) :
  let w' := final (Browser.addNode e c x y w) in
  heap w' = mkStore (comps (heap w)) (nobjs (heap w) ++ [mkNode (genNodeId e) c x y]) ∧
  Browser.nodes (this w') = Browser.nodes (this w) ++ [length (nobjs (heap w))] ∧
  Browser.connections (this w') = Browser.connections (this w) ∧
  Browser.selectedNode (this w') = Some (length (nobjs (heap w))).
Proof.
  unfold Browser.addNode, allocNode. mrun.
  match goal with |- context [Browser.draw ?W] =>
    destruct (browser_draw_paints W) as [Hh [ops Hp]];
    destruct (Browser.draw W) as [[] w1|e1 w1]; cbn [final] in Hh, Hp |- *
  end; bfields; rewrite Hh, Hp; by bfields.
Qed.

(** X13: [removeNode] with the id that [addNode] generated takes the new
    node out again: when that id was not in use on the canvas (no node
    carries it, no connection names it), the node array and the connections
    are what they were before [addNode], and nothing is selected.  This
    holds too when [addNode] threw for a template without port arrays; and
    if every earlier node has its port arrays, this [removeNode] returns
    normally. *)
Theorem removeNode_undoes_addNode :
  ∀ e c x y (w : Browser.W),
    allocated w →
    unknownId (heap w) (Browser.nodes (this w)) (genNodeId e) →
    Forall (avoids (genNodeId e)) (Browser.connections (this w)) →
    Browser.nodes (this (final (addThenRemove e c x y w))) = Browser.nodes (this w) ∧
    Browser.connections (this (final (addThenRemove e c x y w)))
      = Browser.connections (this w) ∧
    Browser.selectedNode (this (final (addThenRemove e c x y w))) = None ∧
    (typed w → returns (addThenRemove e c x y w) = true).
Proof.
  intros e c x y w Ha Hu Hc. unfold addThenRemove.
  destruct (browser_addNode_state e c x y w) as (Hh & Hn & Hk & Hs).
  set (w1 := final (Browser.addNode e c x y w)) in *.
  rewrite browser_removeNode_draw.
  assert (Browser.nodes (this (removed (genNodeId e) w1)) = Browser.nodes (this w) ∧
          Browser.connections (this (removed (genNodeId e) w1))
            = Browser.connections (this w) ∧
          Browser.selectedNode (this (removed (genNodeId e) w1)) = None ∧
          heap (removed (genNodeId e) w1) = heap w1) as (Hn' & Hk' & Hs' & Hh').
  { unfold removed. destruct w1 as [h1 c1]. destruct c1. bfields. subst.
    rewrite nodeOf_alloc_new. cbn [node_id]. rewrite String.eqb_refl. bfields.
    split_and!; [|by apply filter_all|done..].
    rewrite filter_app. rewrite filter_cons_False, filter_nil, app_nil_r.
    - apply filter_all. unfold allocated in Ha. unfold unknownId in Hu.
      cbn [nodesOf Browser_Surface] in Ha.
      rewrite Forall_forall in Ha, Hu. apply Forall_forall. intros r Hr.
      rewrite nodeOf_alloc_old by by apply Ha. by apply Hu.
    - rewrite nodeOf_alloc_new. cbn [node_id]. by intros []. }
  assert (∀ w2 : Browser.W, repaint (removed (genNodeId e) w1) w2 →
            Browser.nodes (this w2) = Browser.nodes (this w) ∧
            Browser.connections (this w2) = Browser.connections (this w) ∧
            Browser.selectedNode (this w2) = None) as Hgoal.
  { intros w2 [_ [ops ->]]. rewrite <-Hn', <-Hk', <-Hs'.
    by destruct (this (removed (genNodeId e) w1)). }
  destruct (Hgoal _ (browser_draw_paints (removed (genNodeId e) w1))) as (H1 & H2 & H3).
  split_and!; [exact H1|exact H2|exact H3|].
  intros Ht. apply browser_draw_returns. unfold typed.
    cbn [nodesOf Browser_Surface]. rewrite Hn', Hh', Hh.
    unfold typed, allocated in Ht, Ha. cbn [nodesOf Browser_Surface] in Ht, Ha.
    rewrite Forall_forall in Ht, Ha. apply Forall_forall. intros r Hr.
    apply hasPorts_alloc; [by apply Ha|by apply Ht].
Qed.

Lemma removeNode_undoes_addNode_witness :
  allocated oneNodeBrowser ∧
  unknownId (heap oneNodeBrowser) (Browser.nodes (this oneNodeBrowser)) (genNodeId env2) ∧
  Forall (avoids (genNodeId env2)) (Browser.connections (this oneNodeBrowser)) ∧
  typed oneNodeBrowser ∧
  returns (Browser.addNode env2 3 100 100 oneNodeBrowser) = false ∧
  Browser.nodes (this (final (addThenRemove env2 3 100 100 oneNodeBrowser)))
    = Browser.nodes (this oneNodeBrowser) ∧
  returns (addThenRemove env2 3 100 100 oneNodeBrowser) = true.
Proof.
  assert (allocated oneNodeBrowser) as Ha by (vm_compute; repeat constructor).
  assert (unknownId (heap oneNodeBrowser) (Browser.nodes (this oneNodeBrowser))
            (genNodeId env2)) as Hu
    by (vm_compute; constructor; [discriminate|constructor]).
  assert (Forall (avoids (genNodeId env2)) (Browser.connections (this oneNodeBrowser)))
    as Hc by (vm_compute; constructor).
  assert (typed oneNodeBrowser) as Ht
    by (vm_compute; repeat constructor; eexists; reflexivity).
  destruct (removeNode_undoes_addNode env2 3 100 100 oneNodeBrowser Ha Hu Hc)
    as (Hn & _ & _ & Hr).
  split_and!; [exact Ha|exact Hu|exact Hc|exact Ht|vm_compute; reflexivity|exact Hn
              |exact (Hr Ht)].
Defined.

Lemma sameButName_refl c : sameButName c c.
Proof. by repeat split. Qed.

Lemma sameButName_trans c1 c2 c3 :
  sameButName c1 c2 → sameButName c2 c3 → sameButName c1 c3.
Proof. unfold sameButName. intros (?&?&?&?&?&?) (?&?&?&?&?&?). split_and!; congruence. Qed.

Lemma evolves_refl h : evolves h h.
Proof. split_and!; [done|intros; apply sameButName_refl|done|done]. Qed.

Lemma evolves_trans h1 h2 h3 : evolves h1 h2 → evolves h2 h3 → evolves h1 h3.
Proof.
  intros (Hl1 & Hc1 & Hn1 & Ho1) (Hl2 & Hc2 & Hn2 & Ho2). split_and!.
  - congruence.
  - intros r. eapply sameButName_trans; [apply Hc1|apply Hc2].
  - lia.
  - intros r Hr. destruct (Ho1 r Hr) as [? ?]. destruct (Ho2 r) as [? ?]; [lia|].
    split; congruence.
Qed.

Lemma evolves_alloc h n : evolves h (mkStore (comps h) (nobjs h ++ [n])).
Proof.
  split_and!; [done|intros; apply sameButName_refl|cbn; rewrite length_app; lia|].
  intros r Hr. by rewrite nodeOf_alloc_old.
Qed.

Lemma evolves_move h d x y :
  evolves h (writeNode h d (mkNode (node_id (nodeOf h d)) (component (nodeOf h d)) x y)).
Proof.
  unfold writeNode. split_and!; [done|intros; apply sameButName_refl| |].
  - cbn. by rewrite length_insert.
  - intros r Hr. unfold nodeOf. cbn [nobjs].
    destruct (decide (r = d)) as [->|Hne].
    + rewrite !list_lookup_total_insert. by destruct (decide _).
    + by rewrite !list_lookup_total_insert_ne by done.
Qed.

Lemma evolves_rename h cr v :
  evolves h (writeComp h cr (assignProperty (compOf h cr) (SetName v))).
Proof.
  unfold writeComp. split_and!; [cbn; by rewrite length_insert| |done|done].
  intros r. unfold compOf. cbn [comps].
  destruct (decide (r = cr)) as [->|Hne].
  - rewrite list_lookup_total_insert.
    destruct (decide _); [by repeat split|apply sameButName_refl].
  - rewrite list_lookup_total_insert_ne by done. apply sameButName_refl.
Qed.

Lemma dispatch_evolves ev (w : VSCode.W) : evolves (heap w) (heap (final (dispatch ev w))).
Proof.
  destruct ev as [e pos|pos|e|e|key|m]; cbn [dispatch];
    try (destruct (vscode_handleMouseUp_final e w) as (Hh & _); rewrite Hh;
         apply evolves_refl).
  - destruct w as [h c]. destruct c. unfold VSCode.handleMouseDown. mrun. vfields.
    destruct selectedTool.
    + unfold VSCode.handleSelectTool, VSCode.getNodeAtPosition. mrun. vfields.
      destruct (nodeAtPosition _ _ _); mrun; apply evolves_refl.
    + unfold VSCode.handleAddComponentTool, allocNode. mrun. vfields.
      destruct selectedComponent; mrun; vfields; [apply evolves_alloc|apply evolves_refl].
    + unfold VSCode.handleConnectTool. mrun. vfields.
      match goal with |- context [VSCode.getPortAtPosition ?p ?W] =>
        pose proof (vscode_getPortAtPosition_pure p W) as Hp;
        destruct (VSCode.getPortAtPosition p W) as [[port|] w1|] end;
        cbn [final] in Hp; subst; vfields; try apply evolves_refl.
      destruct isConnecting; mrun; apply evolves_refl.
    + apply evolves_refl.
  - destruct w as [h c]. destruct c. unfold VSCode.handleMouseMove. mrun. vfields.
    destruct draggedNode as [d|]; mrun; vfields;
      match goal with |- context [VSCode.draw ?W] =>
        destruct (vscode_draw_paints W) as [Hh _];
        destruct (VSCode.draw W) as [[] w1|e1 w1]; cbn [final] in Hh |- *; rewrite Hh
      end; vfields; first [apply evolves_move|apply evolves_refl].
  - destruct w as [h c]. destruct c.
    unfold VSCode.handleKeyDown, VSCode.deleteSelectedNode. mrun. vfields.
    destruct (_ && _); [destruct selectedNode|]; mrun; apply evolves_refl.
  - destruct w as [h c]. destruct c.
    destruct m as [cs|c|nodeId p]; cbn [VSCode.onMessage]; mrun; try apply evolves_refl.
    unfold VSCode.updateNodeProperty. mrun. vfields.
    destruct (findNode _ _ _); [destruct p|]; mrun; vfields;
      first [apply evolves_rename|apply evolves_refl].
Qed.

(** X14: whatever pointer, key and message events the canvas webview
    handles, the objects it started with only ever change in two ways: a
    component may get another name, a node another position.  No event
    changes a component's id, type, category, colour or port arrays, nor an
    existing node's id or component; so a node whose component has its port
    arrays keeps them. *)
Theorem webview_events_only_move_and_rename :
  ∀ (evs : list WebviewEvent) (w : VSCode.W),
    (∀ r, sameButName (compOf (heap w) r) (compOf (heap (runEvents evs w)) r)) ∧
    (∀ r, r < length (nobjs (heap w)) →
          node_id (nodeOf (heap (runEvents evs w)) r) = node_id (nodeOf (heap w) r) ∧
          component (nodeOf (heap (runEvents evs w)) r) = component (nodeOf (heap w) r) ∧
          (hasPorts (heap w) r → hasPorts (heap (runEvents evs w)) r)).
Proof.
  intros evs w.
  assert (evolves (heap w) (heap (runEvents evs w))) as (_ & Hc & _ & Hn).
  { revert w. induction evs as [|ev evs IH]; intros w; [apply evolves_refl|].
    cbn [runEvents]. eapply evolves_trans; [apply dispatch_evolves|apply IH]. }
  split; [exact Hc|]. intros r Hr. destruct (Hn r Hr) as [Hi Hk].
  split_and!; [done..|].
  unfold hasPorts, componentOf. rewrite Hk.
  destruct (Hc (component (nodeOf (heap w) r))) as (_ & _ & _ & _ & -> & ->). done.
Qed.

Lemma webview_events_only_move_and_rename_witness :
  0 < length (nobjs (heap selectingVSCode)) ∧
  hasPorts (heap selectingVSCode) 0 ∧
  node_id (nodeOf (heap afterRename) 0) = node_id (nodeOf (heap selectingVSCode) 0) ∧
  hasPorts (heap afterRename) 0 ∧
  color (compOf (heap afterRename) 0) = color (compOf (heap selectingVSCode) 0) ∧
  comp_name (compOf (heap afterRename) 0) = "Core" ∧
  node_x (nodeOf (heap afterRename) 0) = 190%Z.
Proof.
  assert (0 < length (nobjs (heap selectingVSCode))) as Hl by (vm_compute; lia).
  assert (hasPorts (heap selectingVSCode) 0) as Hp
    by (split; eexists; vm_compute; reflexivity).
  destruct (webview_events_only_move_and_rename renameSession selectingVSCode) as [Hc Hn].
  destruct (Hn 0 Hl) as (Hi & _ & Hk).
  destruct (Hc 0) as (_ & _ & _ & Hcol & _).
  split_and!; [exact Hl|exact Hp|exact Hi|exact (Hk Hp)|exact Hcol
              |vm_compute; reflexivity|vm_compute; reflexivity].
Defined.

(** ** The browser canvas never starts a connect gesture *)

Lemma keeps_ret {A} (a : A) : keeps (mret a).
Proof. by intros w. Qed.

Lemma keeps_get : keeps get.
Proof. by intros w. Qed.

Lemma keeps_portArray o : keeps (portArray o).
Proof. destruct o; by intros w. Qed.

Lemma keeps_bind {A B} (m : M Browser.W A) (f : A → M Browser.W B) :
  keeps m → (∀ a, keeps (f a)) → keeps (m ≫= f).
Proof.
  intros Hm Hf w Hw. specialize (Hm w Hw). unfold mbind, M_bind.
  destruct (m w) as [a w'|e w']; [by apply Hf|done].
Qed.

Lemma keeps_forEach {A} (l : list A) (body : A → M Browser.W unit) :
  (∀ a, keeps (body a)) → keeps (forEach l body).
Proof.
  intros Hb. induction l as [|a l IH]; [by intros w|].
  cbn [forEach]. apply keeps_bind; [apply Hb|by intros []].
Qed.

Lemma keeps_paint op : dashed op = false → keeps (Browser.paint op).
Proof.
  intros Hop [h c] Hw. destruct c. unfold Browser.paint. mrun. bfields.
  apply Forall_app. split; [done|by constructor].
Qed.

Ltac keeps_step :=
  lazymatch goal with
  | |- keeps (mret _) => apply keeps_ret
  | |- keeps get => apply keeps_get
  | |- keeps (portArray _) => apply keeps_portArray
  | |- keeps (forEach _ _) => apply keeps_forEach; intros ?
  | |- keeps (mbind _ _) => apply keeps_bind; [|intros ?]
  | |- keeps (Browser.paint _) => apply keeps_paint; reflexivity
  | |- keeps (match ?x with _ => _ end) => destruct x
  | |- keeps (let _ := _ in _) => cbv zeta
  end.

Lemma browser_drawNode_keeps r sel : keeps (Browser.drawNode r sel).
Proof. unfold Browser.drawNode. repeat keeps_step. Qed.

Lemma browser_drawNodes_keeps : keeps Browser.drawNodes.
Proof.
  unfold Browser.drawNodes. repeat keeps_step. apply browser_drawNode_keeps.
Qed.

Lemma browser_drawConnections_keeps : keeps Browser.drawConnections.
Proof. unfold Browser.drawConnections, Browser.drawConnection. repeat keeps_step. Qed.

Lemma noGesture_repaint (w w' : Browser.W) :
  repaint w w' →
  Browser.isConnecting (this w) = false → Browser.connectingFrom (this w) = None →
  Forall (λ op, dashed op = false) (Browser.ctx (this w')) → noGesture w'.
Proof.
  unfold noGesture. intros [_ [ops Hp]] Hi Hc Hs. rewrite Hp in *.
  destruct w as [h []]. cbn [withSurface Browser_Surface] in *. by bfields.
Qed.

Lemma browser_draw_noGesture (w : Browser.W) :
  Browser.isConnecting (this w) = false → Browser.connectingFrom (this w) = None →
  noGesture (final (Browser.draw w)).
Proof.
  intros Hi Hc.
  assert (Forall (λ op, dashed op = false) (Browser.ctx (this (final (Browser.draw w)))))
    as Hs; [|exact (noGesture_repaint _ _ (browser_draw_paints w) Hi Hc Hs)].
  unfold Browser.draw. erewrite bind_Returned by reflexivity.
  set (w1 := mkWorld (heap w) (Browser.set_ctx [] (this w))).
  assert (noGesture w1) as (Hi1 & Hc1 & Hs1).
  { unfold noGesture, w1. destruct w as [h []]. bfields. by split_and!. }
  pose proof (browser_drawConnections_paints w1) as Hp2.
  pose proof (browser_drawConnections_keeps w1 Hs1) as Hk2.
  unfold mbind at 1, M_bind at 1.
  destruct (Browser.drawConnections w1) as [[] w2|e2 w2]; cbn [final] in Hp2, Hk2 |- *;
    [|done].
  destruct (noGesture_repaint _ _ Hp2 Hi1 Hc1 Hk2) as (Hi2 & Hc2 & Hs2).
  pose proof (browser_drawNodes_paints w2) as Hp3.
  pose proof (browser_drawNodes_keeps w2 Hs2) as Hk3.
  unfold mbind at 1, M_bind at 1.
  destruct (Browser.drawNodes w2) as [[] w3|e3 w3]; cbn [final] in Hp3, Hk3 |- *;
    [|done].
  destruct (noGesture_repaint _ _ Hp3 Hi2 Hc2 Hk3) as (Hi3 & Hc3 & Hs3).
  mrun. by rewrite Hi3.
Qed.

Ltac draw_noGesture :=
  match goal with |- context [Browser.draw ?W] =>
    let Hg := fresh "Hg" in
    pose proof (browser_draw_noGesture W eq_refl eq_refl) as Hg;
    destruct (Browser.draw W) as [[] [? []]|? [? []]]; cbn [final] in Hg |- *;
    unfold noGesture in Hg; bfields; destruct Hg as (-> & -> & Hg)
  end.

Lemma call_noGesture k (w : Browser.W) : noGesture w → noGesture (call k w).
Proof.
  unfold noGesture at 1. destruct w as [h c]. destruct c. bfields.
  intros (-> & -> & Hs). destruct k; cbn [call].
  - unfold Browser.handleMouseDown, Browser.getNodeAtPosition. mrun. bfields.
    destruct (nodeAtPosition _ _ _); mrun; by bfields.
  - unfold Browser.handleMouseMove. mrun. bfields.
    destruct isDragging; [destruct selectedNode|]; mrun; bfields;
      try draw_noGesture; unfold noGesture; by bfields.
  - unfold Browser.handleMouseUp. mrun. by bfields.
  - unfold Browser.handleClick, Browser.getNodeAtPosition. mrun. bfields.
    destruct isDragging; [|destruct (nodeAtPosition _ _ _)]; mrun; bfields;
      apply browser_draw_noGesture; reflexivity.
  - unfold Browser.addNode, allocNode. mrun. bfields.
    draw_noGesture; unfold noGesture; by bfields.
  - rewrite browser_removeNode_draw. unfold removed. bfields.
    destruct selectedNode; [destruct (String.eqb _ _)|];
      apply browser_draw_noGesture; reflexivity.
  - unfold Browser.addConnection. mrun. bfields.
    draw_noGesture; unfold noGesture; by bfields.
  - unfold Browser.updateNodeProperty. mrun. bfields.
    destruct (findNode _ _ _); mrun; bfields;
      try draw_noGesture; unfold noGesture; by bfields.
  - unfold Browser.loadProjectData. mrun. bfields.
    destruct (pd_nodes _), (pd_connections _); mrun; bfields;
      apply browser_draw_noGesture; reflexivity.
Qed.

(** X15: the browser canvas never starts a connect gesture.  From a new
    canvas, whatever mouse, touch and click events arrive and whatever
    public methods are called, [isConnecting] stays false and
    [connectingFrom] null, so [drawConnectingLine] is never reached: no
    dashed line is ever on the surface. *)
Theorem browser_canvas_never_connects :
  ∀ (h : Store) (ks : list CanvasCall),
    Browser.isConnecting (this (runCalls ks (mkWorld h Browser.newCanvas))) = false ∧
    Browser.connectingFrom (this (runCalls ks (mkWorld h Browser.newCanvas))) = None ∧
    Forall (λ op, dashed op = false)
           (Browser.ctx (this (runCalls ks (mkWorld h Browser.newCanvas)))).
Proof.
  intros h ks.
  assert (noGesture (mkWorld h Browser.newCanvas)) as Hw by (by split_and!).
  revert Hw. generalize (mkWorld h Browser.newCanvas).
  induction ks as [|k ks IH]; intros w Hw; [exact Hw|].
  cbn [runCalls]. apply IH. by apply call_noGesture.
Qed.

(** ** Ports of the webview canvas *)

Lemma scanPorts_hit nodeId portX nodeY pos ports (i0 : Z) (i : nat) p :
  ports !! i = Some p →
  (Z.abs (px pos - portX) ≤ 5)%Z →
  (Z.abs (py pos - (nodeY + 15 + (i0 + Z.of_nat i) * 20)) ≤ 5)%Z →
  VSCode.scanPorts nodeId portX nodeY pos ports i0 = Some (mkPortRef nodeId p).
Proof.
  revert i0 i. induction ports as [|q ports IH]; intros i0 i Hl Hx Hy; [done|].
  cbn [VSCode.scanPorts]. destruct i as [|i].
  - injection Hl as ->.
    rewrite (proj2 (Z.leb_le _ _) Hx). replace (i0 + Z.of_nat 0)%Z with i0 in Hy by lia.
    by rewrite (proj2 (Z.leb_le _ _) Hy).
  - assert ((Z.abs (py pos - (nodeY + 15 + i0 * 20)) <=? 5)%Z = false) as ->
      by (apply Z.leb_gt; lia).
    rewrite andb_false_r. apply (IH _ i); [done|done|].
    replace (i0 + 1 + Z.of_nat i)%Z with (i0 + Z.of_nat (S i))%Z by lia. done.
Qed.

Lemma scanPorts_miss nodeId portX nodeY pos ports i0 :
  (5 < Z.abs (px pos - portX))%Z →
  VSCode.scanPorts nodeId portX nodeY pos ports i0 = None.
Proof.
  intros Hx. revert i0. induction ports as [|q ports IH]; intros i0; [done|].
  cbn [VSCode.scanPorts]. rewrite (proj2 (Z.leb_gt _ _) Hx). cbn [andb]. apply IH.
Qed.

Lemma vscode_portAtPosition_head h r ns pos (w : VSCode.W) ins outs :
  inputs (componentOf h r) = Some ins →
  outputs (componentOf h r) = Some outs →
  (∀ (i : nat) p, ins !! i = Some p → near pos (inputCentre (nodeOf h r) (Z.of_nat i)) →
     VSCode.portAtPosition h (r :: ns) pos w
       = Returned (Some (mkPortRef (node_id (nodeOf h r)) p)) w) ∧
  (∀ (i : nat) p, outs !! i = Some p → near pos (outputCentre (nodeOf h r) (Z.of_nat i)) →
     VSCode.portAtPosition h (r :: ns) pos w
       = Returned (Some (mkPortRef (node_id (nodeOf h r)) p)) w).
Proof.
  intros Hi Ho. unfold near, inputCentre, outputCentre. cbn [px py].
  split; intros i p Hl [Hx Hy]; cbn [VSCode.portAtPosition]; rewrite Hi; mrun.
  - by rewrite (scanPorts_hit _ _ _ _ _ 0 i p).
  - rewrite scanPorts_miss by lia. rewrite Ho.
    by rewrite (scanPorts_hit _ _ _ _ _ 0 i p).
Qed.

Lemma vscode_portAtPosition_some h ns r pos (w : VSCode.W) :
  Forall (hasPorts h) ns → r ∈ ns →
  (∃ port, VSCode.portAtPosition h (r :: []) pos w = Returned (Some port) w) →
  ∃ port, VSCode.portAtPosition h ns pos w = Returned (Some port) w.
Proof.
  intros Ht Hin [port Hr]. induction ns as [|r' ns IH]; [by apply elem_of_nil in Hin|].
  apply Forall_cons in Ht as [Hp Ht].
  destruct (hasPorts_arrays _ _ Hp) as (ins & outs & Hi & Ho).
  cbn [VSCode.portAtPosition] in Hr |- *. rewrite Hi. mrun.
  destruct (VSCode.scanPorts _ _ _ pos ins 0) as [p1|] eqn:E1; [by eexists|].
  rewrite Ho. destruct (VSCode.scanPorts _ _ _ pos outs 0) as [p2|] eqn:E2; [by eexists|].
  apply elem_of_cons in Hin as [->|Hin]; [|by apply IH].
  rewrite Hi in Hr. revert Hr. mrun. rewrite E1, Ho, E2. done.
Qed.

Lemma vscode_forEach_paint {A} (l : list A) (g : A → DrawOp) (w : VSCode.W) :
  forEach l (λ i, VSCode.paint (g i)) w =
    Returned tt (mkWorld (heap w) (VSCode.set_ctx (VSCode.ctx (this w) ++ (g <$> l)) (this w))).
Proof.
  revert w. induction l as [|a l IH]; intros [h c]; destruct c.
  - cbn. by rewrite app_nil_r.
  - cbn [forEach]. erewrite bind_Returned by reflexivity. rewrite IH.
    unfold VSCode.paint. mrun. vfields. by rewrite <-app_assoc.
Qed.

(** X16: in the webview canvas the ports are hit where they are drawn.
    For a node whose component has its port arrays, [drawNode] puts the
    node's box (three instructions, no circle) and then one circle of
    radius 5 per port on the surface, inputs at [(x - 10, y + 15 + 20 i)],
    outputs at [(x + 110, y + 15 + 20 i)].  A point within 5 of the centre
    of port [i] in both coordinates is answered by [getPortAtPosition] with
    that port of that node when the node is the first of the node array, and
    with some port whenever the node is on a canvas whose nodes all have
    port arrays. *)
Theorem ports_are_hit_where_drawn :
  ∀ (w : VSCode.W) r ins outs,
    inputs (componentOf (heap w) r) = Some ins →
    outputs (componentOf (heap w) r) = Some outs →
    (∀ sel, ∃ box,
       length box = 3 ∧ Forall (λ op, isArc op = false) box ∧
       VSCode.ctx (this (final (VSCode.drawNode r sel w))) =
         VSCode.ctx (this w) ++ box ++
         ((λ i, portCircle "#ff0000" (inputCentre (nodeOf (heap w) r) i)) <$> indices ins) ++
         ((λ i, portCircle "#00ff00" (outputCentre (nodeOf (heap w) r) i)) <$> indices outs)) ∧
    (∀ pos (i : nat) p c,
       ins !! i = Some p ∧ c = inputCentre (nodeOf (heap w) r) (Z.of_nat i) ∨
       outs !! i = Some p ∧ c = outputCentre (nodeOf (heap w) r) (Z.of_nat i) →
       near pos c →
       (∀ ns, VSCode.nodes (this w) = r :: ns →
              VSCode.getPortAtPosition pos w
                = Returned (Some (mkPortRef (node_id (nodeOf (heap w) r)) p)) w) ∧
       (typed w → r ∈ VSCode.nodes (this w) →
        ∃ port, VSCode.getPortAtPosition pos w = Returned (Some port) w)).
Proof.
  intros w r ins outs Hi Ho. split.
  - intros sel.
    exists [FillRect (if sel then "#ffeb3b" else color (componentOf (heap w) r))
              (node_x (nodeOf (heap w) r)) (node_y (nodeOf (heap w) r)) 100 50;
            StrokeRect "#000000" (if sel then 3%Z else 1%Z)
              (node_x (nodeOf (heap w) r)) (node_y (nodeOf (heap w) r)) 100 50;
            FillText "#000000" "14px Arial" (comp_name (componentOf (heap w) r))
              (node_x (nodeOf (heap w) r) + 50) (node_y (nodeOf (heap w) r) + 25)].
    split; [done|]. split; [by repeat constructor|].
    unfold VSCode.drawNode. erewrite bind_Returned by reflexivity. cbv zeta.
    rewrite Hi, Ho. do 4 (erewrite bind_Returned by reflexivity).
    erewrite bind_Returned by apply vscode_forEach_paint.
    erewrite bind_Returned by reflexivity. rewrite vscode_forEach_paint.
    destruct w as [h c]. destruct c. unfold VSCode.paint. mrun. vfields.
    unfold portCircle, inputCentre, outputCentre. cbn [px py app].
    by rewrite <-!app_assoc.
  - intros pos i p c Hc Hnear.
    destruct (vscode_portAtPosition_head (heap w) r [] pos w ins outs Hi Ho) as [Hin0 Hout0].
    assert (∀ ns, VSCode.portAtPosition (heap w) (r :: ns) pos w
              = Returned (Some (mkPortRef (node_id (nodeOf (heap w) r)) p)) w) as Hhead.
    { intros ns.
      destruct (vscode_portAtPosition_head (heap w) r ns pos w ins outs Hi Ho) as [Hin Hout].
      destruct Hc as [[Hl ->]|[Hl ->]]; [by apply (Hin i)|by apply (Hout i)]. }
    split.
    + intros ns Hns. unfold VSCode.getPortAtPosition. mrun. rewrite Hns. apply Hhead.
    + intros Ht Hr. unfold VSCode.getPortAtPosition. mrun.
      apply (vscode_portAtPosition_some _ _ r); [exact Ht|exact Hr|].
      eexists. apply Hhead.
Qed.

Lemma ports_are_hit_where_drawn_witness :
  inputs (componentOf (heap twoNodesVSCode) 0) = Some ["in"] ∧
  outputs (componentOf (heap twoNodesVSCode) 0) = Some ["out"] ∧
  near (mkPoint 113 12) (outputCentre (nodeOf (heap twoNodesVSCode) 0) 0) ∧
  VSCode.getPortAtPosition (mkPoint 113 12) twoNodesVSCode
    = Returned (Some (mkPortRef (genNodeId env1) "out")) twoNodesVSCode.
Proof.
  assert (inputs (componentOf (heap twoNodesVSCode) 0) = Some ["in"]) as Hi
    by (vm_compute; reflexivity).
  assert (outputs (componentOf (heap twoNodesVSCode) 0) = Some ["out"]) as Ho
    by (vm_compute; reflexivity).
  assert (near (mkPoint 113 12) (outputCentre (nodeOf (heap twoNodesVSCode) 0) 0)) as Hn
    by (vm_compute; split; discriminate).
  destruct (ports_are_hit_where_drawn twoNodesVSCode 0 ["in"] ["out"] Hi Ho) as [_ Hhit].
  destruct (Hhit (mkPoint 113 12) 0 "out"
              (outputCentre (nodeOf (heap twoNodesVSCode) 0) 0)
              (or_intror (conj eq_refl eq_refl)) Hn) as [Hfirst _].
  split_and!; [exact Hi|exact Ho|exact Hn|exact (Hfirst [1] eq_refl)].
Defined.






Lemma nodeAtPosition_app h l1 l2 pos :
  nodeAtPosition h (l1 ++ l2) pos =
    match nodeAtPosition h l1 pos with
    | Some r => Some r
    | None => nodeAtPosition h l2 pos
    end.
Proof.
  induction l1 as [|r l1 IH]; [done|]. cbn [app nodeAtPosition].
  by destruct (inBox _ _).
Qed.

Lemma nodeAtPosition_alloc h n ns pos :
  Forall (λ r, r < length (nobjs h)) ns →
  nodeAtPosition (mkStore (comps h) (nobjs h ++ [n])) ns pos = nodeAtPosition h ns pos.
Proof.
  induction 1 as [|r ns Hr _ IH]; [done|]. cbn [nodeAtPosition].
  by rewrite nodeOf_alloc_old, IH.
Qed.

Lemma nodeAtPosition_placed h n ns pos :
  Forall (λ r, r < length (nobjs h)) ns →
  inBox n pos = true →
  nodeAtPosition (mkStore (comps h) (nobjs h ++ [n])) (ns ++ [length (nobjs h)]) pos =
    Some (default (length (nobjs h)) (nodeAtPosition h ns pos)).
Proof.
  intros Ha Hin. rewrite nodeAtPosition_app, nodeAtPosition_alloc by done.
  destruct (nodeAtPosition h ns pos); [done|].
  cbn [nodeAtPosition default]. by rewrite nodeOf_alloc_new, Hin.
Qed.

(** X19: a node is under the point it was placed at.  After the webview's
    add-component tool has handled a press at [pos], and after the browser
    canvas's [addNode(component, x, y)] for any point of the box from
    [(x, y)] to [(x + 100, y + 50)], the hit test at that point finds a
    node: the one it found before if an earlier node covers the point,
    the new node otherwise. *)
Theorem placed_node_is_under_the_cursor :
  (∀ e pos sc (w : VSCode.W),
     VSCode.selectedTool (this w) = VSCode.ToolAddComponent →
     VSCode.selectedComponent (this w) = Some sc →
     allocated w →
     VSCode.getNodeAtPosition (final (VSCode.handleMouseDown e pos w)) pos =
       Some (default (length (nobjs (heap w))) (VSCode.getNodeAtPosition w pos))) ∧
  (∀ e c x y pos (w : Browser.W),
     allocated w →
     (x ≤ px pos ≤ x + 100)%Z → (y ≤ py pos ≤ y + 50)%Z →
     Browser.getNodeAtPosition (final (Browser.addNode e c x y w)) pos =
       Some (default (length (nobjs (heap w))) (Browser.getNodeAtPosition w pos))).
Proof.
  split.
  - intros e pos sc w Ht Hs Ha.
    assert (final (VSCode.handleMouseDown e pos w) =
            final (VSCode.handleAddComponentTool e
                     (mkWorld (heap w) (VSCode.set_mousePos pos (this w))))) as ->.
    { unfold VSCode.handleMouseDown. mrun. destruct w as [h []]. vfields. by subst. }
    destruct (vscode_handleAddComponentTool_final e
                (mkWorld (heap w) (VSCode.set_mousePos pos (this w))) sc) as [Hh Hn].
    { destruct w as [h []]. by vfields. }
    unfold VSCode.getNodeAtPosition. rewrite Hh, Hn.
    destruct w as [h []]. vfields. apply nodeAtPosition_placed; [exact Ha|].
    unfold inBox. cbn [node_x node_y]. 
    repeat (apply andb_true_intro; split); apply Z.leb_le; lia.
  - intros e c x y pos w Ha Hx Hy.
    destruct (browser_addNode_final e c x y w) as (Hh & Hn & _).
    unfold Browser.getNodeAtPosition. rewrite Hh, Hn.
    apply nodeAtPosition_placed; [exact Ha|].
    unfold inBox. cbn [node_x node_y].
    repeat (apply andb_true_intro; split); apply Z.leb_le; lia.
Qed.

Lemma placed_node_witness :
  VSCode.selectedTool (this oneNodeVSCode) = VSCode.ToolAddComponent ∧
  VSCode.selectedComponent (this oneNodeVSCode) = Some 0 ∧
  allocated oneNodeVSCode ∧
  VSCode.getNodeAtPosition
    (final (VSCode.handleMouseDown env2 (mkPoint 400 300) oneNodeVSCode)) (mkPoint 400 300)
    = Some (default (length (nobjs (heap oneNodeVSCode)))
                    (VSCode.getNodeAtPosition oneNodeVSCode (mkPoint 400 300))).
Proof.
  assert (VSCode.selectedTool (this oneNodeVSCode) = VSCode.ToolAddComponent) as Ht
    by (vm_compute; reflexivity).
  assert (VSCode.selectedComponent (this oneNodeVSCode) = Some 0) as Hs
    by (vm_compute; reflexivity).
  assert (allocated oneNodeVSCode) as Ha by (vm_compute; repeat constructor).
  split_and!; [exact Ht|exact Hs|exact Ha|].
  exact (proj1 placed_node_is_under_the_cursor env2 (mkPoint 400 300) 0 oneNodeVSCode
           Ht Hs Ha).
Defined.
